(** * whats-for-dinner: the ingredient normalizer, the aggregator, the
    preference scorer and learner, and the weekly combination search.

    A shallow embedding of [src/recommender/ingredient_parser.py],
    [src/recommender/weekly_planner.py] and
    [src/recommender/preference_updater.py], with the properties the
    specification states about them.

    Conventions of the embedding.
    - Python [str] is [string]; the model is exact for text made of code
      points below 128 (case mapping, white space and word characters are
      the ASCII ones).
    - Python [int] is [Z]; [len] results are [nat] and are injected where
      the source mixes them with integers.
    - Python [float] scores are idealised as exact rationals [Q].
    - A Python [set] of strings is a [gset string]; a [dict] whose
      iteration order is observable is an association list. *)

From Stdlib Require Import ZArith QArith Qround Ascii String List Bool Lia.
From stdpp Require Import base gmap strings list.

Local Open Scope string_scope.
Local Open Scope list_scope.

(** ** Python string primitives *)

Module Py.

Definition is_digit (c : ascii) : bool :=
  let n := nat_of_ascii c in (48 <=? n)%nat && (n <=? 57)%nat.

Definition is_upper (c : ascii) : bool :=
  let n := nat_of_ascii c in (65 <=? n)%nat && (n <=? 90)%nat.

Definition is_lower (c : ascii) : bool :=
  let n := nat_of_ascii c in (97 <=? n)%nat && (n <=? 122)%nat.

(** [\w]: letters, digits and the underscore. *)
Definition is_word (c : ascii) : bool :=
  is_digit c || is_upper c || is_lower c || Ascii.eqb c "_".

(** [\s] and the characters [str.strip()] removes: tab, line feed, vertical
    tab, form feed, carriage return, the four separators 0x1c-0x1f, space. *)
Definition is_space (c : ascii) : bool :=
  let n := nat_of_ascii c in
  ((9 <=? n)%nat && (n <=? 13)%nat) || ((28 <=? n)%nat && (n <=? 32)%nat).

Definition lower_char (c : ascii) : ascii :=
  if is_upper c then ascii_of_nat (nat_of_ascii c + 32) else c.

(** [s.lower()] *)
Fixpoint lower (s : string) : string :=
  match s with
  | EmptyString => EmptyString
  | String c s' => String (lower_char c) (lower s')
  end.

Fixpoint lstrip (s : string) : string :=
  match s with
  | String c s' => if is_space c then lstrip s' else s
  | EmptyString => EmptyString
  end.

Fixpoint rev_onto (s acc : string) : string :=
  match s with
  | EmptyString => acc
  | String c s' => rev_onto s' (String c acc)
  end.

Definition rev (s : string) : string := rev_onto s EmptyString.

Definition rstrip (s : string) : string := rev (lstrip (rev s)).

(** [s.strip()] *)
Definition strip (s : string) : string := rstrip (lstrip s).

(** [s.startswith(p)] *)
Fixpoint startswith (p s : string) : bool :=
  match p, s with
  | EmptyString, _ => true
  | String a p', String b s' => Ascii.eqb a b && startswith p' s'
  | String _ _, EmptyString => false
  end.

(** [s.endswith(suf)] *)
Definition endswith (s suf : string) : bool := startswith (rev suf) (rev s).

(** [s[:-n]] for a positive literal [n]. *)
Definition drop_last (n : nat) (s : string) : string :=
  String.substring 0 (String.length s - n) s.

(** [needle in hay] *)
Fixpoint contains (needle hay : string) : bool :=
  startswith needle hay ||
  match hay with
  | EmptyString => false
  | String _ hay' => contains needle hay'
  end.

(** Truthiness of an optional string: [None] and [''] are falsy. *)
Definition truthy_str (v : option string) : bool :=
  match v with
  | Some (String _ _) => true
  | _ => false
  end.

(** Truthiness of an optional integer: [None] and [0] are falsy. *)
Definition truthy_int (v : option Z) : bool :=
  match v with
  | Some n => negb (n =? 0)%Z
  | None => false
  end.

End Py.

(** ** The fragment of [re] the source uses

    Every quantified sub-pattern in the source repeats a one-character
    class ([\d+], [\d*], [\s+], [.*], [[^)]*]), so [Star] takes a class.
    Matching is the backtracking search of [re]: alternatives are tried
    left to right, repetition is greedy, and the first success wins. *)

Module Re.

Inductive regex : Type :=
| Eps : regex
| Chr : ascii -> regex
| Cls : (ascii -> bool) -> regex
| Seq : regex -> regex -> regex
| Alt : regex -> regex -> regex
| Star : (ascii -> bool) -> regex
| WordB : regex
| Eos : regex.

Definition Fail : regex := Cls (fun _ => false).
Definition Opt (r : regex) : regex := Alt r Eps.
Definition Plus (p : ascii -> bool) : regex := Seq (Cls p) (Star p).

(** A literal string, as [re.escape] produces it. *)
Fixpoint Lit (s : string) : regex :=
  match s with
  | EmptyString => Eps
  | String c s' => Seq (Chr c) (Lit s')
  end.

(** [(w1|w2|...|wn)] *)
Fixpoint Words (ws : list string) : regex :=
  match ws with
  | [] => Fail
  | [w] => Lit w
  | w :: ws' => Alt (Lit w) (Words ws')
  end.

(** [.] without DOTALL *)
Definition dot (c : ascii) : bool := negb (Ascii.eqb c "010").

Definition word_opt (c : option ascii) : bool :=
  match c with
  | Some c => Py.is_word c
  | None => false
  end.

Definition head (s : string) : option ascii :=
  match s with
  | String c _ => Some c
  | EmptyString => None
  end.

Section Matcher.
Context {A : Type}.

(** [k] is the rest of the pattern: it receives the character before the
    current position and the text that remains. *)
Definition cont : Type := option ascii -> string -> option A.

Fixpoint star_greedy (p : ascii -> bool) (k : cont) (prev : option ascii) (s : string) : option A :=
  match s with
  | String c s' =>
      if p c then
        match star_greedy p k (Some c) s' with
        | Some r => Some r
        | None => k prev s
        end
      else k prev s
  | EmptyString => k prev s
  end.

Fixpoint rmatch (r : regex) (k : cont) (prev : option ascii) (s : string) : option A :=
  match r with
  | Eps => k prev s
  | Chr c =>
      match s with
      | String d s' => if Ascii.eqb c d then k (Some d) s' else None
      | EmptyString => None
      end
  | Cls p =>
      match s with
      | String d s' => if p d then k (Some d) s' else None
      | EmptyString => None
      end
  | Seq r1 r2 => rmatch r1 (rmatch r2 k) prev s
  | Alt r1 r2 =>
      match rmatch r1 k prev s with
      | Some x => Some x
      | None => rmatch r2 k prev s
      end
  | Star p => star_greedy p k prev s
  | WordB => if xorb (word_opt prev) (word_opt (head s)) then k prev s else None
  | Eos =>
      match s with
      | EmptyString => k prev s
      | String "010" EmptyString => k prev s
      | _ => None
      end
  end.

End Matcher.

(** [nullable r]: [r] may match without reading a character. *)
Fixpoint nullable (r : regex) : bool :=
  match r with
  | Eps | Star _ | WordB | Eos => true
  | Chr _ | Cls _ => false
  | Seq r1 r2 => nullable r1 && nullable r2
  | Alt r1 r2 => nullable r1 || nullable r2
  end.

(** Length of the first non-empty match of [r] that starts at the current
    position, in the matcher's priority order. *)
Definition match_len (r : regex) (prev : option ascii) (s : string) : option nat :=
  rmatch r
    (fun _ rest =>
       if (String.length rest <? String.length s)%nat
       then Some (String.length s - String.length rest)%nat
       else None)
    prev s.

(** [re.sub(r, repl, s)]: scan left to right and replace every match by
    [repl].  [skip] counts the characters of the current match still to be
    dropped.  None of the source's patterns is [nullable], so only
    non-empty matches are looked for. *)
Fixpoint sub_go (r : regex) (repl : string) (skip : nat) (prev : option ascii) (s : string) : string :=
  match s with
  | EmptyString => EmptyString
  | String c s' =>
      match skip with
      | S n => sub_go r repl n (Some c) s'
      | O =>
          match match_len r prev s with
          | Some (S n) => repl +:+ sub_go r repl n (Some c) s'
          | _ => String c (sub_go r repl 0 (Some c) s')
          end
      end
  end.

Definition sub (r : regex) (repl : string) (s : string) : string := sub_go r repl 0 None s.

(** [bool(re.search(r, s))] *)
Fixpoint search_go (r : regex) (prev : option ascii) (s : string) : bool :=
  match rmatch r (fun _ _ => Some tt) prev s with
  | Some _ => true
  | None =>
      match s with
      | EmptyString => false
      | String c s' => search_go r (Some c) s'
      end
  end.

Definition search (r : regex) (s : string) : bool := search_go r None s.

(** [re.match(r, s)]: the text matched at the start of [s], if any. *)
Definition match_prefix (r : regex) (s : string) : option string :=
  match rmatch r (fun _ rest => Some rest) None s with
  | Some rest => Some (String.substring 0 (String.length s - String.length rest) s)
  | None => None
  end.

(** A literal under [re.IGNORECASE]; the literal is written in lower case. *)
Fixpoint LitI (s : string) : regex :=
  match s with
  | EmptyString => Eps
  | String c s' => Seq (Cls (fun d => Ascii.eqb (Py.lower_char d) c)) (LitI s')
  end.

Fixpoint WordsI (ws : list string) : regex :=
  match ws with
  | [] => Fail
  | [w] => LitI w
  | w :: ws' => Alt (LitI w) (WordsI ws')
  end.

End Re.

(** ** ingredient_parser.py *)

(** [PANTRY_STAPLES], in the order of the set literal.  The source only
    tests membership and loops until the first hit, so the order of
    iteration is not observable. *)
Definition PANTRY_STAPLES : list string :=
  [ "salt"; "kosher salt"; "sea salt";
    "ground black pepper"; "ground white pepper";
    "olive oil"; "vegetable oil"; "canola oil"; "cooking oil"; "oil";
    "butter"; "unsalted butter"; "salted butter";
    "water"; "ice"; "ice water";
    "sugar"; "brown sugar"; "white sugar"; "granulated sugar"; "powdered sugar";
    "flour"; "all-purpose flour"; "bread flour";
    "baking powder"; "baking soda";
    "vanilla"; "vanilla extract";
    "garlic powder"; "onion powder" ].

Import Re.

(** [\b(w1|...|wn)\b] *)
Definition bounded_words (ws : list string) : regex :=
  Seq WordB (Seq (Words ws) WordB).

(** [\([^)]*\)] *)
Definition parenthetical : regex :=
  Seq (Chr "(") (Seq (Star (fun c => negb (Ascii.eqb c ")"))) (Chr ")")).

Definition space_or_dash (c : ascii) : bool := Py.is_space c || Ascii.eqb c "-".

Definition measurements : list regex :=
  [ (* \d+[\s-]?\d*\/?\d* *)
    Seq (Plus Py.is_digit)
      (Seq (Opt (Cls space_or_dash))
         (Seq (Star Py.is_digit) (Seq (Opt (Chr "/")) (Star Py.is_digit))));
    bounded_words
      [ "cup"; "cups"; "tablespoon"; "tablespoons"; "teaspoon"; "teaspoons";
        "tbsp"; "tsp"; "oz"; "ounce"; "ounces"; "pound"; "pounds"; "lb"; "lbs";
        "gram"; "grams"; "g"; "kg"; "ml"; "l"; "litre"; "liter" ];
    bounded_words
      [ "can"; "cans"; "jar"; "jars"; "package"; "packages"; "bunch"; "bunches";
        "clove"; "cloves"; "head"; "heads"; "pinch"; "dash"; "handful" ];
    bounded_words [ "to" ] ].

Definition comma_or_semicolon (c : ascii) : bool := Ascii.eqb c "," || Ascii.eqb c ";".

Definition prep_words : list regex :=
  [ bounded_words
      [ "fresh"; "frozen"; "dried"; "canned"; "jarred"; "organic"; "raw"; "cooked" ];
    bounded_words
      [ "chopped"; "diced"; "minced"; "sliced"; "grated"; "shredded"; "crushed";
        "whole"; "halved"; "quartered" ];
    bounded_words [ "finely"; "coarsely"; "roughly"; "thinly"; "thickly" ];
    bounded_words
      [ "optional"; "or to taste"; "to taste"; "as needed"; "for serving"; "for garnish" ];
    bounded_words [ "plus more"; "and"; "or" ];
    (* [,;].*$ *)
    Seq (Cls comma_or_semicolon) (Seq (Star dot) Eos) ].

(** The [if/elif] chain that turns a plural into a singular. *)
Definition singularize (text : string) : string :=
  if Py.endswith text "ies" then Py.drop_last 3 text +:+ "y"
  else if Py.endswith text "oes" then Py.drop_last 2 text
  else if Py.endswith text "ses" then Py.drop_last 2 text
  else if Py.endswith text "s" && (3 <? String.length text)%nat then Py.drop_last 1 text
  else text.

Definition normalize_ingredient_name (ingredient_string : string) : string :=
  let text := Py.strip (Py.lower ingredient_string) in
  let text := sub parenthetical "" text in
  let text := fold_left (fun t pattern => sub pattern "" t) measurements text in
  let text := fold_left (fun t pattern => sub pattern "" t) prep_words text in
  let text := Py.strip (sub (Plus Py.is_space) " " text) in
  let text := singularize text in
  Py.strip (sub (bounded_words [ "a"; "an"; "the" ]) "" text).

Definition is_pantry_staple (ingredient : string) : bool :=
  let ingredient_lower := Py.strip (Py.lower ingredient) in
  if existsb (String.eqb ingredient_lower) PANTRY_STAPLES then true
  else
    existsb
      (fun staple =>
         if Py.contains " " staple
         then Py.contains staple ingredient_lower
         else search (Seq WordB (Seq (Lit staple) WordB)) ingredient_lower)
      PANTRY_STAPLES.

(** [[\d\s\/\-\(\)\.]] *)
Definition quantity_char (c : ascii) : bool :=
  Py.is_digit c || Py.is_space c || Ascii.eqb c "/" || Ascii.eqb c "-" ||
  Ascii.eqb c "(" || Ascii.eqb c ")" || Ascii.eqb c ".".

(** [^[\d\s\/\-\(\)\.]+(?:cup|cups|...|head|heads)?], compiled with
    [re.IGNORECASE]. *)
Definition quantity_pattern : regex :=
  Seq (Plus quantity_char)
    (Opt (WordsI
       [ "cup"; "cups"; "tablespoon"; "tablespoons"; "teaspoon"; "teaspoons";
         "tbsp"; "tsp"; "oz"; "ounce"; "ounces"; "pound"; "pounds"; "lb"; "lbs";
         "gram"; "grams"; "g"; "kg"; "ml"; "l"; "litre"; "liter";
         "can"; "cans"; "jar"; "jars"; "package"; "packages"; "packet"; "packets";
         "bunch"; "bunches"; "clove"; "cloves"; "head"; "heads" ])).

Definition extract_quantity_from_ingredient (ingredient_string : string) : string :=
  let text := Py.strip ingredient_string in
  match match_prefix quantity_pattern text with
  | Some group0 => Py.strip group0
  | None => ""
  end.

(** *** The aggregator

    An entry of an ingredient list is a dict, read through
    [ingredient.get('original', '')], or any other value, read through
    [str(ingredient)]. *)
Inductive Ingredient : Type :=
| Structured (original : option string)
| RawText (text : string).

(** The ['ingredients'] value of a recipe dict: a parsed sequence, or a
    string that [json.loads] has to decode. *)
Inductive IngredientsField : Type :=
| Parsed (entries : list Ingredient)
| Serialized (text : string).

(** A recipe dict as [recipe_to_dict] builds it.  [d_title] and
    [d_ingredients] are [None] when the key is absent, the case
    [recipe.get(key, default)] provides for. *)
Record RecipeDict : Type := {
  d_id : Z;
  d_title : option string;
  d_ingredients : option IngredientsField;
  d_cuisine_type : option string;
  d_dish_type : option string;
  d_difficulty : option string;
  d_ready_in_minutes : option Z
}.

Definition original_text (ingredient : Ingredient) : string :=
  match ingredient with
  | Structured original => default "" original
  | RawText text => text
  end.

Definition nonempty (s : string) : bool :=
  match s with
  | EmptyString => false
  | String _ _ => true
  end.

(** Integer nearest to [q], ties going to the even neighbour. *)
Definition round_half_even (q : Q) : Z :=
  let f := Qfloor q in
  match (q - inject_Z f ?= 1 # 2)%Q with
  | Lt => f
  | Gt => (f + 1)%Z
  | Eq => if Z.even f then f else (f + 1)%Z
  end.

(** [round(q, ndigits)] on the idealised value. *)
Definition py_round (q : Q) (ndigits : nat) : Q :=
  let scale := inject_Z (10 ^ Z.of_nat ndigits) in
  (inject_Z (round_half_even (q * scale)) / scale)%Q.

(** The dict [calculate_ingredient_savings] returns. *)
Record Savings : Type := {
  total_ingredients : Z;
  ingredients_if_separate : Z;
  savings : Z;
  overlap_percentage : Q
}.

Section Aggregator.

(** [json.loads] belongs to the Python standard library, not to the
    repository: it is a parameter.  [None] stands for the decoder raising;
    [Some entries] for a document that decodes to a sequence of entries.
    The field holds, as the specification's [RecipeLike] has it, a sequence
    or its serialized form; a document that decodes to anything else is
    outside the model. *)
Variable json_loads : string -> option (list Ingredient).

(** The parse step at the head of the loop body, [try]/[except] included. *)
Definition ingredient_entries (recipe : RecipeDict) : list Ingredient :=
  match d_ingredients recipe with
  | None => []
  | Some (Parsed entries) => entries
  | Some (Serialized text) =>
      match json_loads text with
      | Some entries => entries
      | None => []
      end
  end.

(** Body of the inner loop of [extract_unique_ingredients]. *)
Definition add_ingredient (unique_ingredients : gset string) (ingredient : Ingredient) : gset string :=
  let normalized := normalize_ingredient_name (original_text ingredient) in
  if nonempty normalized && negb (is_pantry_staple normalized)
  then unique_ingredients ∪ {[ normalized ]}
  else unique_ingredients.

Definition extract_unique_ingredients (recipes : list RecipeDict) : gset string :=
  fold_left
    (fun unique_ingredients recipe =>
       fold_left add_ingredient (ingredient_entries recipe) unique_ingredients)
    recipes ∅.

Definition count_ingredients_for_recipes (recipes : list RecipeDict) : nat :=
  size (extract_unique_ingredients recipes).

Definition get_ingredient_overlap (recipe1 recipe2 : RecipeDict) : gset string :=
  extract_unique_ingredients [recipe1] ∩ extract_unique_ingredients [recipe2].

(** One usage record of [extract_ingredients_with_details]. *)
Record Usage : Type := {
  usage_recipe : string;
  usage_quantity : string;
  usage_original : string
}.

(** [ingredients_map[normalized].append(usage)], creating the list on the
    first use of the key; the dict keeps its keys in insertion order. *)
Fixpoint append_usage (ingredients_map : list (string * list Usage)) (normalized : string) (usage : Usage) : list (string * list Usage) :=
  match ingredients_map with
  | [] => [ (normalized, [ usage ]) ]
  | (key, usages) :: rest =>
      if String.eqb key normalized
      then (key, usages ++ [ usage ]) :: rest
      else (key, usages) :: append_usage rest normalized usage
  end.

Definition add_usage (recipe_title : string) (ingredients_map : list (string * list Usage)) (ingredient : Ingredient) : list (string * list Usage) :=
  let original := original_text ingredient in
  let normalized := normalize_ingredient_name original in
  if negb (nonempty normalized) || is_pantry_staple normalized
  then ingredients_map
  else
    let quantity := extract_quantity_from_ingredient original in
    append_usage ingredients_map normalized
      {| usage_recipe := recipe_title;
         usage_quantity := if nonempty quantity then quantity else "as needed";
         usage_original := original |}.

Definition extract_ingredients_with_details (recipes : list RecipeDict) : list (string * list Usage) :=
  fold_left
    (fun ingredients_map recipe =>
       let recipe_title := default "Unknown Recipe" (d_title recipe) in
       fold_left (add_usage recipe_title) (ingredient_entries recipe) ingredients_map)
    recipes [].

Definition calculate_ingredient_savings (recipes : list RecipeDict) : Savings :=
  let total_ingredients := Z.of_nat (count_ingredients_for_recipes recipes) in
  let ingredients_if_separate :=
    fold_left Z.add
      (map (fun recipe => Z.of_nat (count_ingredients_for_recipes [ recipe ])) recipes) 0%Z in
  let savings := (ingredients_if_separate - total_ingredients)%Z in
  let overlap_percentage :=
    if (0 <? ingredients_if_separate)%Z
    then (inject_Z savings / inject_Z ingredients_if_separate * 100)%Q
    else 0%Q in
  {| total_ingredients := total_ingredients;
     ingredients_if_separate := ingredients_if_separate;
     savings := savings;
     overlap_percentage := py_round overlap_percentage 1 |}.

End Aggregator.

(** ** models/database.py: the rows the core reads *)

(** A row of [recipes].  [ingredients] is the [Text] column holding a JSON
    array. *)
Record Recipe : Type := {
  recipe_id : Z;
  title : string;
  ingredients : string;
  cuisine_type : option string;
  dish_type : option string;
  difficulty : option string;
  ready_in_minutes : option Z
}.

(** A row of [user_preferences]; [last_updated] is a clock reading. *)
Record UserPreference : Type := {
  user_id : Z;
  preference_type : string;
  preference_value : string;
  score : Q;
  last_updated : Z
}.

(** A row of [users], reduced to the column the planner reads. *)
Record User : Type := {
  max_ingredients_per_week : Z
}.

(** ** weekly_planner.py: the preference scorer *)

(** The lookup dict built at the head of [score_recipe_for_user]: a later
    row overwrites an earlier one with the same key. *)
Definition pref_lookup (user_preferences : list UserPreference) : gmap (string * string) Q :=
  fold_left
    (fun lookup pref => <[ (preference_type pref, preference_value pref) := score pref ]> lookup)
    user_preferences ∅.

(** [pref_lookup.get(key, 0.0)] *)
Definition get_score (lookup : gmap (string * string) Q) (key : string * string) : Q :=
  default 0%Q (lookup !! key).

(** The [if]/[elif]/[else] that names the cooking-time bucket. *)
Definition time_bucket (minutes : Z) : string :=
  if (minutes <? 30)%Z then "quick (<30min)"
  else if (minutes <=? 60)%Z then "medium (30-60min)"
  else "long (>60min)".

Definition score_recipe_for_user (recipe : Recipe) (user_preferences : list UserPreference) : Q :=
  let score := 0%Q in
  let lookup := pref_lookup user_preferences in
  let score :=
    if Py.truthy_str (cuisine_type recipe)
    then (score + get_score lookup ("cuisine_type", default "" (cuisine_type recipe)))%Q
    else score in
  let score :=
    if Py.truthy_str (dish_type recipe)
    then (score + get_score lookup ("dish_type", default "" (dish_type recipe)))%Q
    else score in
  let score :=
    if Py.truthy_str (difficulty recipe)
    then (score + get_score lookup ("difficulty", default "" (difficulty recipe)))%Q
    else score in
  let score :=
    if Py.truthy_int (ready_in_minutes recipe)
    then (score + get_score lookup ("cooking_time", time_bucket (default 0%Z (ready_in_minutes recipe))))%Q
    else score in
  score.

(** ** preference_updater.py: the preference learner *)

Definition calculate_score_delta (rating : Z) : Q := (inject_Z (rating - 3) * 1)%Q.

(** The filter of the query in [update_user_preference]. *)
Definition same_preference (uid : Z) (ptype pvalue : string) (pref : UserPreference) : bool :=
  (user_id pref =? uid)%Z && String.eqb (preference_type pref) ptype &&
  String.eqb (preference_value pref) pvalue.

(** The row [.first()] returned, after [pref.score += score_delta] and the
    new [last_updated]. *)
Definition bump (score_delta : Q) (now : Z) (pref : UserPreference) : UserPreference :=
  {| user_id := user_id pref;
     preference_type := preference_type pref;
     preference_value := preference_value pref;
     score := (score pref + score_delta)%Q;
     last_updated := now |}.

(** The table after the first row that passes [test] has been replaced by
    its image under [f]. *)
Fixpoint update_first (test : UserPreference -> bool) (f : UserPreference -> UserPreference) (table : list UserPreference) : list UserPreference :=
  match table with
  | [] => []
  | pref :: rest =>
      if test pref then f pref :: rest else pref :: update_first test f rest
  end.

(** The row the [else] branch of [update_user_preference] creates. *)
Definition new_row (uid : Z) (ptype pvalue : string) (score_delta : Q) (now : Z) : UserPreference :=
  {| user_id := uid;
     preference_type := ptype;
     preference_value := pvalue;
     score := score_delta;
     last_updated := now |}.

(** [update_user_preference] as a transformer of the [user_preferences]
    table.  [now] is the reading of [datetime.utcnow()]; the session
    commits, so the returned table is the stored one. *)
Definition update_user_preference (table : list UserPreference) (uid : Z) (ptype : string) (pvalue : option string) (score_delta : Q) (now : Z) : list UserPreference :=
  if negb (Py.truthy_str pvalue) then table
  else
    let value := default "" pvalue in
    match find (same_preference uid ptype value) table with
    | Some _ => update_first (same_preference uid ptype value) (bump score_delta now) table
    | None =>
        table ++ [ new_row uid ptype value score_delta now ]
    end.

(** [update_preferences_from_rating] over the [recipes] table and the
    [user_preferences] table. *)
Definition update_preferences_from_rating (recipes : list Recipe) (table : list UserPreference) (uid rid rating now : Z) : list UserPreference :=
  match find (fun recipe => (recipe_id recipe =? rid)%Z) recipes with
  | None => table
  | Some recipe =>
      let score_delta := calculate_score_delta rating in
      let table :=
        if Py.truthy_str (cuisine_type recipe)
        then update_user_preference table uid "cuisine_type" (cuisine_type recipe) score_delta now
        else table in
      let table :=
        if Py.truthy_str (dish_type recipe)
        then update_user_preference table uid "dish_type" (dish_type recipe) score_delta now
        else table in
      let table :=
        if Py.truthy_str (difficulty recipe)
        then update_user_preference table uid "difficulty" (difficulty recipe) score_delta now
        else table in
      let table :=
        if Py.truthy_int (ready_in_minutes recipe)
        then
          update_user_preference table uid "cooking_time"
            (Some (time_bucket (default 0%Z (ready_in_minutes recipe)))) score_delta now
        else table in
      table
  end.

(** ** weekly_planner.py: the weekly combination search *)

(** [itertools.combinations(pool, r)] for [r >= 0], in the order the
    iterator yields: lexicographic in the positions of the pool. *)
Fixpoint combinations {A : Type} (pool : list A) (r : nat) : list (list A) :=
  match r with
  | O => [ [] ]
  | S r' =>
      match pool with
      | [] => []
      | x :: rest => map (cons x) (combinations rest r') ++ combinations rest r
      end
  end.

(** [x > y] on scores. *)
Definition Qgtb (x y : Q) : bool := negb (Qle_bool x y).

(** [sorted(recipes, key=..., reverse=True)]: descending and stable, so
    rows with equal keys keep their order. *)
Fixpoint insert_desc {A : Type} (key : A -> Q) (x : A) (sorted : list A) : list A :=
  match sorted with
  | [] => [ x ]
  | y :: rest => if Qgtb (key y) (key x) then y :: insert_desc key x rest else x :: sorted
  end.

Definition sorted_desc {A : Type} (key : A -> Q) (l : list A) : list A :=
  fold_right (insert_desc key) [] l.

(** [sorted(list(unique_ingredients))] *)
Fixpoint insert_str (x : string) (sorted : list string) : list string :=
  match sorted with
  | [] => [ x ]
  | y :: rest => if String.ltb y x then y :: insert_str x rest else x :: sorted
  end.

Definition sorted_strings (l : list string) : list string := fold_right insert_str [] l.

Inductive PlannerError : Type :=
| ValueError_user_not_found
| ValueError_not_enough_recipes (need : Z) (have : nat)
| ValueError_r_must_be_non_negative
| ZeroDivisionError.

(** What a run does that a caller could observe or that costs work: the
    log lines, the calls of the scorer in the scoring loop, and the
    iterations of the combination loop. *)
Inductive Event : Type :=
| LogEvaluating (available : nat)
| LogTooManyCombinations (total : Z)
| LogSelected (num_recipes : Z) (ingredient_count : nat) (budget : Z)
| Scored (rid : Z)
| Evaluated (rids : list Z).

(** A computation that logs events and may raise. *)
Definition Planner (A : Type) : Type := (list Event * (PlannerError + A))%type.

Definition ret {A : Type} (a : A) : Planner A := ([], inr a).

Definition raise {A : Type} (e : PlannerError) : Planner A := ([], inl e).

Definition emit (ev : Event) : Planner unit := ([ ev ], inr tt).

Definition bind {A B : Type} (m : Planner A) (f : A -> Planner B) : Planner B :=
  match m with
  | (events, inl e) => (events, inl e)
  | (events, inr a) => let (events', r) := f a in (events ++ events', r)
  end.

Notation "'let*' x ':=' m 'in' f" := (bind m (fun x => f))
  (at level 10, x binder, m at level 100, f at level 200).
Notation "'do' m 'then' f" := (bind m (fun _ => f))
  (at level 10, m at level 100, f at level 200).

(** [for x in xs: state = body(state, x)] *)
Fixpoint for_each {A S : Type} (xs : list A) (body : S -> A -> Planner S) (state : S) : Planner S :=
  match xs with
  | [] => ret state
  | x :: rest => let* state' := body state x in for_each rest body state'
  end.

(** [best_stats] as the loop leaves it. *)
Record BestStats : Type := {
  ingredient_count : nat;
  avg_preference_score : Q;
  combined_score : Q;
  individual_scores : gmap Z Q
}.

(** The loop variables [best_combination], [best_score] and [best_stats]
    are assigned together; [None] is their initial value
    [(None, float('-inf'), None)]. *)
Definition Best : Type := option (list Recipe * Q * BestStats).

(** [best_stats] after [update]. *)
Record Stats : Type := {
  stats_best : BestStats;
  stats_savings : Savings;
  stats_unique_ingredients : list string;
  stats_detailed_ingredients : list (string * list Usage);
  stats_max_ingredients_budget : Z;
  stats_within_budget : bool
}.

Definition recipe_to_dict (recipe : Recipe) : RecipeDict :=
  {| d_id := recipe_id recipe;
     d_title := Some (title recipe);
     d_ingredients := Some (Serialized (ingredients recipe));
     d_cuisine_type := cuisine_type recipe;
     d_dish_type := dish_type recipe;
     d_difficulty := difficulty recipe;
     d_ready_in_minutes := ready_in_minutes recipe |}.

(** [recipe_scores[rid]]; the dict holds every id of the pool. *)
Definition score_of (recipe_scores : gmap Z Q) (rid : Z) : Q :=
  default 0%Q (recipe_scores !! rid).

(** [sum(recipe_scores[r.id] for r in combo)] *)
Definition sum_scores (recipe_scores : gmap Z Q) (combo : list Recipe) : Q :=
  fold_left (fun acc recipe => (acc + score_of recipe_scores (recipe_id recipe))%Q) combo 0%Q.

(** [{r.id: recipe_scores[r.id] for r in combo}] *)
Definition scores_of_combo (recipe_scores : gmap Z Q) (combo : list Recipe) : gmap Z Q :=
  fold_left
    (fun d recipe => <[ recipe_id recipe := score_of recipe_scores (recipe_id recipe) ]> d)
    combo ∅.

(** [x / num_recipes] *)
Definition divide (x : Q) (num_recipes : Z) : Planner Q :=
  if (num_recipes =? 0)%Z then raise ZeroDivisionError
  else ret (x / inject_Z num_recipes)%Q.

(** [combined_score > best_score]; every score exceeds [float('-inf')]. *)
Definition improves (combined_score : Q) (best : Best) : bool :=
  match best with
  | None => true
  | Some (_, best_score, _) => Qgtb combined_score best_score
  end.

Section Planner.

Variable json_loads : string -> option (list Ingredient).

(** Body of the scoring loop. *)
Definition score_one (user_prefs : list UserPreference) (recipe_scores : gmap Z Q) (recipe : Recipe) : Planner (gmap Z Q) :=
  do emit (Scored (recipe_id recipe)) then
  ret (<[ recipe_id recipe := score_recipe_for_user recipe user_prefs ]> recipe_scores).

(** Body of the combination loop. *)
Definition evaluate (user : User) (num_recipes : Z) (recipe_scores : gmap Z Q) (best : Best) (combo : list Recipe) : Planner Best :=
  do emit (Evaluated (map recipe_id combo)) then
  let combo_dicts := map recipe_to_dict combo in
  let ingredient_count := count_ingredients_for_recipes json_loads combo_dicts in
  let* avg_pref_score := divide (sum_scores recipe_scores combo) num_recipes in
  let ingredient_penalty :=
    if (max_ingredients_per_week user <? Z.of_nat ingredient_count)%Z
    then (Z.of_nat ingredient_count - max_ingredients_per_week user)%Z
    else 0%Z in
  let combined_score := (avg_pref_score - inject_Z ingredient_penalty * (1 # 2))%Q in
  if improves combined_score best
  then
    ret (Some (combo, combined_score,
               {| ingredient_count := ingredient_count;
                  avg_preference_score := py_round avg_pref_score 2;
                  combined_score := py_round combined_score 2;
                  individual_scores := scores_of_combo recipe_scores combo |}))
  else ret best.

(** The branch taken when the loop never assigned [best_combination]. *)
Definition fallback (available_recipes : list Recipe) (num_recipes : Z) (r : nat) (recipe_scores : gmap Z Q) : Planner (list Recipe * BestStats) :=
  let sorted_recipes :=
    sorted_desc (fun recipe => score_of recipe_scores (recipe_id recipe)) available_recipes in
  let best_combination := firstn r sorted_recipes in
  let combo_dicts := map recipe_to_dict best_combination in
  let ingredient_count := count_ingredients_for_recipes json_loads combo_dicts in
  let* avg_pref_score := divide (sum_scores recipe_scores best_combination) num_recipes in
  ret (best_combination,
       {| ingredient_count := ingredient_count;
          avg_preference_score := py_round avg_pref_score 2;
          combined_score := py_round avg_pref_score 2;
          individual_scores := scores_of_combo recipe_scores best_combination |}).

(** [get_weekly_recommendations], from the three queries on: [user] is the
    result of the user query, [user_prefs] of the preference query and
    [available_recipes] of [get_available_recipes]. *)
Definition get_weekly_recommendations (user : option User) (user_prefs : list UserPreference) (available_recipes : list Recipe) (num_recipes : Z) : Planner (list Recipe * Stats) :=
  match user with
  | None => raise ValueError_user_not_found
  | Some user =>
      if (Z.of_nat (length available_recipes) <? num_recipes)%Z
      then raise (ValueError_not_enough_recipes num_recipes (length available_recipes))
      else
        do emit (LogEvaluating (length available_recipes)) then
        let* recipe_scores := for_each available_recipes (score_one user_prefs) ∅ in
        let max_combinations := 10000%Z in
        let* r :=
          if (num_recipes <? 0)%Z then raise ValueError_r_must_be_non_negative
          else ret (Z.to_nat num_recipes) in
        let total_combinations :=
          Z.of_nat (length (combinations (seq 0 (length available_recipes)) r)) in
        let* candidate_recipes :=
          if (max_combinations <? total_combinations)%Z
          then
            do emit (LogTooManyCombinations total_combinations) then
            let sorted_recipes :=
              sorted_desc (fun recipe => score_of recipe_scores (recipe_id recipe))
                available_recipes in
            ret (firstn (Nat.min 50 (length sorted_recipes)) sorted_recipes)
          else ret available_recipes in
        let* best :=
          for_each (combinations candidate_recipes r)
            (evaluate user num_recipes recipe_scores) None in
        let* chosen :=
          match best with
          | Some (best_combination, _, best_stats) => ret (best_combination, best_stats)
          | None => fallback available_recipes num_recipes r recipe_scores
          end in
        let (best_combination, best_stats) := chosen in
        let combo_dicts := map recipe_to_dict best_combination in
        let savings_info := calculate_ingredient_savings json_loads combo_dicts in
        let unique_ingredients := extract_unique_ingredients json_loads combo_dicts in
        let detailed_ingredients := extract_ingredients_with_details json_loads combo_dicts in
        do emit (LogSelected num_recipes (ingredient_count best_stats)
                   (max_ingredients_per_week user)) then
        ret (best_combination,
             {| stats_best := best_stats;
                stats_savings := savings_info;
                stats_unique_ingredients := sorted_strings (elements unique_ingredients);
                stats_detailed_ingredients := detailed_ingredients;
                stats_max_ingredients_budget := max_ingredients_per_week user;
                stats_within_budget :=
                  (total_ingredients savings_info <=? max_ingredients_per_week user)%Z |})
  end.

End Planner.

(** ** A decoder to run the model with

    [json_loads_string_arrays] agrees with [json.loads] on arrays of plain
    string literals (no escapes) and on text that is not JSON at all.  The
    theorems below hold for every decoder; this one instantiates them on
    concrete recipes. *)

Inductive DecoderState : Type :=
| BeforeArray
| ExpectItemOrClose
| InLiteral (acc : string)
| AfterItem
| ExpectItem
| AfterArray.

Definition json_space (c : ascii) : bool :=
  Ascii.eqb c " " || Ascii.eqb c "009" || Ascii.eqb c "010" || Ascii.eqb c "013".

Fixpoint decode_go (st : DecoderState) (items : list Ingredient) (s : string) : option (list Ingredient) :=
  match s with
  | EmptyString =>
      match st with
      | AfterArray => Some (List.rev items)
      | _ => None
      end
  | String c s' =>
      match st with
      | InLiteral acc =>
          if Ascii.eqb c "034" then decode_go AfterItem (RawText (Py.rev acc) :: items) s'
          else if Ascii.eqb c "\" || (nat_of_ascii c <? 32)%nat then None
          else decode_go (InLiteral (String c acc)) items s'
      | _ =>
          if json_space c then decode_go st items s'
          else
            match st with
            | BeforeArray => if Ascii.eqb c "[" then decode_go ExpectItemOrClose items s' else None
            | ExpectItemOrClose =>
                if Ascii.eqb c "]" then decode_go AfterArray items s'
                else if Ascii.eqb c "034" then decode_go (InLiteral EmptyString) items s'
                else None
            | AfterItem =>
                if Ascii.eqb c "]" then decode_go AfterArray items s'
                else if Ascii.eqb c "," then decode_go ExpectItem items s'
                else None
            | ExpectItem =>
                if Ascii.eqb c "034" then decode_go (InLiteral EmptyString) items s' else None
            | _ => None
            end
      end
  end.

Definition json_loads_string_arrays (s : string) : option (list Ingredient) :=
  decode_go BeforeArray [] s.

(** [json.dumps] of a list of plain strings, with its [", "] separator. *)
Definition quoted (item : string) : string :=
  String "034" (item +:+ String "034" EmptyString).

Fixpoint join_items (items : list string) : string :=
  match items with
  | [] => ""
  | [ item ] => quoted item
  | item :: rest => quoted item +:+ ", " +:+ join_items rest
  end.

Definition json_dumps_strings (items : list string) : string :=
  "[" +:+ join_items items +:+ "]".

(** ** Concrete data to run the model on *)

Definition example_recipe (rid : Z) (name : string) (lines : list string) (cuisine : option string) (minutes : option Z) : Recipe :=
  {| recipe_id := rid;
     title := name;
     ingredients := json_dumps_strings lines;
     cuisine_type := cuisine;
     dish_type := None;
     difficulty := None;
     ready_in_minutes := minutes |}.

Definition example_pool : list Recipe :=
  [ example_recipe 1 "Fried rice" [ "2 cups rice"; "1 onion, diced"; "salt" ] (Some "thai") (Some 20%Z);
    example_recipe 2 "Tomato salad" [ "3 tomatoes"; "2 onions" ] (Some "italian") (Some 45%Z);
    example_recipe 3 "Egg rice" [ "1 cup rice"; "2 eggs" ] (Some "thai") (Some 0%Z);
    example_recipe 4 "Stew" [ "1 lb beef"; "1 carrot"; "1 potato" ] None None ].

Definition example_prefs : list UserPreference :=
  [ new_row 1 "cuisine_type" "thai" 2 0;
    new_row 1 "cooking_time" "quick (<30min)" 1 0 ].

Definition example_user : User := {| max_ingredients_per_week := 3 |}.

(** A recipe dict whose [ingredients] string is not JSON. *)
Definition broken_recipe : RecipeDict :=
  {| d_id := 9;
     d_title := Some "Mystery";
     d_ingredients := Some (Serialized "2 cups rice, 1 onion");
     d_cuisine_type := None;
     d_dish_type := None;
     d_difficulty := None;
     d_ready_in_minutes := None |}.

Definition example_dicts : list RecipeDict := map recipe_to_dict example_pool.

(** ** The vocabulary of the specification *)

(** [occurs_in needle hay]: [needle] is a contiguous part of [hay]. *)
Definition occurs_in (needle hay : string) : Prop :=
  exists pre post, hay = pre +:+ needle +:+ post.

(** The character before the position reached after reading [s]. *)
Fixpoint last_char (prev : option ascii) (s : string) : option ascii :=
  match s with
  | EmptyString => prev
  | String c s' => last_char (Some c) s'
  end.

(** A staple written with a space. *)
Definition multi_word (staple : string) : Prop := occurs_in " " staple.

(** [word] occurs in [text] with no word character next to it on either
    side. *)
Definition occurs_as_word (word text : string) : Prop :=
  exists pre post,
    text = pre +:+ word +:+ post /\
    word_opt (last_char None pre) = false /\
    word_opt (head post) = false.

(** What one categorical attribute adds: the table entry, or nothing when
    the attribute is null or empty. *)
Definition contribution (lookup : gmap (string * string) Q) (attr_type : string) (value : option string) : Q :=
  match value with
  | Some (String c rest) => get_score lookup (attr_type, String c rest)
  | _ => 0%Q
  end.

(** The cooking-time term as the specification words it: every recipe that
    has a [ready_in_minutes] falls in a bucket. *)
Definition claimed_time_term (lookup : gmap (string * string) Q) (minutes : option Z) : Q :=
  match minutes with
  | Some m => get_score lookup ("cooking_time", time_bucket m)
  | None => 0%Q
  end.

(** The score as the specification words it: the four terms, added. *)
Definition claimed_score (recipe : Recipe) (lookup : gmap (string * string) Q) : Q :=
  (contribution lookup "cuisine_type" (cuisine_type recipe) +
   contribution lookup "dish_type" (dish_type recipe) +
   contribution lookup "difficulty" (difficulty recipe) +
   claimed_time_term lookup (ready_in_minutes recipe))%Q.

(** The cooking-time term of the code: a [ready_in_minutes] of 0 is read
    as no value. *)
Definition time_term (lookup : gmap (string * string) Q) (minutes : option Z) : Q :=
  match minutes with
  | Some m => if (m =? 0)%Z then 0%Q else get_score lookup ("cooking_time", time_bucket m)
  | None => 0%Q
  end.

Definition without_time (recipe : Recipe) : Recipe :=
  {| recipe_id := recipe_id recipe;
     title := title recipe;
     ingredients := ingredients recipe;
     cuisine_type := cuisine_type recipe;
     dish_type := dish_type recipe;
     difficulty := difficulty recipe;
     ready_in_minutes := None |}.

Definition instant_recipe : Recipe :=
  {| recipe_id := 7;
     title := "Tap water";
     ingredients := "[]";
     cuisine_type := None;
     dish_type := None;
     difficulty := Some "";
     ready_in_minutes := Some 0%Z |}.

Definition likes_quick : list UserPreference :=
  [ {| user_id := 1;
       preference_type := "cooking_time";
       preference_value := "quick (<30min)";
       score := 1;
       last_updated := 0 |} ].

(** The stored row for a key: the one [.first()] returns. *)
Definition stored (table : list UserPreference) (uid : Z) (ptype pvalue : string) : option UserPreference :=
  find (same_preference uid ptype pvalue) table.

(** The stored score for a key, 0 when there is no row. *)
Definition stored_score (table : list UserPreference) (uid : Z) (ptype pvalue : string) : Q :=
  match stored table uid ptype pvalue with
  | Some pref => score pref
  | None => 0%Q
  end.

(** The rows of other keys, in table order. *)
Definition other_rows (table : list UserPreference) (uid : Z) (ptype pvalue : string) : list UserPreference :=
  List.filter (fun pref => negb (same_preference uid ptype pvalue pref)) table.

(** The rows of one preference type, in table order. *)
Definition rows_of_type (ptype : string) (table : list UserPreference) : list UserPreference :=
  List.filter (fun pref => String.eqb (preference_type pref) ptype) table.

(** The number of [r]-subsets of an [n]-set, by Pascal's rule. *)
Fixpoint binomial (n r : nat) : nat :=
  match r with
  | O => 1
  | S r' =>
      match n with
      | O => 0
      | S n' => binomial n' r' + binomial n' r
      end
  end.

Section FirstMaxSpec.

Variable value : list Recipe -> Q.
Variable payload : list Recipe -> BestStats.

(** One iteration of the combination loop, once the division has gone
    through. *)
Definition keep_best (best : Best) (combo : list Recipe) : Best :=
  if improves (value combo) best
  then Some (combo, value combo, payload combo)
  else best.

(** [first_max seen best]: [best] is what the loop holds after the
    combinations [seen]: nothing when none was seen, else the first of the
    combinations of highest value. *)
Inductive first_max : list (list Recipe) -> Best -> Prop :=
| first_max_none : first_max [] None
| first_max_some (before : list (list Recipe)) (combo : list Recipe) (after : list (list Recipe)) :
    Forall (fun c => (value c < value combo)%Q) before ->
    Forall (fun c => (value c <= value combo)%Q) after ->
    first_max (before ++ combo :: after) (Some (combo, value combo, payload combo)).

End FirstMaxSpec.

(** The dict the scoring loop builds. *)
Definition cache_scores (user_prefs : list UserPreference) (pool : list Recipe) (init : gmap Z Q) : gmap Z Q :=
  fold_left
    (fun scores recipe => <[ recipe_id recipe := score_recipe_for_user recipe user_prefs ]> scores)
    pool init.

(** The individual scores summed as the specification words it. *)
Definition sum_of_scores (user_prefs : list UserPreference) (combo : list Recipe) : Q :=
  fold_right Qplus 0%Q (map (fun recipe => score_recipe_for_user recipe user_prefs) combo).

Section PlannerSpec.

Variable json_loads : string -> option (list Ingredient).

(** The average preference score of a combination, as the specification
    words it. *)
Definition avg_pref (user_prefs : list UserPreference) (k : Z) (combo : list Recipe) : Q :=
  (sum_of_scores user_prefs combo / inject_Z k)%Q.

(** The combined score of a combination, as the specification words it:
    [avg_pref - 0.5 * max(0, ingredient_count - budget)]. *)
Definition combined (budget : Z) (user_prefs : list UserPreference) (k : Z) (combo : list Recipe) : Q :=
  (avg_pref user_prefs k combo
   - (1 # 2) *
     inject_Z
       (Z.max 0
          (Z.of_nat (count_ingredients_for_recipes json_loads (map recipe_to_dict combo))
           - budget)))%Q.

(** The combined score as the loop computes it from the cached scores. *)
Definition loop_value (user : User) (num_recipes : Z) (recipe_scores : gmap Z Q) (combo : list Recipe) : Q :=
  let ingredient_count :=
    count_ingredients_for_recipes json_loads (map recipe_to_dict combo) in
  let ingredient_penalty :=
    if (max_ingredients_per_week user <? Z.of_nat ingredient_count)%Z
    then (Z.of_nat ingredient_count - max_ingredients_per_week user)%Z
    else 0%Z in
  (sum_scores recipe_scores combo / inject_Z num_recipes
   - inject_Z ingredient_penalty * (1 # 2))%Q.

(** The [best_stats] the loop stores with a combination. *)
Definition loop_stats (user : User) (num_recipes : Z) (recipe_scores : gmap Z Q) (combo : list Recipe) : BestStats :=
  {| ingredient_count :=
       count_ingredients_for_recipes json_loads (map recipe_to_dict combo);
     avg_preference_score :=
       py_round (sum_scores recipe_scores combo / inject_Z num_recipes) 2;
     combined_score := py_round (loop_value user num_recipes recipe_scores combo) 2;
     individual_scores := scores_of_combo recipe_scores combo |}.

End PlannerSpec.


(** ** Invariants of text *)

(** [every P s]: every character of [s] satisfies [P]. *)
Fixpoint every (P : ascii -> bool) (s : string) : bool :=
  match s with
  | EmptyString => true
  | String c s' => P c && every P s'
  end.

(** The last character of [s]. *)
Definition last_of (s : string) : option ascii := last_char None s.

(** [total r]: [r] can match at every position of every text. *)
Fixpoint total (r : regex) : bool :=
  match r with
  | Eps | Star _ => true
  | Chr _ | Cls _ | WordB | Eos => false
  | Seq r1 r2 => total r1 && total r2
  | Alt r1 r2 => total r1 || total r2
  end.

(** A character a normalized name may hold: no capital, no digit. *)
Definition name_char (c : ascii) : bool := negb (Py.is_upper c) && negb (Py.is_digit c).

Definition space_opt (c : option ascii) : bool :=
  match c with
  | Some c => Py.is_space c
  | None => false
  end.

(** [trimmed s]: [s] neither starts nor ends with white space. *)
Definition trimmed (s : string) : bool :=
  negb (space_opt (head s)) && negb (space_opt (last_of s)).

(** The keys of the dict [extract_ingredients_with_details] returns, in
    insertion order. *)
Definition detail_keys (ingredients_map : list (string * list Usage)) : list string :=
  map fst ingredients_map.

(** Every key has at least one usage, and every usage a quantity text. *)
Definition usages_filled (ingredients_map : list (string * list Usage)) : Prop :=
  Forall
    (fun entry =>
       snd entry <> [] /\ Forall (fun usage => usage_quantity usage <> "") (snd entry))
    ingredients_map.

(** What the two extraction loops keep in step. *)
Definition in_step (m : list (string * list Usage)) (unique_ingredients : gset string) : Prop :=
  List.NoDup (detail_keys m) /\
  (forall x, In x (detail_keys m) <-> x ∈ unique_ingredients) /\
  usages_filled m.


(** ** The preference table as the learner and the scorer see it *)

(** The columns of the unique constraint [uq_user_preference]. *)
Definition pref_key (pref : UserPreference) : Z * string * string :=
  (user_id pref, preference_type pref, preference_value pref).

(** The query [UserPreference.user_id == user_id] of the planner and of
    the recommendation engine. *)
Definition preferences_of (uid : Z) (table : list UserPreference) : list UserPreference :=
  List.filter (fun pref => (user_id pref =? uid)%Z) table.

(** The value under which [update_preferences_from_rating] files a recipe
    for a preference type, if any. *)
Definition attribute_value (recipe : Recipe) (ptype : string) : option string :=
  if String.eqb ptype "cuisine_type" then
    if Py.truthy_str (cuisine_type recipe) then cuisine_type recipe else None
  else if String.eqb ptype "dish_type" then
    if Py.truthy_str (dish_type recipe) then dish_type recipe else None
  else if String.eqb ptype "difficulty" then
    if Py.truthy_str (difficulty recipe) then difficulty recipe else None
  else if String.eqb ptype "cooking_time" then
    if Py.truthy_int (ready_in_minutes recipe)
    then Some (time_bucket (default 0%Z (ready_in_minutes recipe)))
    else None
  else None.

(** [rated_under recipe uid uid' ptype pvalue]: rating [recipe] for user
    [uid] touches the row of user [uid'] with this type and value. *)
Definition rated_under (recipe : Recipe) (uid uid' : Z) (ptype pvalue : string) : bool :=
  (uid' =? uid)%Z &&
  match attribute_value recipe ptype with
  | Some value => String.eqb value pvalue
  | None => false
  end.

(** How many of the four attributes of a recipe carry a value. *)
Definition present_attributes (recipe : Recipe) : Z :=
  ((if Py.truthy_str (cuisine_type recipe) then 1 else 0) +
   (if Py.truthy_str (dish_type recipe) then 1 else 0) +
   (if Py.truthy_str (difficulty recipe) then 1 else 0) +
   (if Py.truthy_int (ready_in_minutes recipe) then 1 else 0))%Z.


(** The term one attribute adds to the score of a recipe. *)
Definition attribute_score (lookup : gmap (string * string) Q) (recipe : Recipe) (ptype : string) : Q :=
  match attribute_value recipe ptype with
  | Some value => get_score lookup (ptype, value)
  | None => 0%Q
  end.

(** [shares recipe other ptype]: both recipes carry the same value for
    this attribute. *)
Definition shares (recipe other : Recipe) (ptype : string) : bool :=
  match attribute_value other ptype, attribute_value recipe ptype with
  | Some value, Some value' => String.eqb value' value
  | _, _ => false
  end.

(** How many of the four attributes two recipes share. *)
Definition shared_attributes (recipe other : Recipe) : Z :=
  ((if shares recipe other "cuisine_type" then 1 else 0) +
   (if shares recipe other "dish_type" then 1 else 0) +
   (if shares recipe other "difficulty" then 1 else 0) +
   (if shares recipe other "cooking_time" then 1 else 0))%Z.


(** ** The planner, run to its end *)

(** [descending key l]: the keys never go up along [l]. *)
Fixpoint descending {A : Type} (key : A -> Q) (l : list A) : Prop :=
  match l with
  | [] => True
  | x :: rest => Forall (fun y => (key y <= key x)%Q) rest /\ descending key rest
  end.

Section PlannerRun.

Variable json_loads : string -> option (list Ingredient).

(** [sorted(available_recipes, key=lambda r: recipe_scores[r.id], reverse=True)] *)
Definition by_cached_score (recipe_scores : gmap Z Q) (available_recipes : list Recipe) : list Recipe :=
  sorted_desc (fun recipe => score_of recipe_scores (recipe_id recipe)) available_recipes.

(** The recipes the combination loop draws from: all of them, or the
    first fifty by score when there are more than 10000 combinations. *)
Definition candidates (recipe_scores : gmap Z Q) (available_recipes : list Recipe) (r : nat) : list Recipe :=
  if (10000 <? Z.of_nat (binomial (length available_recipes) r))%Z
  then firstn 50 (by_cached_score recipe_scores available_recipes)
  else available_recipes.

(** What the combination loop holds at its end. *)
Definition loop_result (user : User) (num_recipes : Z) (recipe_scores : gmap Z Q) (combos : list (list Recipe)) : Best :=
  fold_left
    (keep_best (loop_value json_loads user num_recipes recipe_scores)
       (loop_stats json_loads user num_recipes recipe_scores))
    combos None.

(** [best_stats] of the fallback branch: its combined score is the
    average preference score. *)
Definition fallback_stats (num_recipes : Z) (recipe_scores : gmap Z Q) (best_combination : list Recipe) : BestStats :=
  {| ingredient_count :=
       count_ingredients_for_recipes json_loads (map recipe_to_dict best_combination);
     avg_preference_score :=
       py_round (sum_scores recipe_scores best_combination / inject_Z num_recipes) 2;
     combined_score :=
       py_round (sum_scores recipe_scores best_combination / inject_Z num_recipes) 2;
     individual_scores := scores_of_combo recipe_scores best_combination |}.

(** [best_combination] and [best_stats] after the loop and the fallback. *)
Definition chosen (user : User) (num_recipes : Z) (recipe_scores : gmap Z Q) (available_recipes : list Recipe) : list Recipe * BestStats :=
  let r := Z.to_nat num_recipes in
  match loop_result user num_recipes recipe_scores
          (combinations (candidates recipe_scores available_recipes r) r) with
  | Some (best_combination, _, best_stats) => (best_combination, best_stats)
  | None =>
      let best_combination := firstn r (by_cached_score recipe_scores available_recipes) in
      (best_combination, fallback_stats num_recipes recipe_scores best_combination)
  end.

(** [best_stats] after the final [update]. *)
Definition final_stats (user : User) (best_combination : list Recipe) (best_stats : BestStats) : Stats :=
  let combo_dicts := map recipe_to_dict best_combination in
  {| stats_best := best_stats;
     stats_savings := calculate_ingredient_savings json_loads combo_dicts;
     stats_unique_ingredients :=
       sorted_strings (elements (extract_unique_ingredients json_loads combo_dicts));
     stats_detailed_ingredients := extract_ingredients_with_details json_loads combo_dicts;
     stats_max_ingredients_budget := max_ingredients_per_week user;
     stats_within_budget :=
       (total_ingredients (calculate_ingredient_savings json_loads combo_dicts)
        <=? max_ingredients_per_week user)%Z |}.

End PlannerRun.


(** [ascending l]: no string of [l] is followed by a smaller one. *)
Fixpoint ascending (l : list string) : Prop :=
  match l with
  | x :: (y :: _) as rest => String.ltb y x = false /\ ascending rest
  | _ => True
  end.

(** A pool of [n] recipes numbered from 1, to run the planner on more
    combinations than it enumerates. *)
Definition numbered_pool (n : nat) : list Recipe :=
  map (fun i => example_recipe (Z.of_nat i) "Dish" [ "1 egg" ] None (Some (Z.of_nat i)))
    (seq 1 n).


(** ** models/database.py: recommendations *)

(** A row of [recommendations].  Times are instants on the clock of
    [datetime.utcnow()], counted in microseconds. *)
Record Recommendation : Type := {
  rec_id : Z;
  rec_user_id : Z;
  rec_recipe_id : Z;
  rec_sent_at : Z;
  rec_email_message_id : option string;
  rec_rated : bool;
  rec_rating : option Z;
  rec_rated_at : option Z
}.

(** The tables a session reads.  A row of [users] is kept with its id. *)
Record Database : Type := {
  db_users : list (Z * User);
  db_recipes : list Recipe;
  db_recommendations : list Recommendation;
  db_preferences : list UserPreference
}.

(** [timedelta(days=days)] *)
Definition timedelta_days (days : Z) : Z := (days * 86400000000)%Z.

(** [Recommendation.rating <= 2]; a NULL rating satisfies no comparison. *)
Definition rating_at_most (bound : Z) (rating : option Z) : bool :=
  match rating with
  | Some r => (r <=? bound)%Z
  | None => false
  end.

(** ** engine.py: the queries of the recommendation engine *)

Definition get_rating_count (recommendations : list Recommendation) (uid : Z) : nat :=
  length (List.filter (fun r => (rec_user_id r =? uid)%Z && rec_rated r) recommendations).

Definition get_recently_sent_recipe_ids (recommendations : list Recommendation) (uid now days : Z) : list Z :=
  let cutoff_date := (now - timedelta_days days)%Z in
  map rec_recipe_id
    (List.filter (fun r => (rec_user_id r =? uid)%Z && (cutoff_date <=? rec_sent_at r)%Z)
       recommendations).

Definition get_low_rated_recipe_ids (recommendations : list Recommendation) (uid : Z) : list Z :=
  map rec_recipe_id
    (List.filter
       (fun r => (rec_user_id r =? uid)%Z && rec_rated r && rating_at_most 2 (rec_rating r))
       recommendations).

(** [~Recipe.id.in_(exclude_ids)] *)
Definition id_not_in (exclude_ids : list Z) (recipe : Recipe) : bool :=
  negb (existsb (Z.eqb (recipe_id recipe)) exclude_ids).

(** The head of [select_random_diverse_recipes] and of the exploration
    step: the recipes the engine draws from. *)
Definition engine_pool (recommendations : list Recommendation) (recipes : list Recipe) (uid now : Z) : list Recipe :=
  let exclude_ids :=
    get_recently_sent_recipe_ids recommendations uid now 60
    ++ get_low_rated_recipe_ids recommendations uid in
  match exclude_ids with
  | [] => recipes
  | _ :: _ => List.filter (id_not_in exclude_ids) recipes
  end.

(** ** weekly_planner.py: the pool of the planner *)

Definition get_available_recipes (recommendations : list Recommendation) (recipes : list Recipe) (uid now days : Z) : list Recipe :=
  let cutoff_date := (now - timedelta_days days)%Z in
  let recently_sent_ids :=
    map rec_recipe_id
      (List.filter (fun r => (rec_user_id r =? uid)%Z && (cutoff_date <=? rec_sent_at r)%Z)
         recommendations) in
  let low_rated_ids :=
    map rec_recipe_id
      (List.filter
         (fun r => (rec_user_id r =? uid)%Z && rec_rated r && rating_at_most 2 (rec_rating r))
         recommendations) in
  let exclude_ids := elements (list_to_set (recently_sent_ids ++ low_rated_ids) : gset Z) in
  match exclude_ids with
  | [] => recipes
  | _ :: _ => List.filter (id_not_in exclude_ids) recipes
  end.

(** [get_weekly_recommendations(session, user_id, num_recipes)] with its
    three queries; [now] is the instant [get_available_recipes] reads. *)
Definition get_weekly_recommendations_from (json_loads : string -> option (list Ingredient)) (db : Database) (uid num_recipes now : Z) : Planner (list Recipe * Stats) :=
  let user := option_map snd (find (fun row => (fst row =? uid)%Z) (db_users db)) in
  let user_prefs := preferences_of uid (db_preferences db) in
  let available_recipes :=
    get_available_recipes (db_recommendations db) (db_recipes db) uid now 60 in
  get_weekly_recommendations json_loads user user_prefs available_recipes num_recipes.

(** [excluded recommendations uid now days rid]: some recommendation of
    the user for recipe [rid] was sent no earlier than [days] days before
    [now], or carries a rating of at most 2. *)
Definition excluded (recommendations : list Recommendation) (uid now days rid : Z) : Prop :=
  exists r,
    In r recommendations /\ rec_user_id r = uid /\ rec_recipe_id r = rid /\
    ((now - timedelta_days days <= rec_sent_at r)%Z \/
     (rec_rated r = true /\ exists rating, rec_rating r = Some rating /\ (rating <= 2)%Z)).


(** ** preference_updater.py: processing the ratings of a batch *)

(** [sorted] by a comparison, the way [ORDER BY] lists rows: [before a b]
    says that [a] may stand before [b]. *)
Fixpoint insert_by {A : Type} (before : A -> A -> bool) (x : A) (sorted : list A) : list A :=
  match sorted with
  | [] => [ x ]
  | y :: rest => if before x y then x :: sorted else y :: insert_by before x rest
  end.

Definition order_by {A : Type} (before : A -> A -> bool) (rows : list A) : list A :=
  fold_right (insert_by before) [] rows.

(** [order_by(Recommendation.sent_at.desc(), Recommendation.id)] *)
Definition sent_at_desc_then_id (a b : Recommendation) : bool :=
  (rec_sent_at b <? rec_sent_at a)%Z
  || ((rec_sent_at a =? rec_sent_at b)%Z && (rec_id a <=? rec_id b)%Z).

(** The rows before the first one whose key differs from [key0]. *)
Fixpoint while_same {A : Type} (key : A -> Z) (key0 : Z) (rows : list A) : list A :=
  match rows with
  | [] => []
  | x :: rest => if (key x =? key0)%Z then x :: while_same key key0 rest else []
  end.

(** The first group of [itertools.groupby(rows, key)]; empty when there
    is no row. *)
Definition first_group {A : Type} (key : A -> Z) (rows : list A) : list A :=
  match rows with
  | [] => []
  | x :: rest => x :: while_same key (key x) rest
  end.

(** [if message_id: query.filter(Recommendation.email_message_id == message_id)] *)
Definition message_matches (message_id : option string) (r : Recommendation) : bool :=
  if Py.truthy_str message_id
  then
    match rec_email_message_id r with
    | Some m => String.eqb m (default "" message_id)
    | None => false
    end
  else true.

(** The query of [process_ratings]. *)
Definition unrated_recommendations (recommendations : list Recommendation) (uid : Z) (message_id : option string) : list Recommendation :=
  order_by sent_at_desc_then_id
    (List.filter
       (fun r => (rec_user_id r =? uid)%Z && negb (rec_rated r) && message_matches message_id r)
       recommendations).

(** [l[i]] for a Python list: a negative index counts from the end;
    [None] stands for [IndexError]. *)
Definition py_index {A : Type} (l : list A) (i : Z) : option A :=
  if (0 <=? i)%Z then nth_error l (Z.to_nat i)
  else if (- Z.of_nat (length l) <=? i)%Z then nth_error l (Z.to_nat (Z.of_nat (length l) + i))
  else None.

(** The three assignments to a loaded row:
    [rating], [rated = True] and [rated_at]. *)
Definition rated_as (rating now : Z) (r : Recommendation) : Recommendation :=
  {| rec_id := rec_id r;
     rec_user_id := rec_user_id r;
     rec_recipe_id := rec_recipe_id r;
     rec_sent_at := rec_sent_at r;
     rec_email_message_id := rec_email_message_id r;
     rec_rated := true;
     rec_rating := Some rating;
     rec_rated_at := Some now |}.

(** The commit of these assignments: the row with this primary key
    changes. *)
Definition mark_rated (target : Z) (rating now : Z) (recommendations : list Recommendation) : list Recommendation :=
  map (fun r => if (rec_id r =? target)%Z then rated_as rating now r else r) recommendations.

(** [CheckConstraint("rating >= 1 AND rating <= 5")]: a commit of any
    other rating raises. *)
Definition rating_allowed (rating : Z) : bool := (1 <=? rating)%Z && (rating <=? 5)%Z.

(** The tables [process_ratings] writes, and its counter. *)
Record Ratings : Type := {
  rt_recommendations : list Recommendation;
  rt_preferences : list UserPreference;
  rt_processed : nat
}.

(** The loop over the ratings.  An exception ([IndexError], or the failed
    commit of a rating outside 1..5) ends it: the handler rolls back what
    the iteration has not committed and returns the counter. *)
Fixpoint rating_loop (recipes : list Recipe) (uid now : Z) (most_recent_batch : list Recommendation) (ratings : list (Z * Z)) (state : Ratings) : Ratings :=
  match ratings with
  | [] => state
  | (recipe_number, rating) :: rest =>
      if (recipe_number <=? Z.of_nat (length most_recent_batch))%Z
      then
        match py_index most_recent_batch (recipe_number - 1) with
        | None => state
        | Some recommendation =>
            if rating_allowed rating
            then
              rating_loop recipes uid now most_recent_batch rest
                {| rt_recommendations :=
                     mark_rated (rec_id recommendation) rating now (rt_recommendations state);
                   rt_preferences :=
                     update_preferences_from_rating recipes (rt_preferences state) uid
                       (rec_recipe_id recommendation) rating now;
                   rt_processed := S (rt_processed state) |}
            else state
        end
      else rating_loop recipes uid now most_recent_batch rest state
  end.

(** [process_ratings]: the counter it returns and the tables it leaves.
    [now] is the instant of the clock. *)
Definition process_ratings (recipes : list Recipe) (recommendations : list Recommendation) (preferences : list UserPreference) (uid : Z) (ratings : list (Z * Z)) (message_id : option string) (now : Z) : Ratings :=
  let found := unrated_recommendations recommendations uid message_id in
  let start :=
    {| rt_recommendations := recommendations;
       rt_preferences := preferences;
       rt_processed := 0 |} in
  match found with
  | [] => start
  | _ :: _ =>
      let most_recent_batch := first_group rec_sent_at found in
      rating_loop recipes uid now most_recent_batch ratings start
  end.

(** ** rate_recipes.py: the batch shown to the user *)

(** The join of the unrated recommendations with their recipes, ordered
    like the query of [process_ratings], and its rows of the latest
    [sent_at]. *)
Definition get_unrated_recipes (recipes : list Recipe) (recommendations : list Recommendation) (uid : Z) : list (Recommendation * Recipe) :=
  let results :=
    order_by (fun a b => sent_at_desc_then_id (fst a) (fst b))
      (flat_map
         (fun r =>
            map (pair r)
              (List.filter (fun recipe => (recipe_id recipe =? rec_recipe_id r)%Z) recipes))
         (List.filter (fun r => (rec_user_id r =? uid)%Z && negb (rec_rated r))
            recommendations)) in
  match results with
  | [] => []
  | first :: _ =>
      let most_recent_sent_at := rec_sent_at (fst first) in
      List.filter (fun row => (rec_sent_at (fst row) =? most_recent_sent_at)%Z) results
  end.

(** [enumerate(unrated, 1)] with the ratings entered: the list [main]
    passes to [process_ratings]. *)
Definition numbered_from (start : Z) (entered : list Z) : list (Z * Z) :=
  combine (map (fun i => (start + Z.of_nat i)%Z) (seq 0 (length entered))) entered.

(** ** parser.py: checking parsed ratings *)

(** [range(1, expected_count + 1)] *)
Definition range_from_1 (expected_count : Z) : list Z :=
  map (fun i => (1 + Z.of_nat i)%Z) (seq 0 (Z.to_nat expected_count)).

Definition validate_ratings (ratings : list (Z * Z)) (expected_count : Z) : bool :=
  if negb (Z.of_nat (length ratings) =? expected_count)%Z then false
  else
    let expected_numbers : gset Z := list_to_set (range_from_1 expected_count) in
    let actual_numbers : gset Z := list_to_set (map fst ratings) in
    if negb (bool_decide (expected_numbers = actual_numbers)) then false
    else forallb (fun r => (1 <=? snd r)%Z && (snd r <=? 5)%Z) ratings.

(** [sorted_by before rows]: every row may stand before all the rows
    after it. *)
Fixpoint sorted_by {A : Type} (before : A -> A -> bool) (rows : list A) : Prop :=
  match rows with
  | [] => True
  | x :: rest => Forall (fun y => before x y = true) rest /\ sorted_by before rest
  end.

(** The columns of a recommendation that a rating leaves alone. *)
Definition sent_columns (r : Recommendation) : Z * Z * Z * Z * option string :=
  (rec_id r, rec_user_id r, rec_recipe_id r, rec_sent_at r, rec_email_message_id r).

(** What the loop leaves when each pair of a recommendation and its
    rating is processed in turn. *)
Definition all_processed (recipes : list Recipe) (uid now : Z) (pairs : list (Recommendation * Z)) (state : Ratings) : Ratings :=
  {| rt_recommendations :=
       fold_left (fun rows p => mark_rated (rec_id (fst p)) (snd p) now rows) pairs
         (rt_recommendations state);
     rt_preferences :=
       fold_left
         (fun table p =>
            update_preferences_from_rating recipes table uid (rec_recipe_id (fst p)) (snd p) now)
         pairs (rt_preferences state);
     rt_processed := (rt_processed state + length pairs)%nat |}.

(** The recommendations the recipe numbers of [ratings] stand for, with
    their ratings: number [n] is the [n]-th of the batch. *)
Definition matched (most_recent_batch : list Recommendation) (ratings : list (Z * Z)) : list (Recommendation * Z) :=
  flat_map
    (fun p =>
       match nth_error most_recent_batch (Z.to_nat (fst p - 1)) with
       | Some r => [ (r, snd p) ]
       | None => []
       end)
    ratings.


(** ** Concrete tables *)

Definition example_recommendation (id uid rid sent_at : Z) (rating : option Z) : Recommendation :=
  {| rec_id := id;
     rec_user_id := uid;
     rec_recipe_id := rid;
     rec_sent_at := sent_at;
     rec_email_message_id := Some "<mail-1>";
     rec_rated := Py.truthy_int rating;
     rec_rating := rating;
     rec_rated_at := option_map (fun _ => sent_at) rating |}.

(** Two recipes sent together to user 1 and not rated yet, an older one
    rated 2 stars, and a recommendation of another user. *)
Definition example_recommendations : list Recommendation :=
  [ example_recommendation 1 1 1 100 None;
    example_recommendation 2 1 2 100 None;
    example_recommendation 3 1 3 50 (Some 2%Z);
    example_recommendation 4 2 1 100 None ].

Definition example_database : Database :=
  {| db_users := [ (1%Z, example_user) ];
     db_recipes := example_pool;
     db_recommendations := example_recommendations;
     db_preferences := example_prefs |}.

(** Sixty-nine days after instant 0. *)
Definition example_now : Z := 6000000000000.


(** ** web/app.py: the shopping list of the weekly planner *)

(** [details.get(ing_name, [])] on the detail dict. *)
Definition details_get (detailed_ingredients : list (string * list Usage)) (ing_name : string) : list Usage :=
  match find (fun entry => String.eqb (fst entry) ing_name) detailed_ingredients with
  | Some entry => snd entry
  | None => []
  end.

(** One entry of [ingredients_list]. *)
Record ShoppingLine : Type := {
  line_name : string;
  line_quantities : list string;
  line_checked : bool
}.

(** The loop that prepares [ingredients_list]. *)
Definition shopping_lines (stats : Stats) : list ShoppingLine :=
  map
    (fun ing_name =>
       let details := details_get (stats_detailed_ingredients stats) ing_name in
       {| line_name := ing_name;
          line_quantities := map usage_quantity details;
          line_checked := false |})
    (sorted_strings (stats_unique_ingredients stats)).

(** A row of [shopping_lists], reduced to the columns the route writes. *)
Record ShoppingList : Type := {
  sl_user_id : Z;
  sl_share_token : string;
  sl_is_active : bool;
  sl_ingredients : string;
  sl_recipe_ids : string;
  sl_recipe_titles : string;
  sl_total_ingredients : nat;
  sl_ingredient_budget : Z
}.

Definition deactivated (shopping_list : ShoppingList) : ShoppingList :=
  {| sl_user_id := sl_user_id shopping_list;
     sl_share_token := sl_share_token shopping_list;
     sl_is_active := false;
     sl_ingredients := sl_ingredients shopping_list;
     sl_recipe_ids := sl_recipe_ids shopping_list;
     sl_recipe_titles := sl_recipe_titles shopping_list;
     sl_total_ingredients := sl_total_ingredients shopping_list;
     sl_ingredient_budget := sl_ingredient_budget shopping_list |}.

Section ShoppingList.

(** [json.dumps] of the three values the route stores. *)
Variable dumps_lines : list ShoppingLine -> string.
Variable dumps_ids : list Z -> string.
Variable dumps_titles : list string -> string.

(** The shopping-list part of the [weekly_planner] route, on the table
    [shopping_lists]; [share_token] is the token drawn by
    [secrets.token_urlsafe]. *)
Definition save_shopping_list (shopping_lists : list ShoppingList) (uid : Z) (share_token : string) (recipes : list Recipe) (stats : Stats) : list ShoppingList :=
  let updated :=
    map
      (fun shopping_list =>
         if (sl_user_id shopping_list =? uid)%Z && sl_is_active shopping_list
         then deactivated shopping_list
         else shopping_list)
      shopping_lists in
  let ingredients_list := shopping_lines stats in
  updated ++
  [ {| sl_user_id := uid;
       sl_share_token := share_token;
       sl_is_active := true;
       sl_ingredients := dumps_lines ingredients_list;
       sl_recipe_ids := dumps_ids (map recipe_id recipes);
       sl_recipe_titles := dumps_titles (map title recipes);
       sl_total_ingredients := ingredient_count (stats_best stats);
       sl_ingredient_budget := stats_max_ingredients_budget stats |} ].

End ShoppingList.


(** ** api: the difficulty a stored recipe is given *)

(** recipe_scraper.py *)
Definition _estimate_difficulty (total_time num_instructions : Z) : string :=
  if (total_time <? 30)%Z && (num_instructions <=? 5)%Z then "easy"
  else if (total_time <? 60)%Z && (num_instructions <=? 10)%Z then "medium"
  else "hard".

(** The call sites of the scraper:
    [_estimate_difficulty(cook_time or 30, len(instructions))]. *)
Definition scraped_difficulty (cook_time : option Z) (num_instructions : nat) : string :=
  _estimate_difficulty
    (if Py.truthy_int cook_time then default 0%Z cook_time else 30%Z)
    (Z.of_nat num_instructions).

(** spoonacular_client.py, [_extract_recipe_data]: the time stored and
    the difficulty derived from it; [None] is a missing
    ["readyInMinutes"]. *)
Definition spoonacular_time_and_difficulty (readyInMinutes : option Z) : Z * string :=
  let ready_in_minutes := default 0%Z readyInMinutes in
  let difficulty :=
    if (ready_in_minutes <? 30)%Z then "easy"
    else if (ready_in_minutes <? 60)%Z then "medium"
    else "hard" in
  (ready_in_minutes, difficulty).

(** Easy before medium before hard. *)
Definition difficulty_rank (difficulty : string) : nat :=
  if String.eqb difficulty "easy" then 0
  else if String.eqb difficulty "medium" then 1
  else 2.


(** ** engine.py: the cold-start selection *)

(** [recipe.cuisine_type or "Unknown"] *)
Definition cuisine_or_unknown (recipe : Recipe) : string :=
  if Py.truthy_str (cuisine_type recipe) then default "" (cuisine_type recipe) else "Unknown".

(** [recipe in selected]: the rows of one session are equal when they are
    the same row of the table. *)
Definition is_selected (recipe : Recipe) (selected : list Recipe) : bool :=
  existsb (fun other => (recipe_id other =? recipe_id recipe)%Z) selected.

(** First pass: one recipe per cuisine, until [count] are selected. *)
Fixpoint first_pass (count : Z) (shuffled selected : list Recipe) (used_cuisines : gset string) : list Recipe * gset string :=
  match shuffled with
  | [] => (selected, used_cuisines)
  | recipe :: rest =>
      if (count <=? Z.of_nat (length selected))%Z then (selected, used_cuisines)
      else
        let cuisine := cuisine_or_unknown recipe in
        if bool_decide (cuisine ∈ used_cuisines)
        then first_pass count rest selected used_cuisines
        else first_pass count rest (selected ++ [ recipe ]) ({[ cuisine ]} ∪ used_cuisines)
  end.

(** The [for] loop of the second pass. *)
Fixpoint fill (count : Z) (shuffled selected : list Recipe) : list Recipe :=
  match shuffled with
  | [] => selected
  | recipe :: rest =>
      if is_selected recipe selected then fill count rest selected
      else
        let selected := selected ++ [ recipe ] in
        if (count <=? Z.of_nat (length selected))%Z then selected
        else fill count rest selected
  end.

(** The [while] loop of the second pass, run for at most [fuel] rounds. *)
Fixpoint fill_rounds (fuel : nat) (count : Z) (shuffled selected : list Recipe) : list Recipe :=
  match fuel with
  | O => selected
  | S fuel' =>
      if (Z.of_nat (length selected) <? count)%Z
         && (length selected <? length shuffled)%nat
      then fill_rounds fuel' count shuffled (fill count shuffled selected)
      else selected
  end.

(** [select_random_diverse_recipes] on the recipes its query returns;
    [shuffled] is the order [random.sample] has drawn. *)
Definition select_random_diverse_recipes (all_recipes : list Recipe) (count : Z) (shuffled : list Recipe) (fuel : nat) : list Recipe :=
  if (Z.of_nat (length all_recipes) <=? count)%Z then all_recipes
  else
    let selected := fst (first_pass count shuffled [] ∅) in
    fill_rounds fuel count shuffled selected.

(** The cuisines of a list of recipes. *)
Definition cuisines_of (recipes : list Recipe) : gset string :=
  list_to_set (map cuisine_or_unknown recipes).


(** ** engine.py: the preferences by type *)

(** [get_user_preferences]: [organized[type][value] = score], row by row. *)
Definition get_user_preferences (table : list UserPreference) (uid : Z) : gmap string (gmap string Q) :=
  fold_left
    (fun organized pref =>
       let organized :=
         match organized !! preference_type pref with
         | None => <[ preference_type pref := ∅ ]> organized
         | Some _ => organized
         end in
       <[ preference_type pref :=
            <[ preference_value pref := score pref ]>
              (default ∅ (organized !! preference_type pref)) ]> organized)
    (preferences_of uid table) ∅.

(** [preferences.get(ptype, {}).get(pvalue)] *)
Definition organized_get (organized : gmap string (gmap string Q)) (ptype pvalue : string) : option Q :=
  default ∅ (organized !! ptype) !! pvalue.

(** The events of a planner run that succeeds, in order. *)
Definition planner_trace (pool : list Recipe) (num_recipes total : Z) (candidate_recipes : list Recipe) (ingredients : nat) (budget : Z) : list Event :=
  [ LogEvaluating (length pool) ]
  ++ map (fun recipe => Scored (recipe_id recipe)) pool
  ++ (if (10000 <? total)%Z then [ LogTooManyCombinations total ] else [])
  ++ map (fun combo => Evaluated (map recipe_id combo))
       (combinations candidate_recipes (Z.to_nat num_recipes))
  ++ [ LogSelected num_recipes ingredients budget ].


(** ** send_daily.py: logging what was sent *)

Definition new_recommendation (uid : Z) (message_id : option string) (id rid sent_at : Z) : Recommendation :=
  {| rec_id := id;
     rec_user_id := uid;
     rec_recipe_id := rid;
     rec_sent_at := sent_at;
     rec_email_message_id := message_id;
     rec_rated := false;
     rec_rating := None;
     rec_rated_at := None |}.

(** The rows the loop of [log_recommendations] adds: the row of the
    [i]-th recipe gets the [i]-th id the table hands out and the instant of
    the [i]-th reading of the clock. *)
Fixpoint logged (uid : Z) (message_id : option string) (new_id clock : nat -> Z) (i : nat) (recipe_ids : list Z) : list Recommendation :=
  match recipe_ids with
  | [] => []
  | recipe_id :: rest =>
      new_recommendation uid message_id (new_id i) recipe_id (clock i)
      :: logged uid message_id new_id clock (S i) rest
  end.

(** The columns of the constraint [uq_user_recipe_sent]. *)
Definition sent_key (r : Recommendation) : Z * Z * Z :=
  (rec_user_id r, rec_recipe_id r, rec_sent_at r).

(** [log_recommendations]: the commit fails, and is rolled back, when two
    rows share user, recipe and [sent_at]. *)
Definition log_recommendations (recommendations : list Recommendation) (uid : Z) (recipe_ids : list Z) (message_id : option string) (new_id clock : nat -> Z) : list Recommendation :=
  let table := recommendations ++ logged uid message_id new_id clock 0 recipe_ids in
  if bool_decide (NoDup (map sent_key table)) then table else recommendations.


(** ** web/app.py: rating a recommendation *)

(** The [POST] branch of the route [rate], on the tables.  The rating is
    committed before the preference update; without a first user, or
    without the recipe row, that update raises once the commit is done and
    the handler has nothing left to roll back. *)
Definition rate (db : Database) (recommendation_id rating now : Z) : Database :=
  match find (fun r => (rec_id r =? recommendation_id)%Z) (db_recommendations db) with
  | None => db
  | Some recommendation =>
      if (rating <? 1)%Z || (5 <? rating)%Z then db
      else
        let user := hd_error (db_users db) in
        let recipe :=
          find (fun recipe => (recipe_id recipe =? rec_recipe_id recommendation)%Z)
            (db_recipes db) in
        let committed := mark_rated (rec_id recommendation) rating now (db_recommendations db) in
        {| db_users := db_users db;
           db_recipes := db_recipes db;
           db_recommendations := committed;
           db_preferences :=
             match user, recipe with
             | Some (uid, _), Some recipe =>
                 update_preferences_from_rating (db_recipes db) (db_preferences db) uid
                   (recipe_id recipe) rating now
             | _, _ => db_preferences db
             end |}
  end.


(** ** parser.py: cleaning the body of a reply *)

(** [body.split('\n')] *)
Fixpoint split_lines (s : string) : list string :=
  match s with
  | EmptyString => [ "" ]
  | String c rest =>
      if Ascii.eqb c "010" then "" :: split_lines rest
      else
        match split_lines rest with
        | line :: lines => String c line :: lines
        | [] => [ String c "" ]
        end
  end.

(** ['\n'.join(lines)] *)
Fixpoint join_lines (lines : list string) : string :=
  match lines with
  | [] => ""
  | line :: rest =>
      match rest with
      | [] => line
      | _ :: _ => line +:+ String "010" (join_lines rest)
      end
  end.

(** [s.split(marker)[0]]: the text before the first [marker]. *)
Fixpoint before_first (marker s : string) : string :=
  if Py.startswith marker s then ""
  else
    match s with
    | EmptyString => ""
    | String c rest => String c (before_first marker rest)
    end.

(** The test that ends the loop over the lines, with the precedence of
    [or] and [and]. *)
Definition is_reply_marker (stripped : string) : bool :=
  Py.contains "wrote:" (Py.lower stripped)
  || (Py.contains "on " (Py.lower stripped) && Py.contains " wrote:" (Py.lower stripped)).

(** The loop over the lines: quoted lines are skipped, the first reply
    marker ends it. *)
Fixpoint keep_lines (lines : list string) : list string :=
  match lines with
  | [] => []
  | line :: rest =>
      let stripped := Py.strip line in
      if Py.startswith ">" stripped then keep_lines rest
      else if is_reply_marker stripped then []
      else line :: keep_lines rest
  end.

Definition signature_markers : list string :=
  [ "--"; "___"; "Sent from"; "Best regards"; "Thanks"; "Regards" ].

Definition original_message_marker : string := "-----Original Message-----".

(** [if marker in body: body = body.split(marker)[0]] *)
Definition cut_at (body marker : string) : string :=
  if Py.contains marker body then before_first marker body else body.

Definition clean_email_body (body : string) : string :=
  match body with
  | EmptyString => ""
  | String _ _ =>
      let lines := split_lines body in
      let cleaned := keep_lines lines in
      let body := join_lines cleaned in
      let body := fold_left cut_at signature_markers body in
      let body := cut_at body original_message_marker in
      Py.strip body
  end.

(** ** The model on small inputs *)

Example lower_strip : Py.strip (Py.lower "  Olive OIL ") = "olive oil".
Proof. reflexivity. Qed.

Example parenthetical_removed : sub parenthetical "" "1 (15oz) can" = "1  can".
Proof. reflexivity. Qed.

Example cups_before_cup :
  sub (bounded_words [ "cup"; "cups" ]) "" "cups of cupcakes" = " of cupcakes".
Proof. reflexivity. Qed.

Example normalize_plurals :
  map normalize_ingredient_name
    [ "berries"; "1 pound cherry tomatoes, halved"; "2 tablespoons olive oil"; "a glass" ]
  = [ "berry"; "cherry tomato"; "olive oil"; "glas" ].
Proof. vm_compute. reflexivity. Qed.

Example quantities :
  map extract_quantity_from_ingredient [ "2 cups flour"; "250g butter"; "1 (15oz) can beans"; "salt" ]
  = [ "2 cup"; "250g"; "1 (15oz"; "" ].
Proof. vm_compute. reflexivity. Qed.

Example combinations_order :
  combinations [ 1; 2; 3; 4 ]%Z 2
  = [ [ 1; 2 ]; [ 1; 3 ]; [ 1; 4 ]; [ 2; 3 ]; [ 2; 4 ]; [ 3; 4 ] ]%Z.
Proof. reflexivity. Qed.

Example sorted_desc_is_stable :
  sorted_desc (fun p : string * Q => snd p) [ ("a", 1%Q); ("b", 2%Q); ("c", 1%Q); ("d", 2%Q) ]
  = [ ("b", 2%Q); ("d", 2%Q); ("a", 1%Q); ("c", 1%Q) ].
Proof. reflexivity. Qed.

Example round_half_even_ties :
  (py_round (1225 # 100) 1 == 122 # 10)%Q /\ (py_round (1235 # 100) 1 == 124 # 10)%Q.
Proof. split; reflexivity. Qed.

Example decode_dumps :
  json_loads_string_arrays (json_dumps_strings [ "2 cups rice"; "salt" ])
  = Some [ RawText "2 cups rice"; RawText "salt" ].
Proof. reflexivity. Qed.

Example example_scores :
  map (fun recipe => score_recipe_for_user recipe example_prefs) example_pool
  = [ 3%Q; 0%Q; 2%Q; 0%Q ].
Proof. vm_compute. reflexivity. Qed.

Example example_plan :
  match snd (get_weekly_recommendations json_loads_string_arrays (Some example_user)
               example_prefs example_pool 2) with
  | inr (best, stats) =>
      map recipe_id best = [ 1; 3 ]%Z /\
      stats_unique_ingredients stats = [ "egg"; "onion"; "rice" ] /\
      savings (stats_savings stats) = 1%Z /\
      stats_within_budget stats = true
  | inl _ => False
  end.
Proof. vm_compute. repeat split; reflexivity. Qed.

Example example_trace :
  fst (get_weekly_recommendations json_loads_string_arrays (Some example_user)
         example_prefs example_pool 2)
  = [ LogEvaluating 4; Scored 1; Scored 2; Scored 3; Scored 4;
      Evaluated [ 1; 2 ]%Z; Evaluated [ 1; 3 ]%Z; Evaluated [ 1; 4 ]%Z;
      Evaluated [ 2; 3 ]%Z; Evaluated [ 2; 4 ]%Z; Evaluated [ 3; 4 ]%Z;
      LogSelected 2 3 3 ].
Proof. vm_compute. reflexivity. Qed.

(** ** Facts about the string primitives and the matcher *)

Lemma append_cons (c : ascii) (a b : string) : String c a +:+ b = String c (a +:+ b).
Proof. reflexivity. Qed.

Lemma append_nil_l (a : string) : "" +:+ a = a.
Proof. reflexivity. Qed.

Ltac unfold_append := rewrite ?append_cons, ?append_nil_l in *.

Lemma append_nil_r (s : string) : s +:+ "" = s.
Proof. induction s as [|c s IH]; unfold_append; [reflexivity | now f_equal]. Qed.

Lemma append_assoc (a b c : string) : (a +:+ b) +:+ c = a +:+ (b +:+ c).
Proof. induction a as [|x a IH]; unfold_append; [reflexivity | now f_equal]. Qed.

Lemma startswith_spec (p s : string) :
  Py.startswith p s = true <-> exists rest, s = p +:+ rest.
Proof.
  revert s. induction p as [|a p IH]; intros s; simpl.
  - split; [intros _; now exists s | reflexivity].
  - destruct s as [|b s].
    + split; [discriminate | intros [rest H]; discriminate].
    + rewrite andb_true_iff, Ascii.eqb_eq, IH. split.
      * intros [-> [rest ->]]. now exists rest.
      * intros [rest H]. unfold_append. injection H as -> ->.
        split; [reflexivity | now exists rest].
Qed.

Lemma contains_spec (needle hay : string) :
  Py.contains needle hay = true <-> occurs_in needle hay.
Proof.
  unfold occurs_in. induction hay as [|c hay IH].
  - cbn [Py.contains]. rewrite orb_false_r, startswith_spec. split.
    + intros [rest H]. now exists "", rest.
    + intros [pre [post H]]. destruct pre; [now exists post | discriminate].
  - cbn [Py.contains]. rewrite orb_true_iff, startswith_spec, IH. split.
    + intros [[rest H] | [pre [post H]]].
      * now exists "", rest.
      * exists (String c pre), post. unfold_append. now rewrite H.
    + intros [pre [post H]]. destruct pre as [|x pre].
      * left. now exists post.
      * right. unfold_append. injection H as _ H. now exists pre, post.
Qed.

Lemma last_char_app (prev : option ascii) (a b : string) :
  last_char prev (a +:+ b) = last_char (last_char prev a) b.
Proof.
  revert prev. induction a as [|c a IH]; intros prev; unfold_append; simpl;
    [reflexivity | apply IH].
Qed.

Lemma rmatch_Lit_app {A : Type} (l : string) (k : @cont A) prev rest :
  rmatch (Lit l) k prev (l +:+ rest) = k (last_char prev l) rest.
Proof.
  revert prev. induction l as [|c l IH]; intros prev; unfold_append; simpl;
    [reflexivity |].
  rewrite Ascii.eqb_refl. apply IH.
Qed.

Lemma rmatch_Lit_Some {A : Type} (l : string) (k : @cont A) prev s x :
  rmatch (Lit l) k prev s = Some x ->
  exists rest, s = l +:+ rest /\ k (last_char prev l) rest = Some x.
Proof.
  revert prev s. induction l as [|c l IH]; intros prev s H; simpl in H.
  - now exists s.
  - destruct s as [|d s]; [discriminate |].
    destruct (Ascii.eqb c d) eqn:E; [| discriminate].
    apply Ascii.eqb_eq in E. subst d.
    destruct (IH _ _ H) as [rest [-> Hk]]. now exists rest.
Qed.

Lemma search_go_spec (r : regex) prev (s : string) :
  search_go r prev s = true <->
  exists pre post,
    s = pre +:+ post /\ rmatch r (fun _ _ => Some tt) (last_char prev pre) post = Some tt.
Proof.
  revert prev. induction s as [|c s IH]; intros prev; cbn [search_go].
  - destruct (rmatch r _ prev "") as [[]|] eqn:E.
    + split; [intros _ | reflexivity]. now exists "", "".
    + split; [discriminate |]. intros [pre [post [H1 H2]]].
      destruct pre; [| discriminate]. unfold_append. subst post. simpl in H2. congruence.
  - destruct (rmatch r _ prev (String c s)) as [[]|] eqn:E.
    + split; [intros _ | reflexivity]. now exists "", (String c s).
    + rewrite IH. split.
      * intros [pre [post [-> H]]]. now exists (String c pre), post.
      * intros [pre [post [H1 H2]]]. destruct pre as [|x pre].
        -- unfold_append. subst post. simpl in H2. congruence.
        -- unfold_append. injection H1 as -> ->. now exists pre, post.
Qed.

(** The continuation of a match is only ever called on a suffix of the
    text, so two continuations that agree on the suffixes give the same
    match. *)
Lemma star_greedy_ext {A : Type} (p : ascii -> bool) (k1 k2 : @cont A) prev (s : string) :
  (forall prev' rest, (String.length rest <= String.length s)%nat -> k1 prev' rest = k2 prev' rest) ->
  star_greedy p k1 prev s = star_greedy p k2 prev s.
Proof.
  revert prev. induction s as [|c s IH]; intros prev H; cbn [star_greedy].
  - apply H. lia.
  - rewrite (IH (Some c)) by (intros; apply H; cbn [String.length]; lia).
    rewrite (H prev (String c s)) by lia. reflexivity.
Qed.

Lemma rmatch_ext {A : Type} (r : regex) (k1 k2 : @cont A) prev (s : string) :
  (forall prev' rest, (String.length rest <= String.length s)%nat -> k1 prev' rest = k2 prev' rest) ->
  rmatch r k1 prev s = rmatch r k2 prev s.
Proof.
  revert k1 k2 prev s.
  induction r as [| c | p | r1 IH1 r2 IH2 | r1 IH1 r2 IH2 | p | |];
    intros k1 k2 prev s H; cbn [rmatch].
  - apply H. lia.
  - destruct s as [|d s]; [reflexivity |].
    destruct (Ascii.eqb c d); [apply H; cbn [String.length]; lia | reflexivity].
  - destruct s as [|d s]; [reflexivity |].
    destruct (p d); [apply H; cbn [String.length]; lia | reflexivity].
  - apply IH1. intros prev' rest Hlen. apply IH2.
    intros prev'' rest' Hlen'. apply H. lia.
  - rewrite (IH1 k1 k2), (IH2 k1 k2) by assumption. reflexivity.
  - now apply star_greedy_ext.
  - destruct (xorb _ _); [apply H; lia | reflexivity].
  - destruct s as [|d [|e s]]; try reflexivity; [apply H; lia |].
    destruct d as [[] [] [] [] [] [] [] []]; try reflexivity. apply H. lia.
Qed.

(** A pattern that is not nullable calls its continuation on strictly
    shorter text only. *)
Lemma rmatch_ext_strict {A : Type} (r : regex) (k1 k2 : @cont A) prev (s : string) :
  nullable r = false ->
  (forall prev' rest, (String.length rest < String.length s)%nat -> k1 prev' rest = k2 prev' rest) ->
  rmatch r k1 prev s = rmatch r k2 prev s.
Proof.
  revert k1 k2 prev s.
  induction r as [| c | p | r1 IH1 r2 IH2 | r1 IH1 r2 IH2 | p | |];
    intros k1 k2 prev s Hn H; cbn [nullable] in Hn; try discriminate Hn; cbn [rmatch].
  - destruct s as [|d s]; [reflexivity |].
    destruct (Ascii.eqb c d); [apply H; cbn [String.length]; lia | reflexivity].
  - destruct s as [|d s]; [reflexivity |].
    destruct (p d); [apply H; cbn [String.length]; lia | reflexivity].
  - destruct (nullable r1) eqn:E1.
    + cbn [andb] in Hn. apply rmatch_ext. intros prev' rest Hlen.
      apply IH2; [assumption |]. intros prev'' rest' Hlen'. apply H. lia.
    + apply IH1; [reflexivity |]. intros prev' rest Hlen.
      apply rmatch_ext. intros prev'' rest' Hlen'. apply H. lia.
  - apply orb_false_iff in Hn. destruct Hn as [Hn1 Hn2].
    rewrite (IH1 k1 k2), (IH2 k1 k2) by assumption. reflexivity.
Qed.

(** For a pattern that is not nullable the first match is never empty:
    [match_len], which looks for non-empty matches only, finds the first
    match of the pattern. *)
Lemma match_len_first_match (r : regex) prev (s : string) :
  nullable r = false ->
  match_len r prev s
  = rmatch r (fun _ rest => Some (String.length s - String.length rest)%nat) prev s.
Proof.
  intros Hn. unfold match_len. apply rmatch_ext_strict; [assumption |].
  intros prev' rest Hlen. apply Nat.ltb_lt in Hlen. now rewrite Hlen.
Qed.

(** No pattern of the normalizer is nullable. *)
Lemma normalizer_patterns_not_nullable :
  forallb (fun r => negb (nullable r))
    (parenthetical :: measurements ++ prep_words ++
     [ Plus Py.is_space; bounded_words [ "a"; "an"; "the" ] ]) = true.
Proof. reflexivity. Qed.

(** ** The staple test *)

Lemma multi_word_iff (staple : string) :
  Py.contains " " staple = true <-> multi_word staple.
Proof. apply contains_spec. Qed.

Lemma not_multi_word_iff (staple : string) :
  Py.contains " " staple = false <-> ~ multi_word staple.
Proof.
  rewrite <- multi_word_iff. destruct (Py.contains " " staple); split; intros H;
    try reflexivity; try discriminate; try (intros E; discriminate E).
  exfalso. now apply H.
Qed.

(** Every one-word staple starts and ends with a word character. *)
Lemma single_word_staples (staple : string) :
  In staple PANTRY_STAPLES ->
  Py.contains " " staple = false ->
  word_opt (head staple) = true /\ forall prev, word_opt (last_char prev staple) = true.
Proof.
  unfold PANTRY_STAPLES. cbn [In]. intros H Hc.
  repeat (destruct H as [<- | H]; [first [discriminate Hc | split; [reflexivity | intros prev; reflexivity]] |]).
  contradiction.
Qed.

Lemma head_app (a b : string) : a <> "" -> head (a +:+ b) = head a.
Proof. destruct a; [congruence | reflexivity]. Qed.

(** [re.search(r'\b' + staple + r'\b', text)] for a staple that starts and
    ends with a word character. *)
Lemma search_bounded_spec (staple text : string) :
  word_opt (head staple) = true ->
  (forall prev, word_opt (last_char prev staple) = true) ->
  search (Seq WordB (Seq (Lit staple) WordB)) text = true <-> occurs_as_word staple text.
Proof.
  intros Hh Hl. unfold search, occurs_as_word. rewrite search_go_spec.
  assert (Hne : staple <> "") by (intros ->; discriminate Hh).
  split.
  - intros [pre [post [-> H]]]. cbn [rmatch] in H.
    destruct (xorb (word_opt (last_char None pre)) (word_opt (head post))) eqn:X1;
      [| discriminate].
    apply rmatch_Lit_Some in H. destruct H as [rest [-> H]].
    rewrite head_app, Hh in X1 by assumption.
    cbn [rmatch] in H. rewrite Hl in H.
    exists pre, rest. split; [reflexivity |].
    destruct (word_opt (last_char None pre)); [discriminate |].
    destruct (word_opt (head rest)); [discriminate | now split].
  - intros [pre [post [-> [H1 H2]]]]. exists pre, (staple +:+ post).
    split; [reflexivity |]. cbn [rmatch].
    rewrite head_app, Hh, H1 by assumption. cbn [xorb].
    rewrite rmatch_Lit_app. cbn [rmatch]. now rewrite Hl, H2.
Qed.

(** The loop of [is_pantry_staple], one staple at a time. *)
Lemma staple_rule_spec (staple text : string) :
  In staple PANTRY_STAPLES ->
  (if Py.contains " " staple
   then Py.contains staple text
   else search (Seq WordB (Seq (Lit staple) WordB)) text) = true <->
  (multi_word staple /\ occurs_in staple text) \/
  (~ multi_word staple /\ occurs_as_word staple text).
Proof.
  intros Hin. destruct (Py.contains " " staple) eqn:E.
  - rewrite contains_spec. apply multi_word_iff in E. tauto.
  - destruct (single_word_staples _ Hin E) as [Hh Hl].
    rewrite (search_bounded_spec _ _ Hh Hl). apply not_multi_word_iff in E. tauto.
Qed.

Lemma is_pantry_staple_iff (s : string) :
  is_pantry_staple s = true <->
  In (Py.strip (Py.lower s)) PANTRY_STAPLES \/
  (exists staple, In staple PANTRY_STAPLES /\ multi_word staple /\
                  occurs_in staple (Py.strip (Py.lower s))) \/
  (exists staple, In staple PANTRY_STAPLES /\ ~ multi_word staple /\
                  occurs_as_word staple (Py.strip (Py.lower s))).
Proof.
  unfold is_pantry_staple. set (t := Py.strip (Py.lower s)).
  destruct (existsb (String.eqb t) PANTRY_STAPLES) eqn:E.
  - apply existsb_exists in E. destruct E as [x [Hin Hx]].
    apply String.eqb_eq in Hx. subst x. tauto.
  - assert (Hnot : ~ In t PANTRY_STAPLES).
    { intros Hin. assert (X : existsb (String.eqb t) PANTRY_STAPLES = true).
      { apply existsb_exists. exists t. split; [assumption | apply String.eqb_refl]. }
      congruence. }
    rewrite existsb_exists. split.
    + intros [staple [Hin H]]. apply (staple_rule_spec _ _ Hin) in H.
      destruct H as [[H1 H2] | [H1 H2]]; [right; left | right; right];
        exists staple; tauto.
    + intros [H | [[staple [Hin [H1 H2]]] | [staple [Hin [H1 H2]]]]];
        [contradiction | |]; exists staple; (split; [assumption |]);
        apply (staple_rule_spec _ _ Hin); tauto.
Qed.

(** C1. The normalizer on the five example lines of its docstring and of the
    specification.  Three come out as documented; ["2 cups diced red onions"]
    gives ["red onion"] and ["1/2 cup fresh basil leaves"] gives
    ["basil leave"], not ["onion"] and ["basil"]: no pattern removes [red]
    or [leaves].  ["Salt and pepper to taste"] gives a string the staple
    test flags. *)
Theorem normalize_docstring_examples :
  normalize_ingredient_name "2 cups diced red onions" = "red onion" /\
  normalize_ingredient_name "1 (15oz) can black beans, drained" = "black bean" /\
  normalize_ingredient_name "3 cloves garlic, minced" = "garlic" /\
  normalize_ingredient_name "1/2 cup fresh basil leaves" = "basil leave" /\
  normalize_ingredient_name "Salt and pepper to taste" = "salt pepper taste" /\
  is_pantry_staple (normalize_ingredient_name "Salt and pepper to taste") = true.
Proof. repeat split; vm_compute; reflexivity. Qed.

(** C5. [is_pantry_staple s] is true exactly when [s], lowercased and
    trimmed as the function does first, is a staple of the curated set, or
    contains a multi-word staple as a plain substring, or contains a
    one-word staple with no word character on either side of it; for a
    normalized [s], which lowercasing and trimming leave as it is, that is
    [s] itself.  So
    ["salt"] and ["olive oil"] are staples, ["red pepper flakes"] and
    ["boiled"] are not, and a text that is not a staple, contains no
    multi-word staple, and in which every occurrence of a one-word staple
    touches a word character, is never flagged. *)
Theorem is_pantry_staple_characterisation :
  (forall s,
     is_pantry_staple s = true <->
     In (Py.strip (Py.lower s)) PANTRY_STAPLES \/
     (exists staple, In staple PANTRY_STAPLES /\ multi_word staple /\
                     occurs_in staple (Py.strip (Py.lower s))) \/
     (exists staple, In staple PANTRY_STAPLES /\ ~ multi_word staple /\
                     occurs_as_word staple (Py.strip (Py.lower s)))) /\
  (forall s,
     Py.strip (Py.lower s) = s ->
     is_pantry_staple s = true <->
     In s PANTRY_STAPLES \/
     (exists staple, In staple PANTRY_STAPLES /\ multi_word staple /\ occurs_in staple s) \/
     (exists staple, In staple PANTRY_STAPLES /\ ~ multi_word staple /\
                     occurs_as_word staple s)) /\
  is_pantry_staple "salt" = true /\
  is_pantry_staple "red pepper flakes" = false /\
  is_pantry_staple "olive oil" = true /\
  is_pantry_staple "boiled" = false /\
  (forall s,
     ~ In (Py.strip (Py.lower s)) PANTRY_STAPLES ->
     (forall staple, In staple PANTRY_STAPLES -> multi_word staple ->
                     ~ occurs_in staple (Py.strip (Py.lower s))) ->
     (forall staple pre post,
        In staple PANTRY_STAPLES -> ~ multi_word staple ->
        Py.strip (Py.lower s) = pre +:+ staple +:+ post ->
        word_opt (last_char None pre) = true \/ word_opt (head post) = true) ->
     is_pantry_staple s = false).
Proof.
  split; [exact is_pantry_staple_iff |].
  split; [intros s Hs; rewrite is_pantry_staple_iff, Hs; reflexivity |].
  repeat (split; [vm_compute; reflexivity |]).
  intros s H1 H2 H3. destruct (is_pantry_staple s) eqn:E; [| reflexivity].
  exfalso. apply is_pantry_staple_iff in E.
  destruct E as [E | [[staple [Hin [Hm Ho]]] | [staple [Hin [Hm [pre [post [Ht [Ha Hb]]]]]]]]].
  - contradiction.
  - exact (H2 _ Hin Hm Ho).
  - destruct (H3 _ _ _ Hin Hm Ht) as [X | X]; congruence.
Qed.

(** The characterisation run on ["Sea Salt "]: the trimmed lowercase text
    is the staple ["sea salt"]. *)
Lemma is_pantry_staple_characterisation_witness :
  In (Py.strip (Py.lower "Sea Salt ")) PANTRY_STAPLES /\ is_pantry_staple "Sea Salt " = true.
Proof.
  assert (H : In (Py.strip (Py.lower "Sea Salt ")) PANTRY_STAPLES).
  { vm_compute. tauto. }
  split; [exact H |].
  apply (proj1 is_pantry_staple_characterisation "Sea Salt "). left. exact H.
Defined.

(** ** The aggregator *)

Section AggregatorFacts.

Variable json_loads : string -> option (list Ingredient).

Abbreviation unique := (extract_unique_ingredients json_loads).
Abbreviation count := (count_ingredients_for_recipes json_loads).

Lemma add_ingredient_acc (e : Ingredient) (acc : gset string) :
  add_ingredient acc e = acc ∪ add_ingredient ∅ e.
Proof.
  unfold add_ingredient.
  generalize (normalize_ingredient_name (original_text e)). intros n.
  generalize (nonempty n && negb (is_pantry_staple n)). intros b.
  destruct b; [now rewrite (left_id_L ∅ (∪)) | now rewrite (right_id_L ∅ (∪))].
Qed.

Lemma add_ingredients_acc (entries : list Ingredient) (acc : gset string) :
  fold_left add_ingredient entries acc = acc ∪ fold_left add_ingredient entries ∅.
Proof.
  revert acc. induction entries as [|e entries IH]; intros acc; cbn [fold_left].
  - now rewrite (right_id_L ∅ (∪)).
  - rewrite (IH (add_ingredient acc e)), (IH (add_ingredient ∅ e)).
    rewrite (add_ingredient_acc e acc). now rewrite (assoc_L (∪)).
Qed.

Lemma unique_acc (recipes : list RecipeDict) (acc : gset string) :
  fold_left
    (fun unique_ingredients recipe =>
       fold_left add_ingredient (ingredient_entries json_loads recipe) unique_ingredients)
    recipes acc
  = acc ∪ unique recipes.
Proof.
  unfold extract_unique_ingredients. revert acc.
  induction recipes as [|r recipes IH]; intros acc; cbn [fold_left].
  - now rewrite (right_id_L ∅ (∪)).
  - rewrite (IH (fold_left add_ingredient _ acc)), (IH (fold_left add_ingredient _ ∅)).
    rewrite (add_ingredients_acc _ acc). now rewrite (assoc_L (∪)).
Qed.

Lemma unique_nil : unique [] = ∅.
Proof. reflexivity. Qed.

Lemma unique_cons (recipe : RecipeDict) (recipes : list RecipeDict) :
  unique (recipe :: recipes) = unique [ recipe ] ∪ unique recipes.
Proof.
  unfold extract_unique_ingredients at 1 2. cbn [fold_left]. apply unique_acc.
Qed.

Lemma unique_app (xs ys : list RecipeDict) :
  unique (xs ++ ys) = unique xs ∪ unique ys.
Proof.
  induction xs as [|x xs IH]; cbn [app].
  - rewrite unique_nil. now rewrite (left_id_L ∅ (∪)).
  - rewrite unique_cons, (unique_cons x xs), IH. now rewrite (assoc_L (∪)).
Qed.

Lemma unique_union_list (recipes : list RecipeDict) :
  unique recipes = ⋃ (map (fun recipe => unique [ recipe ]) recipes).
Proof.
  induction recipes as [|r recipes IH]; [reflexivity |].
  rewrite unique_cons, IH. cbn [map union_list]. reflexivity.
Qed.

Lemma elem_of_unique (x : string) (recipes : list RecipeDict) :
  x ∈ unique recipes <-> exists recipe, In recipe recipes /\ x ∈ unique [ recipe ].
Proof.
  induction recipes as [|r recipes IH].
  - rewrite unique_nil. split; [intros H; now apply not_elem_of_empty in H | intros [r [[] _]]].
  - rewrite unique_cons, elem_of_union, IH. split.
    + intros [H | [r' [H1 H2]]]; [exists r | exists r']; cbn [In]; tauto.
    + intros [r' [[<- | H1] H2]]; [tauto | right; now exists r'].
Qed.

Lemma fold_add_Z (zs : list Z) (a : Z) :
  fold_left Z.add zs a = (a + fold_left Z.add zs 0)%Z.
Proof.
  revert a. induction zs as [|z zs IH]; intros a; cbn [fold_left]; [lia |].
  rewrite (IH (a + z)%Z), (IH (0 + z)%Z). lia.
Qed.

Lemma sum_list_cons (x : nat) (xs : list nat) : sum_list (x :: xs) = (x + sum_list xs)%nat.
Proof. reflexivity. Qed.

Lemma separate_sum (recipes : list RecipeDict) :
  fold_left Z.add (map (fun recipe => Z.of_nat (count [ recipe ])) recipes) 0%Z
  = Z.of_nat (sum_list (map (fun recipe => size (unique [ recipe ])) recipes)).
Proof.
  induction recipes as [|r recipes IH]; [reflexivity |].
  cbn [map fold_left]. rewrite sum_list_cons, fold_add_Z, IH.
  unfold count_ingredients_for_recipes. lia.
Qed.

Lemma count_le_separate (recipes : list RecipeDict) :
  (count recipes <= sum_list (map (fun recipe => size (unique [ recipe ])) recipes))%nat.
Proof.
  unfold count_ingredients_for_recipes.
  induction recipes as [|r recipes IH]; [rewrite unique_nil, size_empty; cbn; lia |].
  rewrite unique_cons. cbn [map]. rewrite sum_list_cons.
  pose proof (size_union_alt (unique [ r ]) (unique recipes)) as H.
  assert (H' : (size (unique recipes ∖ unique [ r ]) <= size (unique recipes))%nat)
    by (apply subseteq_size, subseteq_difference_l; reflexivity).
  lia.
Qed.

Lemma round_half_even_zero (scale : Q) : round_half_even (0 * scale) = 0%Z.
Proof. destruct scale as [n d]. reflexivity. Qed.

Lemma py_round_zero (ndigits : nat) : (py_round 0 ndigits == 0)%Q.
Proof.
  unfold py_round. rewrite round_half_even_zero. unfold Qdiv. apply Qmult_0_l.
Qed.


(** C7. Union monotonicity: when every recipe of [A] is a recipe of [B],
    the unique ingredients of [A] are among those of [B], so [A] has at
    most as many. *)
Theorem unique_ingredients_monotone (A B : list RecipeDict) :
  incl A B ->
  unique A ⊆ unique B /\ (count A <= count B)%nat.
Proof.
  intros Hincl.
  assert (Hsub : unique A ⊆ unique B).
  { intros x Hx. apply elem_of_unique in Hx. destruct Hx as [r [Hr Hx]].
    apply elem_of_unique. exists r. split; [now apply Hincl | assumption]. }
  split; [assumption |]. unfold count_ingredients_for_recipes. now apply subseteq_size.
Qed.

(** C8. A recipe whose [ingredients] string the decoder rejects is read as
    a recipe without ingredients: its entry list is empty, it adds nothing to
    the union nor to the count, and extraction over a list that contains it
    gives what the list without it gives. *)
Theorem unparsable_ingredients_contribute_nothing (recipe : RecipeDict) (text : string) (before after : list RecipeDict) :
  d_ingredients recipe = Some (Serialized text) ->
  json_loads text = None ->
  ingredient_entries json_loads recipe = [] /\
  unique [ recipe ] = ∅ /\
  count [ recipe ] = 0%nat /\
  unique (before ++ recipe :: after) = unique (before ++ after) /\
  count (before ++ recipe :: after) = count (before ++ after).
Proof.
  intros Hfield Hfail.
  assert (Hentries : ingredient_entries json_loads recipe = []).
  { unfold ingredient_entries. now rewrite Hfield, Hfail. }
  assert (Hone : unique [ recipe ] = ∅).
  { unfold extract_unique_ingredients. cbn [fold_left]. now rewrite Hentries. }
  assert (Hall : unique (before ++ recipe :: after) = unique (before ++ after)).
  { rewrite !unique_app, unique_cons, Hone. now rewrite (left_id_L ∅ (∪)). }
  unfold count_ingredients_for_recipes. rewrite Hall, Hone, size_empty. tauto.
Qed.

End AggregatorFacts.

(** ** The preference scorer *)

Lemma truthy_str_contribution (lookup : gmap (string * string) Q) (attr_type : string) (value : option string) (acc : Q) :
  ((if Py.truthy_str value then acc + get_score lookup (attr_type, default "" value) else acc)
   == acc + contribution lookup attr_type value)%Q.
Proof.
  destruct value as [[|c rest]|]; cbn [Py.truthy_str contribution from_option id]; ring.
Qed.

Lemma truthy_int_time_term (lookup : gmap (string * string) Q) (minutes : option Z) (acc : Q) :
  ((if Py.truthy_int minutes
    then acc + get_score lookup ("cooking_time", time_bucket (default 0%Z minutes))
    else acc)
   == acc + time_term lookup minutes)%Q.
Proof.
  destruct minutes as [m|]; cbn [Py.truthy_int time_term from_option id]; [| ring].
  destruct (m =? 0)%Z; cbn [negb]; ring.
Qed.

(** C4, the claim as worded, fails on a recipe with [ready_in_minutes = 0]
    for a user who likes quick recipes: the claimed sum is 1, the score 0. *)
Lemma claimed_score_fails_at_zero_minutes :
  ~ (score_recipe_for_user instant_recipe likes_quick
     == claimed_score instant_recipe (pref_lookup likes_quick))%Q.
Proof. vm_compute. discriminate. Qed.

(** C4, amended.  The score is the sum of the table entries (0 when
    absent) of cuisine_type, dish_type, difficulty and the cooking-time
    bucket ([< 30] quick, [30..60] medium, [> 60] long); a null or empty
    attribute, and a [ready_in_minutes] that is null or 0, adds nothing; with
    an empty table the score is 0. *)
Theorem score_is_sum_of_attribute_entries (recipe : Recipe) (user_preferences : list UserPreference) :
  let lookup := pref_lookup user_preferences in
  (score_recipe_for_user recipe user_preferences
   == contribution lookup "cuisine_type" (cuisine_type recipe) +
      contribution lookup "dish_type" (dish_type recipe) +
      contribution lookup "difficulty" (difficulty recipe) +
      time_term lookup (ready_in_minutes recipe))%Q /\
  (forall m, (m < 30)%Z -> time_bucket m = "quick (<30min)") /\
  (forall m, (30 <= m <= 60)%Z -> time_bucket m = "medium (30-60min)") /\
  (forall m, (60 < m)%Z -> time_bucket m = "long (>60min)") /\
  (score_recipe_for_user recipe [] == 0)%Q.
Proof.
  cbv zeta. split; [| split; [| split; [| split]]].
  - unfold score_recipe_for_user.
    rewrite truthy_int_time_term, truthy_str_contribution, truthy_str_contribution,
      truthy_str_contribution. ring.
  - intros m H. unfold time_bucket. destruct (Z.ltb_spec m 30); [reflexivity | lia].
  - intros m H. unfold time_bucket. destruct (Z.ltb_spec m 30); [lia |].
    destruct (Z.leb_spec m 60); [reflexivity | lia].
  - intros m H. unfold time_bucket. destruct (Z.ltb_spec m 30); [lia |].
    destruct (Z.leb_spec m 60); [lia | reflexivity].
  - unfold score_recipe_for_user.
    rewrite truthy_int_time_term, truthy_str_contribution, truthy_str_contribution,
      truthy_str_contribution.
    assert (Hget : forall key, get_score (pref_lookup []) key = 0%Q) by reflexivity.
    destruct (cuisine_type recipe) as [[|? ?]|], (dish_type recipe) as [[|? ?]|],
      (difficulty recipe) as [[|? ?]|], (ready_in_minutes recipe) as [m|];
      cbn [contribution time_term]; try destruct (m =? 0)%Z; rewrite ?Hget; ring.
Qed.

(** The amended statement on a 45-minute recipe: the medium bucket. *)
Lemma score_is_sum_of_attribute_entries_witness :
  (30 <= 45 <= 60)%Z /\ time_bucket 45 = "medium (30-60min)".
Proof.
  assert (H : (30 <= 45 <= 60)%Z) by lia.
  split; [exact H |].
  exact (proj1 (proj2 (proj2 (score_is_sum_of_attribute_entries instant_recipe likes_quick))) 45%Z H).
Defined.

(** ** The preference learner *)

Lemma same_preference_bump uid ptype pvalue delta now pref :
  same_preference uid ptype pvalue (bump delta now pref) = same_preference uid ptype pvalue pref.
Proof. reflexivity. Qed.

Lemma same_preference_new_row uid ptype pvalue delta now :
  same_preference uid ptype pvalue (new_row uid ptype pvalue delta now) = true.
Proof.
  unfold same_preference, new_row. cbn [user_id preference_type preference_value].
  now rewrite Z.eqb_refl, !String.eqb_refl.
Qed.

Lemma same_preference_true uid ptype pvalue pref :
  same_preference uid ptype pvalue pref = true ->
  user_id pref = uid /\ preference_type pref = ptype /\ preference_value pref = pvalue.
Proof.
  unfold same_preference. rewrite !andb_true_iff, Z.eqb_eq, !String.eqb_eq. tauto.
Qed.

(** Two different keys never select the same row. *)
Lemma same_preference_other uid ptype pvalue uid' ptype' pvalue' pref :
  (uid', ptype', pvalue') <> (uid, ptype, pvalue) ->
  same_preference uid ptype pvalue pref = true ->
  same_preference uid' ptype' pvalue' pref = false.
Proof.
  intros Hne H. destruct (same_preference uid' ptype' pvalue' pref) eqn:E; [| reflexivity].
  apply same_preference_true in H. apply same_preference_true in E.
  destruct H as [<- [<- <-]], E as [<- [<- <-]]. now contradiction Hne.
Qed.

Lemma find_update_first_same test f table :
  (forall pref, test (f pref) = test pref) ->
  find test (update_first test f table) = option_map f (find test table).
Proof.
  intros Hf. induction table as [|pref table IH]; [reflexivity |].
  cbn [update_first find]. destruct (test pref) eqn:E; cbn [find].
  - now rewrite Hf, E.
  - now rewrite E.
Qed.

Lemma find_update_first_other (test test' : UserPreference -> bool) f table :
  (forall pref, test pref = true -> test' pref = false /\ test' (f pref) = false) ->
  find test' (update_first test f table) = find test' table.
Proof.
  intros H. induction table as [|pref table IH]; [reflexivity |].
  cbn [update_first find]. destruct (test pref) eqn:E; cbn [find].
  - destruct (H _ E) as [-> ->]. reflexivity.
  - now rewrite IH.
Qed.

Lemma filter_update_first (test keep : UserPreference -> bool) f table :
  (forall pref, test pref = true -> keep pref = false /\ keep (f pref) = false) ->
  List.filter keep (update_first test f table) = List.filter keep table.
Proof.
  intros H. induction table as [|pref table IH]; [reflexivity |].
  cbn [update_first List.filter]. destruct (test pref) eqn:E; cbn [List.filter].
  - destruct (H _ E) as [-> ->]. reflexivity.
  - now rewrite IH.
Qed.

Lemma find_app_None {A : Type} (test : A -> bool) (xs ys : list A) :
  find test xs = None -> find test (xs ++ ys) = find test ys.
Proof.
  induction xs as [|x xs IH]; [reflexivity |]. cbn [find app].
  destruct (test x); [discriminate | exact IH].
Qed.

Lemma find_app_last {A : Type} (test : A -> bool) (xs : list A) (y : A) :
  test y = false -> find test (xs ++ [ y ]) = find test xs.
Proof.
  intros Hy. induction xs as [|x xs IH]; cbn [find app]; [now rewrite Hy |].
  destruct (test x); [reflexivity | exact IH].
Qed.

(** An update of one preference type leaves the rows of another type as
    they were. *)
Lemma update_keeps_other_types table uid ptype pvalue delta now ptype' :
  ptype <> ptype' ->
  rows_of_type ptype' (update_user_preference table uid ptype pvalue delta now)
  = rows_of_type ptype' table.
Proof.
  intros Hne. unfold update_user_preference, rows_of_type.
  destruct (negb (Py.truthy_str pvalue)); [reflexivity |].
  destruct (find _ table).
  - apply filter_update_first. intros pref Hp.
    apply same_preference_true in Hp. destruct Hp as [_ [Hp _]].
    cbn [bump preference_type]. rewrite Hp.
    assert (E : String.eqb ptype ptype' = false) by now apply String.eqb_neq.
    now rewrite E.
  - rewrite List.filter_app. cbn [List.filter preference_type new_row].
    assert (E : String.eqb ptype ptype' = false) by now apply String.eqb_neq.
    rewrite E. apply app_nil_r.
Qed.

(** C9. A preference update with a null or empty value leaves the table
    as it is.  Otherwise the stored score of the key becomes the former one
    (0 when there was no row) plus delta, a key that had no row gets a new
    row whose score is delta, and the rows and stored scores of all other
    keys are unchanged. *)
Theorem update_user_preference_spec (table : list UserPreference) (uid : Z) (ptype : string) (pvalue : option string) (score_delta : Q) (now : Z) :
  let table' := update_user_preference table uid ptype pvalue score_delta now in
  (Py.truthy_str pvalue = false -> table' = table) /\
  (forall value,
     pvalue = Some value -> value <> "" ->
     (stored_score table' uid ptype value
      == stored_score table uid ptype value + score_delta)%Q /\
     (forall pref, stored table uid ptype value = Some pref ->
                   stored table' uid ptype value = Some (bump score_delta now pref)) /\
     (stored table uid ptype value = None ->
      table' = table ++ [ new_row uid ptype value score_delta now ]) /\
     other_rows table' uid ptype value = other_rows table uid ptype value /\
     (forall uid' ptype' value',
        (uid', ptype', value') <> (uid, ptype, value) ->
        stored table' uid' ptype' value' = stored table uid' ptype' value')).
Proof.
  cbv zeta. split.
  - intros H. unfold update_user_preference. now rewrite H.
  - intros value -> Hne.
    assert (Ht : Py.truthy_str (Some value) = true) by (destruct value; [congruence | reflexivity]).
    unfold update_user_preference, stored_score, stored, other_rows.
    rewrite Ht. cbn [negb from_option id].
    destruct (find (same_preference uid ptype value) table) as [pref|] eqn:E.
    + split; [| split; [| split; [| split]]].
      * rewrite find_update_first_same, E by apply same_preference_bump. reflexivity.
      * intros pref' [= <-].
        rewrite find_update_first_same, E by apply same_preference_bump. reflexivity.
      * discriminate.
      * apply filter_update_first. intros p Hp.
        now rewrite same_preference_bump, Hp.
      * intros uid' ptype' value' Hk. apply find_update_first_other. intros p Hp.
        rewrite same_preference_bump. split; now apply (same_preference_other uid ptype value).
    + split; [| split; [| split; [| split]]].
      * rewrite find_app_None by assumption. cbn [find].
        rewrite same_preference_new_row. cbn [new_row score]. ring.
      * discriminate.
      * reflexivity.
      * rewrite List.filter_app. cbn [List.filter].
        rewrite same_preference_new_row. apply app_nil_r.
      * intros uid' ptype' value' Hk. apply find_app_last.
        apply (same_preference_other uid ptype value); [assumption |].
        apply same_preference_new_row.
Qed.

(** C10. A recipe whose [ready_in_minutes] is 0 is scored as the same
    recipe without a cooking time, and rating it changes the table as rating
    that recipe would: the rows of type [cooking_time] stay as they were. *)
Theorem zero_minutes_is_no_cooking_time (recipe : Recipe) (user_preferences : list UserPreference) (recipes : list Recipe) (table : list UserPreference) (uid rating now : Z) :
  ready_in_minutes recipe = Some 0%Z ->
  find (fun r => (recipe_id r =? recipe_id recipe)%Z) recipes = Some recipe ->
  score_recipe_for_user recipe user_preferences
  = score_recipe_for_user (without_time recipe) user_preferences /\
  update_preferences_from_rating recipes table uid (recipe_id recipe) rating now
  = update_preferences_from_rating [ without_time recipe ] table uid (recipe_id recipe) rating now /\
  rows_of_type "cooking_time"
    (update_preferences_from_rating recipes table uid (recipe_id recipe) rating now)
  = rows_of_type "cooking_time" table.
Proof.
  intros Hzero Hfind. split; [| split].
  - unfold score_recipe_for_user. cbn [without_time cuisine_type dish_type difficulty ready_in_minutes].
    now rewrite Hzero.
  - unfold update_preferences_from_rating. rewrite Hfind. cbn [find without_time recipe_id].
    rewrite Z.eqb_refl. cbn [cuisine_type dish_type difficulty ready_in_minutes].
    now rewrite Hzero.
  - unfold update_preferences_from_rating. rewrite Hfind, Hzero. cbn [Py.truthy_int Z.eqb negb].
    destruct (Py.truthy_str (cuisine_type recipe)), (Py.truthy_str (dish_type recipe)),
      (Py.truthy_str (difficulty recipe));
      rewrite ?update_keeps_other_types by discriminate; reflexivity.
Qed.

Lemma zero_minutes_is_no_cooking_time_witness :
  rows_of_type "cooking_time"
    (update_preferences_from_rating [ instant_recipe ] likes_quick 1 7 5 100)
  = rows_of_type "cooking_time" likes_quick.
Proof.
  apply (zero_minutes_is_no_cooking_time instant_recipe likes_quick [ instant_recipe ]
           likes_quick 1 5 100); reflexivity.
Defined.

Lemma update_user_preference_spec_witness :
  (stored_score (update_user_preference likes_quick 1 "cuisine_type" (Some "thai") 2 100)
     1 "cuisine_type" "thai"
   == stored_score likes_quick 1 "cuisine_type" "thai" + 2)%Q.
Proof.
  apply (proj2 (update_user_preference_spec likes_quick 1 "cuisine_type" (Some "thai") 2 100)
           "thai" eq_refl).
  discriminate.
Defined.

(** ** The weekly combination search *)

Lemma length_combinations {A : Type} (pool : list A) (r : nat) :
  length (combinations pool r) = binomial (length pool) r.
Proof.
  revert r. induction pool as [|x pool IH]; intros [|r]; cbn [combinations binomial length];
    try reflexivity.
  now rewrite length_app, length_map, !IH.
Qed.

Lemma binomial_pos (n r : nat) : (r <= n)%nat -> (1 <= binomial n r)%nat.
Proof.
  revert r. induction n as [|n IH]; intros [|r] H; cbn [binomial]; try lia.
  assert (1 <= binomial n r)%nat by (apply IH; lia). lia.
Qed.

Lemma combinations_members {A : Type} (pool : list A) (r : nat) (combo : list A) :
  In combo (combinations pool r) -> incl combo pool.
Proof.
  revert r combo. induction pool as [|x pool IH]; intros [|r] combo; cbn [combinations In].
  - intros [<- | []]. intros y [].
  - intros [].
  - intros [<- | []]. intros y [].
  - rewrite in_app_iff, in_map_iff. intros [[c [<- Hc]] | Hc].
    + intros y [<- | Hy]; [now left | right; exact (IH _ _ Hc y Hy)].
    + intros y Hy. right. exact (IH _ _ Hc y Hy).
Qed.

Lemma Qgtb_true (x y : Q) : Qgtb x y = true <-> (y < x)%Q.
Proof.
  unfold Qgtb. rewrite negb_true_iff. split.
  - intros H. apply Qnot_le_lt. intros Hle. apply Qle_bool_iff in Hle. congruence.
  - intros H. destruct (Qle_bool x y) eqn:E; [| reflexivity].
    apply Qle_bool_iff in E. exfalso. exact (Qlt_not_le _ _ H E).
Qed.

Lemma Qgtb_false (x y : Q) : Qgtb x y = false <-> (x <= y)%Q.
Proof.
  unfold Qgtb. rewrite negb_false_iff. apply Qle_bool_iff.
Qed.

Section FirstMax.

Variable value : list Recipe -> Q.
Variable payload : list Recipe -> BestStats.

Lemma keep_best_first_max (seen : list (list Recipe)) (best : Best) (combo : list Recipe) :
  first_max value payload seen best ->
  first_max value payload (seen ++ [ combo ]) (keep_best value payload best combo).
Proof.
  intros H. destruct H as [| before c after Hb Ha]; unfold keep_best; cbn [improves].
  - apply (first_max_some value payload [] combo []); constructor.
  - destruct (Qgtb (value combo) (value c)) eqn:E.
    + apply Qgtb_true in E. rewrite <- app_assoc. cbn [app].
      replace (before ++ c :: after ++ [ combo ]) with ((before ++ c :: after) ++ combo :: [])
        by (now rewrite <- app_assoc).
      apply first_max_some; [| constructor].
      apply Forall_app. split; [| constructor].
      * eapply Forall_impl; [exact Hb |]. intros x Hx. cbn beta in *.
        now apply Qlt_trans with (value c).
      * assumption.
      * eapply Forall_impl; [exact Ha |]. intros x Hx. cbn beta in *.
        now apply Qle_lt_trans with (value c).
    + apply Qgtb_false in E. rewrite <- app_assoc. cbn [app].
      apply first_max_some; [assumption |].
      apply Forall_app. split; [assumption | now repeat constructor].
Qed.

Lemma fold_keep_best_first_max (combos seen : list (list Recipe)) (best : Best) :
  first_max value payload seen best ->
  first_max value payload (seen ++ combos) (fold_left (keep_best value payload) combos best).
Proof.
  revert seen best. induction combos as [|c combos IH]; intros seen best H; cbn [fold_left].
  - now rewrite app_nil_r.
  - replace (seen ++ c :: combos) with ((seen ++ [ c ]) ++ combos)
      by (now rewrite <- app_assoc).
    apply IH. now apply keep_best_first_max.
Qed.

End FirstMax.

Lemma snd_bind_inr {A B : Type} (m : Planner A) (f : A -> Planner B) (events : list Event) (a : A) :
  m = (events, inr a) -> snd (bind m f) = snd (f a).
Proof. intros ->. cbn [bind]. now destruct (f a). Qed.

Lemma fst_bind_inl {A B : Type} (m : Planner A) (f : A -> Planner B) (events : list Event) (e : PlannerError) :
  m = (events, inl e) -> bind m f = (events, inl e).
Proof. now intros ->. Qed.

(** A loop whose body never raises is a fold, and logs what its iterations
    log. *)
Lemma for_each_pure {A S : Type} (xs : list A) (body : S -> A -> Planner S) (log : A -> list Event) (f : S -> A -> S) (state : S) :
  (forall s x, body s x = (log x, inr (f s x))) ->
  for_each xs body state = (concat (map log xs), inr (fold_left f xs state)).
Proof.
  intros Hbody. revert state. induction xs as [|x xs IH]; intros state; cbn [for_each].
  - reflexivity.
  - rewrite Hbody. cbn [bind]. rewrite IH. reflexivity.
Qed.

Lemma cache_scores_other (user_prefs : list UserPreference) (pool : list Recipe) (init : gmap Z Q) (rid : Z) :
  ~ In rid (map recipe_id pool) ->
  cache_scores user_prefs pool init !! rid = init !! rid.
Proof.
  unfold cache_scores. revert init. induction pool as [|x pool IH]; intros init H; cbn [fold_left].
  - reflexivity.
  - cbn [map In] in H. rewrite IH by tauto. apply lookup_insert_ne. tauto.
Qed.

Lemma cache_scores_member (user_prefs : list UserPreference) (pool : list Recipe) (init : gmap Z Q) (recipe : Recipe) :
  List.NoDup (map recipe_id pool) ->
  In recipe pool ->
  cache_scores user_prefs pool init !! recipe_id recipe
  = Some (score_recipe_for_user recipe user_prefs).
Proof.
  revert init. induction pool as [|x pool IH]; intros init Hnd Hin; [destruct Hin |].
  cbn [map] in Hnd. apply List.NoDup_cons_iff in Hnd. destruct Hnd as [Hx Hnd].
  destruct Hin as [<- | Hin].
  - change (cache_scores user_prefs (x :: pool) init)
      with (cache_scores user_prefs pool
              (<[ recipe_id x := score_recipe_for_user x user_prefs ]> init)).
    rewrite cache_scores_other by assumption. apply lookup_insert_eq.
  - change (cache_scores user_prefs (x :: pool) init)
      with (cache_scores user_prefs pool
              (<[ recipe_id x := score_recipe_for_user x user_prefs ]> init)).
    now apply IH.
Qed.

Lemma sum_scores_acc (recipe_scores : gmap Z Q) (user_prefs : list UserPreference) (combo : list Recipe) (acc : Q) :
  (forall recipe, In recipe combo ->
     score_of recipe_scores (recipe_id recipe) = score_recipe_for_user recipe user_prefs) ->
  (fold_left (fun acc recipe => acc + score_of recipe_scores (recipe_id recipe)) combo acc
   == acc + sum_of_scores user_prefs combo)%Q.
Proof.
  revert acc. induction combo as [|x combo IH]; intros acc H; cbn [fold_left].
  - unfold sum_of_scores. cbn [map fold_right]. ring.
  - rewrite IH by (intros r Hr; apply H; now right).
    rewrite (H x) by now left. unfold sum_of_scores. cbn [map fold_right]. ring.
Qed.

Section PlannerFacts.

Variable json_loads : string -> option (list Ingredient).

Lemma evaluate_keep_best (user : User) (num_recipes : Z) (recipe_scores : gmap Z Q) (best : Best) (combo : list Recipe) :
  num_recipes <> 0%Z ->
  evaluate json_loads user num_recipes recipe_scores best combo
  = ([ Evaluated (map recipe_id combo) ],
     inr (keep_best (loop_value json_loads user num_recipes recipe_scores)
            (loop_stats json_loads user num_recipes recipe_scores) best combo)).
Proof.
  intros Hk. unfold evaluate, divide, keep_best.
  apply Z.eqb_neq in Hk. rewrite Hk. cbn [bind emit ret app].
  fold (loop_value json_loads user num_recipes recipe_scores combo).
  destruct (improves (loop_value json_loads user num_recipes recipe_scores combo) best); reflexivity.
Qed.

Lemma loop_value_combined (user : User) (user_prefs : list UserPreference) (num_recipes : Z) (recipe_scores : gmap Z Q) (combo : list Recipe) :
  (forall recipe, In recipe combo ->
     score_of recipe_scores (recipe_id recipe) = score_recipe_for_user recipe user_prefs) ->
  (loop_value json_loads user num_recipes recipe_scores combo
   == combined json_loads (max_ingredients_per_week user) user_prefs num_recipes combo)%Q.
Proof.
  intros H. unfold loop_value, combined, avg_pref, sum_scores. cbv zeta.
  rewrite (sum_scores_acc _ user_prefs) by assumption.
  set (n := Z.of_nat _). set (b := max_ingredients_per_week user).
  replace (if (b <? n)%Z then (n - b)%Z else 0%Z) with (Z.max 0 (n - b))
    by (destruct (Z.ltb_spec b n); lia).
  unfold Qdiv. ring.
Qed.

(** C3. With fewer than [k] recipes available the planner raises its
    not-enough-recipes error straight away: the run logs nothing, scores no
    recipe, evaluates no combination and returns no plan. *)
Theorem insufficient_pool_fails_fast (user : User) (user_prefs : list UserPreference) (pool : list Recipe) (k : Z) :
  (Z.of_nat (length pool) < k)%Z ->
  get_weekly_recommendations json_loads (Some user) user_prefs pool k
  = ([], inl (ValueError_not_enough_recipes k (length pool))).
Proof.
  intros H. unfold get_weekly_recommendations.
  apply Z.ltb_lt in H. now rewrite H.
Qed.


End PlannerFacts.

(** ** The theorems on concrete recipes *)

Lemma example_pool_ids_distinct : List.NoDup (map recipe_id example_pool).
Proof.
  cbn. repeat (constructor; [cbn; intros H; repeat (destruct H as [H | H]; [discriminate H |]); exact H |]).
  constructor.
Qed.



(** A pool of four recipes cannot give five. *)
Lemma insufficient_pool_fails_fast_witness :
  get_weekly_recommendations json_loads_string_arrays (Some example_user)
    example_prefs example_pool 5
  = ([], inl (ValueError_not_enough_recipes 5 4)).
Proof.
  apply (insufficient_pool_fails_fast json_loads_string_arrays example_user
           example_prefs example_pool 5).
  reflexivity.
Defined.

(** Two of the example recipes against all four. *)
Lemma unique_ingredients_monotone_witness :
  (count_ingredients_for_recipes json_loads_string_arrays (firstn 2 example_dicts)
   <= count_ingredients_for_recipes json_loads_string_arrays example_dicts)%nat.
Proof.
  apply (unique_ingredients_monotone json_loads_string_arrays (firstn 2 example_dicts)
           example_dicts).
  intros recipe H. cbn in H. cbn. tauto.
Defined.

(** The broken recipe among the example recipes. *)
Lemma unparsable_ingredients_contribute_nothing_witness :
  json_loads_string_arrays "2 cups rice, 1 onion" = None /\
  count_ingredients_for_recipes json_loads_string_arrays [ broken_recipe ] = 0%nat /\
  extract_unique_ingredients json_loads_string_arrays
    (firstn 2 example_dicts ++ broken_recipe :: skipn 2 example_dicts)
  = extract_unique_ingredients json_loads_string_arrays
      (firstn 2 example_dicts ++ skipn 2 example_dicts).
Proof.
  assert (Hfail : json_loads_string_arrays "2 cups rice, 1 onion" = None) by reflexivity.
  pose proof (unparsable_ingredients_contribute_nothing json_loads_string_arrays
                broken_recipe "2 cups rice, 1 onion" (firstn 2 example_dicts)
                (skipn 2 example_dicts) eq_refl Hfail) as H.
  split; [exact Hfail |]. split; [apply H | apply H].
Defined.


(** ** Invariants of text *)

Lemma every_append (P : ascii -> bool) (a b : string) :
  every P (a +:+ b) = every P a && every P b.
Proof.
  induction a as [|c a IH]; unfold_append; cbn [every]; [reflexivity |].
  now rewrite IH, andb_assoc.
Qed.

Lemma every_rev_onto (P : ascii -> bool) (s acc : string) :
  every P (Py.rev_onto s acc) = every P s && every P acc.
Proof.
  revert acc. induction s as [|c s IH]; intros acc; cbn [Py.rev_onto every]; [reflexivity |].
  rewrite IH. cbn [every]. destruct (P c), (every P s), (every P acc); reflexivity.
Qed.

Lemma every_rev (P : ascii -> bool) (s : string) : every P (Py.rev s) = every P s.
Proof. unfold Py.rev. rewrite every_rev_onto. cbn [every]. apply andb_true_r. Qed.

Lemma every_lstrip (P : ascii -> bool) (s : string) :
  every P s = true -> every P (Py.lstrip s) = true.
Proof.
  induction s as [|c s IH]; cbn [Py.lstrip every]; [reflexivity |].
  intros H. apply andb_true_iff in H. destruct H as [Hc Hs].
  destruct (Py.is_space c); [now apply IH | cbn [every]; now rewrite Hc, Hs].
Qed.

Lemma every_strip (P : ascii -> bool) (s : string) :
  every P s = true -> every P (Py.strip s) = true.
Proof.
  intros H. unfold Py.strip, Py.rstrip. rewrite every_rev.
  apply every_lstrip. rewrite every_rev. now apply every_lstrip.
Qed.

Lemma every_substring (P : ascii -> bool) (n m : nat) (s : string) :
  every P s = true -> every P (String.substring n m s) = true.
Proof.
  revert n m. induction s as [|c s IH]; intros n m H.
  - destruct n, m; reflexivity.
  - cbn [every] in H. apply andb_true_iff in H. destruct H as [Hc Hs].
    destruct n as [|n]; cbn [String.substring].
    + destruct m as [|m]; [reflexivity |]. cbn [every]. now rewrite Hc, IH.
    + now apply IH.
Qed.

Lemma every_sub_go (P : ascii -> bool) (r : regex) (repl : string) (skip : nat) prev (s : string) :
  every P repl = true -> every P s = true -> every P (sub_go r repl skip prev s) = true.
Proof.
  intros Hrepl. revert skip prev. induction s as [|c s IH]; intros skip prev H; cbn [sub_go]; [reflexivity |].
  cbn [every] in H. apply andb_true_iff in H. destruct H as [Hc Hs].
  destruct skip as [|n]; [| now apply IH].
  destruct (match_len r prev (String c s)) as [[|n]|].
  - cbn [every]. now rewrite Hc, IH.
  - now rewrite every_append, Hrepl, IH.
  - cbn [every]. now rewrite Hc, IH.
Qed.

Lemma every_sub (P : ascii -> bool) (r : regex) (repl s : string) :
  every P repl = true -> every P s = true -> every P (sub r repl s) = true.
Proof. apply every_sub_go. Qed.

Lemma every_fold_sub (P : ascii -> bool) (patterns : list regex) (s : string) :
  every P s = true ->
  every P (fold_left (fun t pattern => sub pattern "" t) patterns s) = true.
Proof.
  revert s. induction patterns as [|r patterns IH]; intros s H; cbn [fold_left]; [assumption |].
  apply IH. now apply every_sub.
Qed.

Lemma every_singularize (P : ascii -> bool) (s : string) :
  P "y"%char = true -> every P s = true -> every P (singularize s) = true.
Proof.
  intros Hy H. unfold singularize, Py.drop_last.
  repeat match goal with |- context [if ?b then _ else _] => destruct b end;
    rewrite ?every_append; cbn [every]; rewrite ?Hy, ?every_substring by assumption;
    try reflexivity; assumption.
Qed.

Lemma lower_char_not_upper (c : ascii) : Py.is_upper (Py.lower_char c) = false.
Proof.
  destruct c as [[] [] [] [] [] [] [] []]; reflexivity.
Qed.

Lemma every_lower (s : string) : every (fun c => negb (Py.is_upper c)) (Py.lower s) = true.
Proof.
  induction s as [|c s IH]; cbn [Py.lower every]; [reflexivity |].
  now rewrite lower_char_not_upper, IH.
Qed.

Lemma lower_fixed (s : string) :
  every (fun c => negb (Py.is_upper c)) s = true -> Py.lower s = s.
Proof.
  induction s as [|c s IH]; cbn [Py.lower every]; [reflexivity |].
  intros H. apply andb_true_iff in H. destruct H as [Hc Hs].
  rewrite IH by assumption. unfold Py.lower_char.
  apply negb_true_iff in Hc. now rewrite Hc.
Qed.

Lemma rev_onto_append (s acc : string) : Py.rev_onto s acc = Py.rev s +:+ acc.
Proof.
  unfold Py.rev. revert acc. induction s as [|c s IH]; intros acc; cbn [Py.rev_onto]; [reflexivity |].
  rewrite (IH (String c acc)), (IH (String c "")), append_assoc. reflexivity.
Qed.

Lemma rev_cons (c : ascii) (s : string) : Py.rev (String c s) = Py.rev s +:+ String c "".
Proof. unfold Py.rev at 1. cbn [Py.rev_onto]. apply rev_onto_append. Qed.

Lemma rev_append (a b : string) : Py.rev (a +:+ b) = Py.rev b +:+ Py.rev a.
Proof.
  induction a as [|c a IH]; unfold_append.
  - now rewrite append_nil_r.
  - now rewrite !rev_cons, IH, append_assoc.
Qed.

Lemma rev_involutive (s : string) : Py.rev (Py.rev s) = s.
Proof.
  induction s as [|c s IH]; [reflexivity |].
  rewrite rev_cons, rev_append, IH. reflexivity.
Qed.

Lemma last_rev (s : string) : last_of (Py.rev s) = head s.
Proof.
  destruct s as [|c s]; [reflexivity |].
  rewrite rev_cons. unfold last_of. now rewrite last_char_app.
Qed.

Lemma head_rev (s : string) : head (Py.rev s) = last_of s.
Proof. rewrite <- (rev_involutive s) at 2. symmetry. apply last_rev. Qed.

Lemma lstrip_fixed (s : string) : space_opt (head s) = false -> Py.lstrip s = s.
Proof. destruct s as [|c s]; [reflexivity |]. cbn. now intros ->. Qed.

Lemma head_lstrip (s : string) : space_opt (head (Py.lstrip s)) = false.
Proof.
  induction s as [|c s IH]; [reflexivity |]. cbn [Py.lstrip].
  destruct (Py.is_space c) eqn:E; [exact IH | cbn; exact E].
Qed.

Lemma lstrip_split (s : string) :
  exists spaces, s = spaces +:+ Py.lstrip s /\ every Py.is_space spaces = true.
Proof.
  induction s as [|c s IH]; [now exists "" |]. cbn [Py.lstrip].
  destruct (Py.is_space c) eqn:E.
  - destruct IH as [spaces [H1 H2]]. exists (String c spaces). unfold_append.
    cbn [every]. rewrite E, H2. split; [now f_equal | reflexivity].
  - now exists "".
Qed.

Lemma rstrip_split (s : string) :
  exists spaces, s = Py.rstrip s +:+ spaces /\ every Py.is_space spaces = true.
Proof.
  destruct (lstrip_split (Py.rev s)) as [spaces [H1 H2]].
  exists (Py.rev spaces). split; [| now rewrite every_rev].
  unfold Py.rstrip. rewrite <- rev_append, <- H1. symmetry. apply rev_involutive.
Qed.

Lemma last_rstrip (s : string) : space_opt (last_of (Py.rstrip s)) = false.
Proof.
  unfold Py.rstrip. rewrite <- head_rev, rev_involutive. apply head_lstrip.
Qed.

Lemma rstrip_fixed (s : string) : space_opt (last_of s) = false -> Py.rstrip s = s.
Proof.
  intros H. unfold Py.rstrip. rewrite lstrip_fixed by now rewrite head_rev.
  apply rev_involutive.
Qed.

Lemma head_rstrip (s : string) :
  space_opt (head s) = false -> space_opt (head (Py.rstrip s)) = false.
Proof.
  intros H. destruct (rstrip_split s) as [spaces [H1 H2]].
  destruct (Py.rstrip s) as [|c t] eqn:E; [reflexivity |].
  rewrite H1 in H. exact H.
Qed.

Lemma strip_trimmed (s : string) : trimmed (Py.strip s) = true.
Proof.
  unfold trimmed, Py.strip.
  now rewrite head_rstrip, last_rstrip by apply head_lstrip.
Qed.

Lemma strip_fixed (s : string) : trimmed s = true -> Py.strip s = s.
Proof.
  unfold trimmed. rewrite andb_true_iff, !negb_true_iff. intros [H1 H2].
  unfold Py.strip. rewrite lstrip_fixed by assumption. now apply rstrip_fixed.
Qed.

Lemma strip_idempotent (s : string) : Py.strip (Py.strip s) = Py.strip s.
Proof. apply strip_fixed, strip_trimmed. Qed.

(** A match hands over to its continuation: the result of a match is a
    result of the continuation on a suffix of the text. *)
Lemma star_greedy_from_k {A : Type} (p : ascii -> bool) (k : @cont A) prev (s : string) (x : A) :
  star_greedy p k prev s = Some x ->
  exists prev' rest, k prev' rest = Some x /\ (String.length rest <= String.length s)%nat.
Proof.
  revert prev. induction s as [|c s IH]; intros prev H; cbn [star_greedy] in H.
  - exists prev, "". split; [assumption | lia].
  - destruct (p c).
    + destruct (star_greedy p k (Some c) s) as [y|] eqn:E.
      * injection H as ->. destruct (IH _ E) as [prev' [rest [H1 H2]]].
        exists prev', rest. cbn [String.length]. split; [assumption | lia].
      * exists prev, (String c s). split; [assumption | lia].
    + exists prev, (String c s). split; [assumption | lia].
Qed.

Lemma rmatch_from_k {A : Type} (r : regex) (k : @cont A) prev (s : string) (x : A) :
  rmatch r k prev s = Some x ->
  exists prev' rest, k prev' rest = Some x /\ (String.length rest <= String.length s)%nat.
Proof.
  revert k prev s.
  induction r as [| c | p | r1 IH1 r2 IH2 | r1 IH1 r2 IH2 | p | |];
    intros k prev s H; cbn [rmatch] in H.
  - exists prev, s. split; [assumption | lia].
  - destruct s as [|d s]; [discriminate |]. destruct (Ascii.eqb c d); [| discriminate].
    exists (Some d), s. cbn [String.length]. split; [assumption | lia].
  - destruct s as [|d s]; [discriminate |]. destruct (p d); [| discriminate].
    exists (Some d), s. cbn [String.length]. split; [assumption | lia].
  - destruct (IH1 _ _ _ H) as [prev1 [rest1 [H1 L1]]].
    destruct (IH2 _ _ _ H1) as [prev2 [rest2 [H2 L2]]].
    exists prev2, rest2. split; [assumption | lia].
  - destruct (rmatch r1 k prev s) as [y|] eqn:E.
    + injection H as ->. now apply IH1 in E.
    + now apply IH2 in H.
  - now apply star_greedy_from_k in H.
  - destruct (xorb _ _); [| discriminate]. exists prev, s. split; [assumption | lia].
  - exists prev, s. split; [| lia].
    destruct s as [|d [|e s]]; [assumption | | ].
    + destruct d as [[] [] [] [] [] [] [] []]; try discriminate H; assumption.
    + destruct d as [[] [] [] [] [] [] [] []]; discriminate H.
Qed.

(** A total pattern matches wherever its continuation accepts every
    suffix. *)
Lemma total_matches {A : Type} (r : regex) (k : @cont A) prev (s : string) :
  total r = true ->
  (forall prev' rest, (String.length rest <= String.length s)%nat -> k prev' rest <> None) ->
  rmatch r k prev s <> None.
Proof.
  revert k prev s.
  induction r as [| c | p | r1 IH1 r2 IH2 | r1 IH1 r2 IH2 | p | |];
    intros k prev s Ht H; cbn [total] in Ht; try discriminate Ht; cbn [rmatch].
  - apply H. lia.
  - apply andb_true_iff in Ht. destruct Ht as [Ht1 Ht2].
    apply IH1; [assumption |]. intros prev' rest L. apply IH2; [assumption |].
    intros prev'' rest' L'. apply H. lia.
  - destruct (rmatch r1 k prev s) as [y|] eqn:E; [discriminate |].
    destruct (total r1) eqn:T1.
    + exfalso. now apply (IH1 k prev s).
    + cbn [orb] in Ht. now apply IH2.
  - clear Ht. revert prev. induction s as [|c s IHs]; intros prev; cbn [star_greedy].
    + apply H. lia.
    + destruct (p c); [| apply H; lia].
      destruct (star_greedy p k (Some c) s) eqn:E; [discriminate | apply H; lia].
Qed.

(** Deleting the matches of a pattern that starts with a class and goes on
    with a total pattern deletes every character of the class. *)
Lemma sub_go_deletes_class (p : ascii -> bool) (r r' : regex) (repl : string) (skip : nat) prev (s : string) :
  (forall k prev s, @rmatch nat r k prev s = rmatch (Cls p) (rmatch r' k) prev s) ->
  total r' = true ->
  every (fun c => negb (p c)) repl = true ->
  every (fun c => negb (p c)) (sub_go r repl skip prev s) = true.
Proof.
  intros Hr Ht Hrepl. revert skip prev.
  induction s as [|c s IH]; intros skip prev; cbn [sub_go]; [reflexivity |].
  destruct skip as [|n]; [| apply IH].
  destruct (match_len r prev (String c s)) as [[|n]|] eqn:E.
  - cbn [every]. rewrite IH, andb_true_r.
    destruct (p c) eqn:Ep; [| reflexivity]. exfalso.
    unfold match_len in E. apply rmatch_from_k in E.
    destruct E as [prev' [rest [E L]]].
    destruct (String.length rest <? String.length (String c s))%nat eqn:Lt; [| discriminate].
    apply Nat.ltb_lt in Lt.
    assert (Hpos : (String.length (String c s) - String.length rest)%nat <> 0%nat) by lia.
    congruence.
  - now rewrite every_append, Hrepl, IH.
  - cbn [every]. rewrite IH, andb_true_r.
    destruct (p c) eqn:Ep; [| reflexivity]. exfalso.
    unfold match_len in E. rewrite Hr in E. cbn [rmatch] in E. rewrite Ep in E.
    revert E. apply total_matches; [assumption |].
    intros prev' rest L. cbn [String.length].
    destruct (String.length rest <? S (String.length s))%nat eqn:Lt; [discriminate |].
    apply Nat.ltb_ge in Lt. lia.
Qed.

Lemma every_and (P Q : ascii -> bool) (s : string) :
  every (fun c => P c && Q c) s = every P s && every Q s.
Proof.
  induction s as [|c s IH]; cbn [every]; [reflexivity |]. rewrite IH.
  destruct (P c), (Q c), (every P s), (every Q s); reflexivity.
Qed.

(** X1. A normalized ingredient name holds no capital letter and no digit,
    and neither starts nor ends with white space; lowercasing and trimming
    it again, as the staple test does, gives it back. *)
Theorem normalized_names_are_canonical (ingredient_string : string) :
  let name := normalize_ingredient_name ingredient_string in
  every name_char name = true /\
  trimmed name = true /\
  Py.strip (Py.lower name) = name.
Proof.
  cbv zeta.
  assert (Hupper : every (fun c => negb (Py.is_upper c))
                     (normalize_ingredient_name ingredient_string) = true).
  { unfold normalize_ingredient_name. cbv zeta.
    apply every_strip, every_sub; [reflexivity |].
    apply every_singularize; [reflexivity |].
    apply every_strip, every_sub; [reflexivity |].
    apply every_fold_sub, every_fold_sub, every_sub; [reflexivity |].
    apply every_strip, every_lower. }
  assert (Hdigit : every (fun c => negb (Py.is_digit c))
                     (normalize_ingredient_name ingredient_string) = true).
  { unfold normalize_ingredient_name. cbv zeta.
    apply every_strip, every_sub; [reflexivity |].
    apply every_singularize; [reflexivity |].
    apply every_strip, every_sub; [reflexivity |].
    apply every_fold_sub. unfold measurements. cbn [fold_left].
    do 3 (apply every_sub; [reflexivity |]).
    apply (sub_go_deletes_class Py.is_digit _
             (Seq (Star Py.is_digit)
                (Seq (Opt (Cls space_or_dash))
                   (Seq (Star Py.is_digit) (Seq (Opt (Chr "/")) (Star Py.is_digit))))));
      reflexivity. }
  assert (Htrim : trimmed (normalize_ingredient_name ingredient_string) = true).
  { unfold normalize_ingredient_name. cbv zeta. apply strip_trimmed. }
  split; [| split].
  - unfold name_char. now rewrite every_and, Hupper, Hdigit.
  - exact Htrim.
  - rewrite lower_fixed by exact Hupper. now apply strip_fixed.
Qed.

(** ** More on the aggregator *)

Section AggregatorMore.

Variable json_loads : string -> option (list Ingredient).

Abbreviation unique' := (extract_unique_ingredients json_loads).

Lemma elem_of_add_ingredients (x : string) (entries : list Ingredient) :
  x ∈ fold_left add_ingredient entries ∅ <->
  exists ingredient,
    In ingredient entries /\
    x = normalize_ingredient_name (original_text ingredient) /\
    nonempty x = true /\ is_pantry_staple x = false.
Proof.
  induction entries as [|e entries IH]; cbn [fold_left].
  - split; [intros H; now apply not_elem_of_empty in H | intros [i [[] _]]].
  - rewrite add_ingredients_acc, elem_of_union, IH. unfold add_ingredient.
    set (n := normalize_ingredient_name (original_text e)).
    split.
    + intros [H | [i [Hi H]]]; [| exists i; cbn [In]; tauto].
      destruct (nonempty n && negb (is_pantry_staple n)) eqn:E.
      * apply elem_of_union in H. destruct H as [H | H]; [now apply not_elem_of_empty in H |].
        apply elem_of_singleton in H. subst x. exists e.
        apply andb_true_iff in E. destruct E as [E1 E2]. apply negb_true_iff in E2.
        cbn [In]. tauto.
      * now apply not_elem_of_empty in H.
    + intros [i [[<- | Hi] [Hx [H1 H2]]]]; [left | right; exists i; tauto].
      fold n in Hx. subst x. rewrite H1, H2. cbn [andb negb].
      apply elem_of_union. right. now apply elem_of_singleton.
Qed.

(** X2. The unique ingredients of a list of recipes are exactly the
    normalized names of their ingredient lines that are not empty and not
    pantry staples. *)
Theorem unique_ingredients_characterised (x : string) (recipes : list RecipeDict) :
  x ∈ extract_unique_ingredients json_loads recipes <->
  exists recipe ingredient,
    In recipe recipes /\
    In ingredient (ingredient_entries json_loads recipe) /\
    x = normalize_ingredient_name (original_text ingredient) /\
    x <> "" /\ is_pantry_staple x = false.
Proof.
  rewrite elem_of_unique. split.
  - intros [recipe [Hr Hx]]. unfold extract_unique_ingredients in Hx. cbn [fold_left] in Hx.
    apply elem_of_add_ingredients in Hx. destruct Hx as [i [Hi [Hx [H1 H2]]]].
    exists recipe, i. repeat (split; [assumption |]).
    split; [| assumption]. intros ->. discriminate H1.
  - intros [recipe [i [Hr [Hi [Hx [H1 H2]]]]]]. exists recipe. split; [assumption |].
    unfold extract_unique_ingredients. cbn [fold_left].
    apply elem_of_add_ingredients. exists i. repeat (split; [assumption |]).
    split; [| assumption]. destruct x; [congruence | reflexivity].
Qed.

Lemma size_union_intersection (A B : gset string) :
  (size (A ∪ B) + size (A ∩ B) = size A + size B)%nat.
Proof.
  rewrite size_union_alt.
  assert (HB : B = (A ∩ B) ∪ (B ∖ A)).
  { apply set_eq. intros y. rewrite elem_of_union, elem_of_intersection, elem_of_difference.
    destruct (decide (y ∈ A)); tauto. }
  assert (HsB : size B = (size (A ∩ B) + size (B ∖ A))%nat).
  { transitivity (size ((A ∩ B) ∪ (B ∖ A))); [now rewrite <- HB |].
    apply size_union. intros y H1 H2.
    apply elem_of_intersection in H1. apply elem_of_difference in H2. tauto. }
  lia.
Qed.

(** X3. The overlap of two recipes does not depend on their order, and
    the savings computed for the pair is the size of that overlap. *)
Theorem pair_savings_is_overlap (recipe1 recipe2 : RecipeDict) :
  get_ingredient_overlap json_loads recipe1 recipe2
  = get_ingredient_overlap json_loads recipe2 recipe1 /\
  savings (calculate_ingredient_savings json_loads [ recipe1; recipe2 ])
  = Z.of_nat (size (get_ingredient_overlap json_loads recipe1 recipe2)).
Proof.
  unfold get_ingredient_overlap. split; [apply (comm_L (∩)) |].
  unfold calculate_ingredient_savings. cbn [savings map fold_left].
  unfold count_ingredients_for_recipes.
  rewrite (unique_cons json_loads recipe1 [ recipe2 ]).
  pose proof (size_union_intersection (unique' [ recipe1 ]) (unique' [ recipe2 ])). lia.
Qed.

End AggregatorMore.

Lemma append_usage_keys_old (m : list (string * list Usage)) (name : string) (usage : Usage) :
  In name (detail_keys m) -> detail_keys (append_usage m name usage) = detail_keys m.
Proof.
  unfold detail_keys. induction m as [|[key usages] m IH]; cbn [append_usage map fst In].
  - intros [].
  - intros H. destruct (String.eqb key name) eqn:E; cbn [map fst]; [reflexivity |].
    apply String.eqb_neq in E. destruct H as [H | H]; [contradiction |]. now rewrite IH.
Qed.

Lemma append_usage_keys_new (m : list (string * list Usage)) (name : string) (usage : Usage) :
  ~ In name (detail_keys m) ->
  detail_keys (append_usage m name usage) = detail_keys m ++ [ name ].
Proof.
  unfold detail_keys. induction m as [|[key usages] m IH]; cbn [append_usage map fst In app].
  - reflexivity.
  - intros H. destruct (String.eqb key name) eqn:E; cbn [map fst].
    + apply String.eqb_eq in E. tauto.
    + rewrite IH by tauto. reflexivity.
Qed.

Lemma append_usage_filled (m : list (string * list Usage)) (name : string) (usage : Usage) :
  usage_quantity usage <> "" ->
  usages_filled m -> usages_filled (append_usage m name usage).
Proof.
  intros Hq. unfold usages_filled. induction m as [|[key usages] m IH]; intros H; cbn [append_usage].
  - repeat constructor; cbn [snd]; [discriminate | assumption].
  - apply Forall_cons in H. destruct H as [[H1 H2] H3]. cbn [snd] in *.
    destruct (String.eqb key name).
    + constructor; [| assumption]. cbn [snd]. split.
      * destruct usages; discriminate.
      * apply Forall_app. split; [assumption | now repeat constructor].
    + constructor; [now split | now apply IH].
Qed.

Lemma add_usage_in_step (recipe_title : string) (m : list (string * list Usage)) (S : gset string) (ingredient : Ingredient) :
  in_step m S -> in_step (add_usage recipe_title m ingredient) (add_ingredient S ingredient).
Proof.
  intros Hin. unfold add_usage, add_ingredient. cbv zeta.
  generalize (extract_quantity_from_ingredient (original_text ingredient)). intros q.
  generalize (normalize_ingredient_name (original_text ingredient)). intros n.
  generalize (original_text ingredient). intros original.
  destruct (nonempty n) eqn:E1; destruct (is_pantry_staple n) eqn:E2; cbn [negb orb andb];
    try exact Hin.
  destruct Hin as [Hnd [Hkeys Hfill]].
  split; [| split].
  - destruct (in_dec String.string_dec n (detail_keys m)) as [D | D].
    + rewrite append_usage_keys_old by assumption. exact Hnd.
    + rewrite append_usage_keys_new by assumption.
      apply NoDup_ListNoDup, NoDup_app. split; [| split].
      * apply NoDup_ListNoDup. exact Hnd.
      * intros x Hx Hx'. apply list_elem_of_In in Hx.
        apply list_elem_of_In in Hx'. destruct Hx' as [<- | []]. contradiction.
      * apply NoDup_ListNoDup. constructor; [intros [] | constructor].
  - intros x. rewrite elem_of_union, elem_of_singleton, <- Hkeys.
    destruct (in_dec String.string_dec n (detail_keys m)) as [D | D].
    + rewrite append_usage_keys_old by assumption.
      split; [tauto | intros [H | ->]; assumption].
    + rewrite append_usage_keys_new, in_app_iff by assumption. cbn [In].
      split; [intros [H | [<- | []]]; tauto | intros [H | ->]; tauto].
  - apply append_usage_filled; [| assumption]. cbn [usage_quantity].
    destruct q; cbn [nonempty]; discriminate.
Qed.

Lemma fold_add_usage_in_step (recipe_title : string) (entries : list Ingredient) (m : list (string * list Usage)) (S : gset string) :
  in_step m S ->
  in_step (fold_left (add_usage recipe_title) entries m) (fold_left add_ingredient entries S).
Proof.
  revert m S. induction entries as [|e entries IH]; intros m S H; cbn [fold_left]; [assumption |].
  apply IH. now apply add_usage_in_step.
Qed.

Lemma details_in_step (json_loads : string -> option (list Ingredient)) (recipes : list RecipeDict) :
  in_step (extract_ingredients_with_details json_loads recipes)
    (extract_unique_ingredients json_loads recipes).
Proof.
  unfold extract_ingredients_with_details, extract_unique_ingredients.
  assert (H0 : in_step [] ∅).
  { split; [constructor | split; [| constructor]].
    intros x. split; [intros [] | intros Hx; now apply not_elem_of_empty in Hx]. }
  revert H0. generalize (@nil (string * list Usage)) (∅ : gset string).
  induction recipes as [|r recipes IH]; intros m S H0; cbn [fold_left]; [assumption |].
  apply IH. now apply fold_add_usage_in_step.
Qed.

(** X4. The detail map has one key per unique ingredient: its keys are
    distinct, they are exactly the unique ingredients of the recipes, there
    are as many as the ingredient count, every key has at least one usage,
    and no usage has an empty quantity. *)
Theorem details_match_unique_ingredients (json_loads : string -> option (list Ingredient)) (recipes : list RecipeDict) :
  let details := extract_ingredients_with_details json_loads recipes in
  List.NoDup (detail_keys details) /\
  (forall x, In x (detail_keys details) <-> x ∈ extract_unique_ingredients json_loads recipes) /\
  length details = count_ingredients_for_recipes json_loads recipes /\
  usages_filled details.
Proof.
  cbv zeta.
  destruct (details_in_step json_loads recipes) as [Hnd [Hkeys Hfill]]. repeat (split; [assumption |]).
  split; [| assumption].
  unfold count_ingredients_for_recipes.
  assert (Hset : extract_unique_ingredients json_loads recipes
                 = list_to_set (detail_keys (extract_ingredients_with_details json_loads recipes))).
  { apply set_eq. intros x. rewrite elem_of_list_to_set, list_elem_of_In. symmetry. apply Hkeys. }
  rewrite Hset, size_list_to_set by now apply NoDup_ListNoDup.
  unfold detail_keys. now rewrite length_map.
Qed.

Lemma lstrip_empty_iff (s : string) : Py.lstrip s = "" <-> every Py.is_space s = true.
Proof.
  induction s as [|c s IH]; cbn [Py.lstrip every]; [tauto |].
  destruct (Py.is_space c); cbn [andb]; [exact IH |]. split; discriminate.
Qed.

Lemma strip_nonempty (c : ascii) (s : string) :
  Py.is_space c = false -> Py.strip (String c s) <> "".
Proof.
  intros Hc. unfold Py.strip. cbn [Py.lstrip]. rewrite Hc.
  destruct (rstrip_split (String c s)) as [spaces [H1 H2]].
  intros E. rewrite E in H1. unfold_append. rewrite <- H1 in H2.
  cbn [every] in H2. rewrite Hc in H2. discriminate H2.
Qed.

Lemma substring_cons (c : ascii) (s : string) (n : nat) :
  String.substring 0 (S n) (String c s) = String c (String.substring 0 n s).
Proof. reflexivity. Qed.

(** X5. [extract_quantity_from_ingredient] returns the empty string exactly
    when the trimmed line is empty or starts with a character that is not a
    digit, white space or one of [/ - ( ) .]; a line that starts with such a
    character always gets a quantity. *)
Theorem quantity_empty_iff (ingredient_string : string) :
  extract_quantity_from_ingredient ingredient_string = "" <->
  match head (Py.strip ingredient_string) with
  | None => True
  | Some c => quantity_char c = false
  end.
Proof.
  unfold extract_quantity_from_ingredient. cbv zeta.
  pose proof (strip_trimmed ingredient_string) as Ht.
  destruct (Py.strip ingredient_string) as [|c text] eqn:E; [cbn; tauto |].
  unfold trimmed in Ht. cbn [head space_opt] in Ht.
  apply andb_true_iff in Ht. destruct Ht as [Hc _]. apply negb_true_iff in Hc.
  cbn [head]. unfold match_prefix, quantity_pattern, Plus. cbn [rmatch].
  destruct (quantity_char c) eqn:Q; [| tauto].
  split; [| discriminate]. intros H. exfalso.
  destruct (star_greedy quantity_char _ (Some c) text) as [rest|] eqn:S.
  - apply star_greedy_from_k in S. destruct S as [prev' [rest' [S L]]].
    apply rmatch_from_k in S. destruct S as [prev'' [rest'' [S L']]].
    injection S as <-.
    replace (String.length (String c text) - String.length rest'')%nat
      with (Datatypes.S (String.length text - String.length rest'')) in H
      by (cbn [String.length]; lia).
    rewrite substring_cons in H. revert H. now apply strip_nonempty.
  - revert S. apply (total_matches (Star quantity_char)); [reflexivity |].
    intros prev' rest L. apply (total_matches (Opt _)); [reflexivity |].
    intros; discriminate.
Qed.

(** ** More on the preference learner *)

Lemma map_key_update_first (test : UserPreference -> bool) (score_delta : Q) (now : Z) (table : list UserPreference) :
  map pref_key (update_first test (bump score_delta now) table) = map pref_key table.
Proof.
  induction table as [|pref table IH]; [reflexivity |]. cbn [update_first].
  destruct (test pref); cbn [map]; [reflexivity | now rewrite IH].
Qed.

Lemma length_update_first (test : UserPreference -> bool) (f : UserPreference -> UserPreference) (table : list UserPreference) :
  length (update_first test f table) = length table.
Proof.
  induction table as [|pref table IH]; [reflexivity |]. cbn [update_first].
  destruct (test pref); cbn [length]; [reflexivity | now rewrite IH].
Qed.

Lemma find_none_key (uid : Z) (ptype pvalue : string) (table : list UserPreference) :
  find (same_preference uid ptype pvalue) table = None ->
  ~ In (uid, ptype, pvalue) (map pref_key table).
Proof.
  intros Hfind Hin. apply in_map_iff in Hin. destruct Hin as [pref [Hk Hp]].
  apply (find_none _ _ Hfind) in Hp. unfold pref_key in Hk. injection Hk as H1 H2 H3.
  unfold same_preference in Hp. now rewrite H1, H2, H3, Z.eqb_refl, !String.eqb_refl in Hp.
Qed.

Lemma update_keeps_nodup (table : list UserPreference) (uid : Z) (ptype : string) (pvalue : option string) (score_delta : Q) (now : Z) :
  List.NoDup (map pref_key table) ->
  List.NoDup (map pref_key (update_user_preference table uid ptype pvalue score_delta now)).
Proof.
  intros Hnd. unfold update_user_preference.
  destruct (negb (Py.truthy_str pvalue)); [assumption |].
  destruct (find _ table) eqn:E.
  - now rewrite map_key_update_first.
  - rewrite map_app. cbn [map].
    apply NoDup_ListNoDup, NoDup_app. split; [| split].
    + now apply NoDup_ListNoDup.
    + intros key Hk Hk'. apply list_elem_of_In in Hk. apply list_elem_of_In in Hk'.
      destruct Hk' as [<- | []]. revert Hk. now apply find_none_key.
    + apply NoDup_ListNoDup. constructor; [intros [] | constructor].
Qed.

(** X6. [update_user_preference] keeps the table within its unique
    constraint: when no two rows share (user, type, value) before the
    update, none do after it; no row is ever removed and at most one is
    added. *)
Theorem update_keeps_keys_unique (table : list UserPreference) (uid : Z) (ptype : string) (pvalue : option string) (score_delta : Q) (now : Z) :
  List.NoDup (map pref_key table) ->
  let table' := update_user_preference table uid ptype pvalue score_delta now in
  List.NoDup (map pref_key table') /\
  incl (map pref_key table) (map pref_key table') /\
  (length table <= length table' <= length table + 1)%nat.
Proof.
  intros Hnd. cbv zeta. split; [now apply update_keeps_nodup |].
  unfold update_user_preference.
  destruct (negb (Py.truthy_str pvalue)).
  { split; [apply incl_refl | lia]. }
  destruct (find _ table) eqn:E.
  - rewrite map_key_update_first, length_update_first.
    split; [apply incl_refl | lia].
  - rewrite map_app, length_app. cbn [map length]. split; [| lia].
    apply incl_appl, incl_refl.
Qed.

Lemma same_preference_refl_iff (uid uid' : Z) (ptype ptype' pvalue pvalue' : string) (pref : UserPreference) :
  same_preference uid ptype pvalue pref = true ->
  same_preference uid' ptype' pvalue' pref
  = (uid' =? uid)%Z && String.eqb ptype ptype' && String.eqb pvalue pvalue'.
Proof.
  intros H. apply same_preference_true in H. destruct H as [<- [<- <-]].
  unfold same_preference. now rewrite (Z.eqb_sym uid').
Qed.

(** The stored score after one update. *)
Lemma stored_score_update (table : list UserPreference) (uid uid' : Z) (ptype ptype' : string) (pvalue : option string) (pvalue' : string) (score_delta : Q) (now : Z) :
  (stored_score (update_user_preference table uid ptype pvalue score_delta now) uid' ptype' pvalue'
   == stored_score table uid' ptype' pvalue'
      + (if Py.truthy_str pvalue && (uid' =? uid)%Z && String.eqb ptype ptype'
            && String.eqb (default "" pvalue) pvalue'
         then score_delta else 0))%Q.
Proof.
  unfold update_user_preference, stored_score, stored.
  destruct (Py.truthy_str pvalue) eqn:Ht; cbn [negb andb]; [| ring].
  set (value := default "" pvalue).
  destruct ((uid' =? uid)%Z && String.eqb ptype ptype' && String.eqb value pvalue') eqn:K.
  - apply andb_true_iff in K. destruct K as [K K3]. apply andb_true_iff in K.
    destruct K as [K1 K2]. apply Z.eqb_eq in K1. apply String.eqb_eq in K2, K3. subst.
    destruct (find (same_preference uid ptype' value) table) as [pref|] eqn:E.
    + rewrite find_update_first_same, E by apply same_preference_bump.
      cbn [option_map bump score]. reflexivity.
    + rewrite find_app_None by assumption. cbn [find].
      rewrite same_preference_new_row. cbn [new_row score]. ring.
  - destruct (find (same_preference uid ptype value) table) as [pref|] eqn:E.
    + rewrite find_update_first_other; [ring |]. intros p Hp.
      rewrite same_preference_bump, (same_preference_refl_iff uid uid' ptype ptype' value pvalue' p Hp).
      now split.
    + rewrite find_app_last; [ring |].
      rewrite (same_preference_refl_iff uid uid' ptype ptype' value pvalue'
                 (new_row uid ptype value score_delta now)); [assumption |].
      apply same_preference_new_row.
Qed.

(** The guards of [update_preferences_from_rating] repeat the guard of
    [update_user_preference]: the function is four updates in a row. *)
Lemma rating_is_four_updates (recipes : list Recipe) (table : list UserPreference) (uid rid rating now : Z) (recipe : Recipe) :
  find (fun r => (recipe_id r =? rid)%Z) recipes = Some recipe ->
  update_preferences_from_rating recipes table uid rid rating now
  = update_user_preference
      (update_user_preference
         (update_user_preference
            (update_user_preference table uid "cuisine_type" (cuisine_type recipe)
               (calculate_score_delta rating) now)
            uid "dish_type" (dish_type recipe) (calculate_score_delta rating) now)
         uid "difficulty" (difficulty recipe) (calculate_score_delta rating) now)
      uid "cooking_time" (attribute_value recipe "cooking_time")
      (calculate_score_delta rating) now.
Proof.
  intros Hfind. unfold update_preferences_from_rating. rewrite Hfind. cbv zeta.
  change (attribute_value recipe "cooking_time")
    with (if Py.truthy_int (ready_in_minutes recipe)
          then Some (time_bucket (default 0%Z (ready_in_minutes recipe))) else None).
  assert (Hskip : forall t ptype (value : option string) d,
            Py.truthy_str value = false ->
            update_user_preference t uid ptype value d now = t).
  { intros t ptype value d H. unfold update_user_preference. now rewrite H. }
  destruct (Py.truthy_str (cuisine_type recipe)) eqn:E1;
    destruct (Py.truthy_str (dish_type recipe)) eqn:E2;
    destruct (Py.truthy_str (difficulty recipe)) eqn:E3;
    destruct (Py.truthy_int (ready_in_minutes recipe)) eqn:E4;
    rewrite ?(Hskip _ "cuisine_type" _ _ E1), ?(Hskip _ "dish_type" _ _ E2),
      ?(Hskip _ "difficulty" _ _ E3), ?(Hskip _ "cooking_time" None _ eq_refl);
    reflexivity.
Qed.

Ltac eval_closed_eqb :=
  repeat match goal with
    | |- context [String.eqb ?a ?b] =>
        let v := eval vm_compute in (String.eqb a b) in
        match v with
        | true => change (String.eqb a b) with true
        | false => change (String.eqb a b) with false
        end
    end.

Lemma cooking_time_value (recipe : Recipe) :
  Py.truthy_str (attribute_value recipe "cooking_time") = Py.truthy_int (ready_in_minutes recipe).
Proof.
  unfold attribute_value. eval_closed_eqb. cbn match.
  destruct (Py.truthy_int (ready_in_minutes recipe)); [| reflexivity].
  unfold time_bucket. destruct (_ <? 30)%Z; [reflexivity |]. now destruct (_ <=? 60)%Z.
Qed.

Lemma stored_score_after_rating (recipes : list Recipe) (table : list UserPreference) (uid rid rating now : Z) (recipe : Recipe) :
  find (fun r => (recipe_id r =? rid)%Z) recipes = Some recipe ->
  forall uid' ptype pvalue,
    (stored_score (update_preferences_from_rating recipes table uid rid rating now)
       uid' ptype pvalue
     == stored_score table uid' ptype pvalue
        + (if rated_under recipe uid uid' ptype pvalue
           then calculate_score_delta rating else 0))%Q.
Proof.
  intros Hfind uid' ptype pvalue.
  rewrite (rating_is_four_updates _ _ _ _ _ _ _ Hfind).
  rewrite !stored_score_update, cooking_time_value.
  generalize (calculate_score_delta rating). intros d.
  generalize (stored_score table uid' ptype pvalue). intros s.
  unfold rated_under, attribute_value.
  rewrite (String.eqb_sym "cuisine_type"), (String.eqb_sym "dish_type"),
    (String.eqb_sym "difficulty"), (String.eqb_sym "cooking_time").
  destruct (uid' =? uid)%Z; cbn [andb];
    [| rewrite !andb_false_r; cbn [andb]; ring].
  rewrite !andb_true_r.
  destruct (String.eqb_spec ptype "cuisine_type") as [-> | N1]; eval_closed_eqb.
  { rewrite !andb_false_r. cbn [andb].
    destruct (cuisine_type recipe) as [[|c r]|]; cbn [Py.truthy_str andb from_option id];
      try ring; destruct (String.eqb _ pvalue); ring. }
  destruct (String.eqb_spec ptype "dish_type") as [-> | N2]; eval_closed_eqb.
  { rewrite !andb_false_r. cbn [andb].
    destruct (dish_type recipe) as [[|c r]|]; cbn [Py.truthy_str andb from_option id];
      try ring; destruct (String.eqb _ pvalue); ring. }
  destruct (String.eqb_spec ptype "difficulty") as [-> | N3]; eval_closed_eqb.
  { rewrite !andb_false_r. cbn [andb].
    destruct (difficulty recipe) as [[|c r]|]; cbn [Py.truthy_str andb from_option id];
      try ring; destruct (String.eqb _ pvalue); ring. }
  destruct (String.eqb_spec ptype "cooking_time") as [-> | N4]; eval_closed_eqb.
  { rewrite !andb_false_r. cbn [andb].
    destruct (Py.truthy_int (ready_in_minutes recipe)); cbn [andb from_option id];
      try ring; destruct (String.eqb _ pvalue); ring. }
  rewrite !andb_false_r. cbn [andb]. ring.
Qed.

(** X7. Rating a recipe adds the delta of the rating to the stored score
    of each attribute the recipe has a value for (cuisine, dish type,
    difficulty, cooking-time bucket), for the rating user only, and leaves
    every other stored score as it was; a recipe id that is not in the
    table changes nothing. *)
Theorem rating_moves_the_rated_scores (recipes : list Recipe) (table : list UserPreference) (uid rid rating now : Z) :
  (find (fun r => (recipe_id r =? rid)%Z) recipes = None ->
   update_preferences_from_rating recipes table uid rid rating now = table) /\
  (forall recipe,
     find (fun r => (recipe_id r =? rid)%Z) recipes = Some recipe ->
     forall uid' ptype pvalue,
       (stored_score (update_preferences_from_rating recipes table uid rid rating now)
          uid' ptype pvalue
        == stored_score table uid' ptype pvalue
           + (if rated_under recipe uid uid' ptype pvalue
              then calculate_score_delta rating else 0))%Q).
Proof.
  split.
  - intros H. unfold update_preferences_from_rating. now rewrite H.
  - intros recipe Hfind. now apply stored_score_after_rating.
Qed.

Lemma delta_of_opposite (rating : Z) :
  (calculate_score_delta rating + calculate_score_delta (6 - rating) == 0)%Q.
Proof.
  unfold calculate_score_delta. rewrite !Qmult_1_r, <- inject_Z_plus.
  now replace (rating - 3 + (6 - rating - 3))%Z with 0%Z by lia.
Qed.

(** X8. A rating of 3 changes no stored score, and a rating followed by
    its mirror image [6 - rating] for the same recipe brings every stored
    score back to what it was. *)
Theorem neutral_and_opposite_ratings (recipes : list Recipe) (table : list UserPreference) (uid rid rating now now' : Z) (uid' : Z) (ptype pvalue : string) :
  (stored_score (update_preferences_from_rating recipes table uid rid 3 now) uid' ptype pvalue
   == stored_score table uid' ptype pvalue)%Q /\
  (stored_score
     (update_preferences_from_rating recipes
        (update_preferences_from_rating recipes table uid rid rating now)
        uid rid (6 - rating) now')
     uid' ptype pvalue
   == stored_score table uid' ptype pvalue)%Q.
Proof.
  destruct (find (fun r => (recipe_id r =? rid)%Z) recipes) as [recipe|] eqn:Hfind.
  - rewrite !(stored_score_after_rating _ _ _ _ _ _ _ Hfind). split.
    + destruct (rated_under _ _ _ _ _); [| ring].
      assert (H : (calculate_score_delta 3 == 0)%Q) by reflexivity.
      rewrite H. ring.
    + destruct (rated_under _ _ _ _ _); [| ring].
      rewrite <- Qplus_assoc, delta_of_opposite. ring.
  - unfold update_preferences_from_rating. rewrite Hfind. split; reflexivity.
Qed.

(** ** From the learner to the scorer *)

Lemma nodup_map_inj {A B : Type} (f : A -> B) (l : list A) (a b : A) :
  List.NoDup (map f l) -> In a l -> In b l -> f a = f b -> a = b.
Proof.
  induction l as [|x l IH]; [intros _ [] |]. cbn [map]. intros Hnd Ha Hb Hf.
  inversion Hnd as [|? ? Hx Hl]; subst.
  destruct Ha as [-> | Ha], Hb as [-> | Hb]; [reflexivity | | | now apply IH].
  - exfalso. apply Hx. rewrite Hf. now apply in_map.
  - exfalso. apply Hx. rewrite <- Hf. now apply in_map.
Qed.

Lemma lookup_rows_absent (rows : list UserPreference) (acc : gmap (string * string) Q) (key : string * string) :
  (forall pref, In pref rows -> (preference_type pref, preference_value pref) <> key) ->
  fold_left
    (fun lookup pref => <[ (preference_type pref, preference_value pref) := score pref ]> lookup)
    rows acc !! key = acc !! key.
Proof.
  revert acc. induction rows as [|pref rows IH]; intros acc H; [reflexivity |].
  cbn [fold_left]. rewrite IH by (intros q Hq; apply H; now right).
  apply lookup_insert_ne, H. now left.
Qed.

Lemma lookup_rows_present (rows : list UserPreference) (acc : gmap (string * string) Q) (key : string * string) (s : Q) :
  (forall pref, In pref rows -> (preference_type pref, preference_value pref) = key -> score pref = s) ->
  (exists pref, In pref rows /\ (preference_type pref, preference_value pref) = key) \/
  acc !! key = Some s ->
  fold_left
    (fun lookup pref => <[ (preference_type pref, preference_value pref) := score pref ]> lookup)
    rows acc !! key = Some s.
Proof.
  revert acc. induction rows as [|pref rows IH]; intros acc Hs Hex.
  - destruct Hex as [[q [[] _]] | Hacc]. exact Hacc.
  - cbn [fold_left]. apply IH; [intros q Hq; apply Hs; now right |].
    destruct (decide ((preference_type pref, preference_value pref) = key)) as [Hk | Hk].
    + right. rewrite Hk, lookup_insert_eq. f_equal. apply Hs; [now left | exact Hk].
    + destruct Hex as [[q [[-> | Hq] Hkq]] | Hacc].
      * contradiction.
      * left. now exists q.
      * right. now rewrite lookup_insert_ne.
Qed.

(** Under the unique constraint the dict of the scorer holds, for each
    key, the score of the row the learner's query finds. *)
Lemma lookup_is_stored (table : list UserPreference) (uid : Z) (ptype pvalue : string) :
  List.NoDup (map pref_key table) ->
  get_score (pref_lookup (preferences_of uid table)) (ptype, pvalue)
  = stored_score table uid ptype pvalue.
Proof.
  intros Hnd. unfold get_score, pref_lookup, stored_score, stored.
  destruct (find (same_preference uid ptype pvalue) table) as [pref|] eqn:E.
  - apply find_some in E. destruct E as [Hin Hsame].
    apply same_preference_true in Hsame. destruct Hsame as [Hu [Ht Hv]].
    rewrite (lookup_rows_present _ _ _ (score pref)); [reflexivity | |].
    + intros q Hq Hk. apply filter_In in Hq. destruct Hq as [Hq Hqu].
      apply Z.eqb_eq in Hqu. injection Hk as Hk1 Hk2. f_equal.
      apply (nodup_map_inj pref_key table); try assumption.
      unfold pref_key. congruence.
    + left. exists pref. split; [| congruence].
      apply filter_In. split; [assumption |]. now apply Z.eqb_eq.
  - rewrite lookup_rows_absent; [reflexivity |].
    intros q Hq Hk. apply filter_In in Hq. destruct Hq as [Hq Hqu].
    apply Z.eqb_eq in Hqu. injection Hk as Hk1 Hk2.
    apply (find_none _ _ E) in Hq. unfold same_preference in Hq.
    now rewrite Hqu, Hk1, Hk2, Z.eqb_refl, !String.eqb_refl in Hq.
Qed.

Lemma rating_keeps_nodup (recipes : list Recipe) (table : list UserPreference) (uid rid rating now : Z) :
  List.NoDup (map pref_key table) ->
  List.NoDup (map pref_key (update_preferences_from_rating recipes table uid rid rating now)).
Proof.
  intros Hnd. destruct (find (fun r => (recipe_id r =? rid)%Z) recipes) as [recipe|] eqn:Hfind.
  - rewrite (rating_is_four_updates _ _ _ _ _ _ _ Hfind). now repeat apply update_keeps_nodup.
  - unfold update_preferences_from_rating. now rewrite Hfind.
Qed.

Lemma score_by_attribute (recipe : Recipe) (user_preferences : list UserPreference) :
  let lookup := pref_lookup user_preferences in
  (score_recipe_for_user recipe user_preferences
   == attribute_score lookup recipe "cuisine_type" +
      attribute_score lookup recipe "dish_type" +
      attribute_score lookup recipe "difficulty" +
      attribute_score lookup recipe "cooking_time")%Q.
Proof.
  cbv zeta. unfold score_recipe_for_user, attribute_score, attribute_value.
  eval_closed_eqb. cbn match. cbv zeta.
  generalize (pref_lookup user_preferences). intros lookup.
  destruct (cuisine_type recipe) as [[|c1 r1]|]; destruct (dish_type recipe) as [[|c2 r2]|];
    destruct (difficulty recipe) as [[|c3 r3]|];
    destruct (Py.truthy_int (ready_in_minutes recipe));
    cbn [Py.truthy_str from_option id]; ring.
Qed.

Lemma attribute_score_after_rating (recipes : list Recipe) (table : list UserPreference) (uid uid' rid rating now : Z) (recipe other : Recipe) (ptype : string) :
  List.NoDup (map pref_key table) ->
  find (fun r => (recipe_id r =? rid)%Z) recipes = Some recipe ->
  (attribute_score
     (pref_lookup (preferences_of uid'
        (update_preferences_from_rating recipes table uid rid rating now))) other ptype
   == attribute_score (pref_lookup (preferences_of uid' table)) other ptype
      + (if (uid' =? uid)%Z && shares recipe other ptype
         then calculate_score_delta rating else 0))%Q.
Proof.
  intros Hnd Hfind. unfold attribute_score, shares.
  destruct (attribute_value other ptype) as [value|]; [| rewrite andb_false_r; ring].
  rewrite !lookup_is_stored by (try apply rating_keeps_nodup; assumption).
  rewrite (stored_score_after_rating _ _ _ _ _ _ _ Hfind). unfold rated_under.
  destruct (attribute_value recipe ptype); reflexivity.
Qed.

Lemma attribute_value_nonempty (recipe : Recipe) (ptype value : string) :
  attribute_value recipe ptype = Some value -> Py.truthy_str (Some value) = true.
Proof.
  unfold attribute_value.
  destruct (String.eqb ptype "cuisine_type").
  { destruct (Py.truthy_str (cuisine_type recipe)) eqn:H; [| discriminate].
    intros E. now rewrite E in H. }
  destruct (String.eqb ptype "dish_type").
  { destruct (Py.truthy_str (dish_type recipe)) eqn:H; [| discriminate].
    intros E. now rewrite E in H. }
  destruct (String.eqb ptype "difficulty").
  { destruct (Py.truthy_str (difficulty recipe)) eqn:H; [| discriminate].
    intros E. now rewrite E in H. }
  destruct (String.eqb ptype "cooking_time"); [| discriminate].
  destruct (Py.truthy_int (ready_in_minutes recipe)); [| discriminate].
  intros [= <-]. unfold time_bucket.
  destruct (_ <? 30)%Z; [reflexivity |]. now destruct (_ <=? 60)%Z.
Qed.

Lemma shares_refl (recipe : Recipe) (ptype : string) :
  shares recipe recipe ptype = Py.truthy_str (attribute_value recipe ptype).
Proof.
  unfold shares. destruct (attribute_value recipe ptype) as [value|] eqn:E; [| reflexivity].
  rewrite String.eqb_refl. symmetry. exact (attribute_value_nonempty _ _ _ E).
Qed.

Lemma present_is_shared (recipe : Recipe) :
  shared_attributes recipe recipe = present_attributes recipe.
Proof.
  unfold shared_attributes, present_attributes. rewrite !shares_refl, cooking_time_value.
  unfold attribute_value. eval_closed_eqb. cbn match.
  destruct (cuisine_type recipe) as [[|c1 r1]|]; destruct (dish_type recipe) as [[|c2 r2]|];
    destruct (difficulty recipe) as [[|c3 r3]|]; reflexivity.
Qed.

(** X9. The learner feeds the scorer.  On a table that respects its unique
    constraint, rating a recipe moves the score of every recipe, for the
    rating user, by the delta of the rating times the number of attribute
    values it shares with the rated recipe (for the rated recipe itself:
    the number of attributes it has), and moves no score of another
    user. *)
Theorem rating_shifts_scores_by_shared_attributes (recipes : list Recipe) (table : list UserPreference) (uid uid' rid rating now : Z) (recipe other : Recipe) :
  List.NoDup (map pref_key table) ->
  find (fun r => (recipe_id r =? rid)%Z) recipes = Some recipe ->
  let table' := update_preferences_from_rating recipes table uid rid rating now in
  (score_recipe_for_user other (preferences_of uid' table')
   == score_recipe_for_user other (preferences_of uid' table)
      + (if (uid' =? uid)%Z
         then inject_Z (shared_attributes recipe other) * calculate_score_delta rating
         else 0))%Q /\
  shared_attributes recipe recipe = present_attributes recipe /\
  List.NoDup (map pref_key table').
Proof.
  intros Hnd Hfind. cbv zeta. split; [| split; [apply present_is_shared | now apply rating_keeps_nodup]].
  rewrite !score_by_attribute. cbv zeta.
  rewrite !(attribute_score_after_rating _ _ _ _ _ _ _ _ _ _ Hnd Hfind).
  unfold shared_attributes. rewrite !inject_Z_plus.
  generalize (calculate_score_delta rating). intros d.
  destruct (uid' =? uid)%Z; cbn [andb]; [| ring].
  destruct (shares recipe other "cuisine_type"), (shares recipe other "dish_type"),
    (shares recipe other "difficulty"), (shares recipe other "cooking_time");
    change (inject_Z 1) with 1%Q; change (inject_Z 0) with 0%Q; ring.
Qed.

(** ** The planner in all its branches *)

Lemma insert_desc_perm {A : Type} (key : A -> Q) (x : A) (l : list A) :
  Permutation (insert_desc key x l) (x :: l).
Proof.
  induction l as [|y l IH]; cbn [insert_desc]; [reflexivity |].
  destruct (Qgtb (key y) (key x)); [| reflexivity].
  rewrite IH. apply perm_swap.
Qed.

Lemma sorted_desc_perm {A : Type} (key : A -> Q) (l : list A) :
  Permutation (sorted_desc key l) l.
Proof.
  induction l as [|x l IH]; [reflexivity |].
  change (sorted_desc key (x :: l)) with (insert_desc key x (sorted_desc key l)).
  rewrite insert_desc_perm. now constructor.
Qed.

Lemma insert_desc_descending {A : Type} (key : A -> Q) (x : A) (l : list A) :
  descending key l -> descending key (insert_desc key x l).
Proof.
  induction l as [|y l IH]; cbn [insert_desc descending].
  - intros _. split; [constructor | exact I].
  - intros [Hy Hl]. destruct (Qgtb (key y) (key x)) eqn:E.
    + apply Qgtb_true in E. cbn [descending]. split; [| now apply IH].
      apply Forall_forall. intros z Hz. apply list_elem_of_In in Hz.
      apply (Permutation_in _ (insert_desc_perm key x l)) in Hz.
      destruct Hz as [<- | Hz]; [now apply Qlt_le_weak |].
      rewrite Forall_forall in Hy. apply Hy. now apply list_elem_of_In.
    + apply Qgtb_false in E. cbn [descending]. split; [| now split].
      constructor; [assumption |].
      eapply Forall_impl; [exact Hy |]. intros z Hz. cbn beta in *.
      now apply Qle_trans with (key y).
Qed.

Lemma sorted_desc_descending {A : Type} (key : A -> Q) (l : list A) :
  descending key (sorted_desc key l).
Proof.
  induction l as [|x l IH]; [exact I |].
  change (sorted_desc key (x :: l)) with (insert_desc key x (sorted_desc key l)).
  now apply insert_desc_descending.
Qed.

Lemma descending_split {A : Type} (key : A -> Q) (front back : list A) (a b : A) :
  descending key (front ++ back) -> In a front -> In b back -> (key b <= key a)%Q.
Proof.
  induction front as [|x front IH]; [intros _ [] |]. cbn [app descending].
  intros [Hx Hrest] [<- | Ha] Hb.
  - rewrite Forall_forall in Hx. apply Hx. apply list_elem_of_In, in_or_app. now right.
  - now apply IH.
Qed.

Lemma insert_desc_ext {A : Type} (key key' : A -> Q) (x : A) (l : list A) :
  key x = key' x -> (forall y, In y l -> key y = key' y) ->
  insert_desc key x l = insert_desc key' x l.
Proof.
  intros Hx. induction l as [|y l IH]; intros H; cbn [insert_desc]; [reflexivity |].
  rewrite Hx, (H y) by now left. rewrite IH by (intros z Hz; apply H; now right).
  reflexivity.
Qed.

Lemma sorted_desc_ext {A : Type} (key key' : A -> Q) (l : list A) :
  (forall x, In x l -> key x = key' x) -> sorted_desc key l = sorted_desc key' l.
Proof.
  induction l as [|x l IH]; intros H; [reflexivity |].
  change (sorted_desc key (x :: l)) with (insert_desc key x (sorted_desc key l)).
  change (sorted_desc key' (x :: l)) with (insert_desc key' x (sorted_desc key' l)).
  rewrite IH by (intros y Hy; apply H; now right).
  apply insert_desc_ext; [apply H; now left |].
  intros y Hy. apply H. right. exact (Permutation_in _ (sorted_desc_perm key' l) Hy).
Qed.

Lemma firstn_min_length {A : Type} (m : nat) (l : list A) :
  firstn (Nat.min m (length l)) l = firstn m l.
Proof.
  destruct (Nat.le_ge_cases m (length l)) as [H | H].
  - now rewrite Nat.min_l.
  - rewrite Nat.min_r by assumption. now rewrite !firstn_all2 by lia.
Qed.

Lemma combinations_length {A : Type} (pool : list A) (r : nat) (combo : list A) :
  In combo (combinations pool r) -> length combo = r.
Proof.
  revert r combo. induction pool as [|x pool IH]; intros [|r] combo; cbn [combinations In].
  - now intros [<- | []].
  - intros [].
  - now intros [<- | []].
  - rewrite in_app_iff, in_map_iff. intros [[c [<- Hc]] | Hc].
    + cbn [length]. f_equal. now apply IH.
    + now apply IH.
Qed.

Lemma combinations_sublist {A : Type} (pool : list A) (r : nat) (combo : list A) :
  In combo (combinations pool r) -> sublist combo pool.
Proof.
  revert r combo. induction pool as [|x pool IH]; intros [|r] combo; cbn [combinations In].
  - intros [<- | []]. constructor.
  - intros [].
  - intros [<- | []]. apply sublist_nil_l.
  - rewrite in_app_iff, in_map_iff. intros [[c [<- Hc]] | Hc].
    + apply sublist_skip. now apply (IH r).
    + apply sublist_cons. now apply (IH (S r)).
Qed.

Lemma binomial_zero (n r : nat) : (n < r)%nat -> binomial n r = 0%nat.
Proof.
  revert r. induction n as [|n IH]; intros [|r] H; cbn [binomial]; try lia.
  rewrite !IH by lia. reflexivity.
Qed.

Lemma scores_of_combo_lookup (recipe_scores : gmap Z Q) (combo : list Recipe) (rid : Z) :
  scores_of_combo recipe_scores combo !! rid
  = if in_dec Z.eq_dec rid (map recipe_id combo) then Some (score_of recipe_scores rid) else None.
Proof.
  unfold scores_of_combo.
  assert (G : forall init : gmap Z Q,
             fold_left
               (fun d recipe => <[ recipe_id recipe := score_of recipe_scores (recipe_id recipe) ]> d)
               combo init !! rid
             = if in_dec Z.eq_dec rid (map recipe_id combo)
               then Some (score_of recipe_scores rid) else init !! rid).
  { induction combo as [|x combo IH]; intros init; cbn [fold_left map]; [reflexivity |].
    rewrite IH. destruct (in_dec Z.eq_dec rid (map recipe_id combo)) as [Hin | Hin].
    - destruct (in_dec Z.eq_dec rid (recipe_id x :: map recipe_id combo)) as [_ | N];
        [reflexivity | exfalso; apply N; now right].
    - destruct (in_dec Z.eq_dec rid (recipe_id x :: map recipe_id combo)) as [[E | H] | N].
      + rewrite <- E. apply lookup_insert_eq.
      + contradiction.
      + apply lookup_insert_ne. intros E. apply N. now left. }
  rewrite G. now destruct (in_dec Z.eq_dec rid (map recipe_id combo)).
Qed.

Ltac name_loop_result :=
  unfold loop_result;
  match goal with
  | |- context [fold_left (keep_best ?v ?p) ?cs None] =>
      set (res := fold_left (keep_best v p) cs None);
      change (fold_left (fun s x => keep_best v p s x) cs None) with res
  end.

Section PlannerBranches.

Variable json_loads : string -> option (list Ingredient).

(** The loop ends with nothing exactly when there was no combination, and
    else with the first combination of highest value. *)
Lemma loop_result_first_max (user : User) (num_recipes : Z) (recipe_scores : gmap Z Q) (combos : list (list Recipe)) :
  first_max (loop_value json_loads user num_recipes recipe_scores)
    (loop_stats json_loads user num_recipes recipe_scores) combos
    (loop_result json_loads user num_recipes recipe_scores combos).
Proof.
  exact (fold_keep_best_first_max _ _ combos [] None (first_max_none _ _)).
Qed.

(** A run that passes the size check with [num_recipes >= 1] returns what
    the loop, or the fallback, has chosen. *)
Lemma run_result (user : User) (user_prefs : list UserPreference) (pool : list Recipe) (k : Z) :
  (1 <= k <= Z.of_nat (length pool))%Z ->
  snd (get_weekly_recommendations json_loads (Some user) user_prefs pool k)
  = inr (fst (chosen json_loads user k (cache_scores user_prefs pool ∅) pool),
         final_stats json_loads user
           (fst (chosen json_loads user k (cache_scores user_prefs pool ∅) pool))
           (snd (chosen json_loads user k (cache_scores user_prefs pool ∅) pool))).
Proof.
  intros Hk. unfold get_weekly_recommendations.
  assert (E1 : (Z.of_nat (length pool) <? k)%Z = false) by (apply Z.ltb_ge; lia).
  assert (E2 : (k <? 0)%Z = false) by (apply Z.ltb_ge; lia).
  assert (E0 : (k =? 0)%Z = false) by (apply Z.eqb_neq; lia).
  rewrite E1.
  erewrite snd_bind_inr by reflexivity.
  erewrite snd_bind_inr
    by (apply (for_each_pure _ _ (fun recipe => [ Scored (recipe_id recipe) ])); reflexivity).
  fold (cache_scores user_prefs pool ∅). set (recipe_scores := cache_scores user_prefs pool ∅).
  rewrite E2.
  erewrite snd_bind_inr by reflexivity.
  cbv zeta. rewrite length_combinations, length_seq.
  unfold chosen, candidates. cbv zeta. rewrite firstn_min_length.
  fold (by_cached_score recipe_scores pool).
  destruct (10000 <? Z.of_nat (binomial (length pool) (Z.to_nat k)))%Z.
  - erewrite snd_bind_inr by reflexivity.
    erewrite snd_bind_inr
      by (apply for_each_pure; intros s x; apply evaluate_keep_best; lia).
    name_loop_result. destruct res as [[[c v] s]|].
    + erewrite snd_bind_inr by reflexivity. reflexivity.
    + unfold fallback, divide. rewrite E0. reflexivity.
  - erewrite snd_bind_inr by reflexivity.
    erewrite snd_bind_inr
      by (apply for_each_pure; intros s x; apply evaluate_keep_best; lia).
    name_loop_result. destruct res as [[[c v] s]|].
    + erewrite snd_bind_inr by reflexivity. reflexivity.
    + unfold fallback, divide. rewrite E0. reflexivity.
Qed.

End PlannerBranches.

Lemma insert_str_perm (x : string) (l : list string) :
  Permutation (insert_str x l) (x :: l).
Proof.
  induction l as [|y l IH]; cbn [insert_str]; [reflexivity |].
  destruct (String.ltb y x); [| reflexivity].
  rewrite IH. apply perm_swap.
Qed.

Lemma sorted_strings_perm (l : list string) : Permutation (sorted_strings l) l.
Proof.
  induction l as [|x l IH]; [reflexivity |].
  change (sorted_strings (x :: l)) with (insert_str x (sorted_strings l)).
  rewrite insert_str_perm. now constructor.
Qed.

Lemma ltb_antisym (x y : string) : String.ltb y x = true -> String.ltb x y = false.
Proof.
  unfold String.ltb. rewrite (String.compare_antisym y x).
  destruct (String.compare x y); cbn [CompOpp]; congruence.
Qed.

Lemma insert_str_ascending (x : string) (l : list string) :
  ascending l -> ascending (insert_str x l).
Proof.
  induction l as [|y l IH]; [intros _; exact I |].
  intros H. cbn [insert_str]. destruct (String.ltb y x) eqn:E.
  - destruct l as [|z l].
    + cbn [insert_str ascending]. split; [now apply ltb_antisym | exact I].
    + destruct H as [Hzy H]. specialize (IH H). cbn [insert_str] in *.
      destruct (String.ltb z x) eqn:E'.
      * split; assumption.
      * split; [now apply ltb_antisym | assumption].
  - split; assumption.
Qed.

Lemma sorted_strings_ascending (l : list string) : ascending (sorted_strings l).
Proof.
  induction l as [|x l IH]; [exact I |].
  change (sorted_strings (x :: l)) with (insert_str x (sorted_strings l)).
  now apply insert_str_ascending.
Qed.

Lemma round_half_even_comp (q q' : Q) : (q == q')%Q -> round_half_even q = round_half_even q'.
Proof.
  intros H. unfold round_half_even. cbv zeta. rewrite (Qfloor_comp _ _ H).
  assert (E : (q - inject_Z (Qfloor q') ?= 1 # 2)%Q = (q' - inject_Z (Qfloor q') ?= 1 # 2)%Q)
    by now rewrite H.
  now rewrite E.
Qed.

Lemma py_round_comp (q q' : Q) (ndigits : nat) : (q == q')%Q -> py_round q ndigits = py_round q' ndigits.
Proof.
  intros H. unfold py_round. cbv zeta.
  rewrite (round_half_even_comp (q * _) (q' * inject_Z (10 ^ Z.of_nat ndigits))); [reflexivity |].
  now rewrite H.
Qed.

Lemma combinations_zero {A : Type} (pool : list A) : combinations pool 0 = [ [] ].
Proof. now destruct pool. Qed.

Section PlannerTheorems.

Variable json_loads : string -> option (list Ingredient).

Lemma chosen_cases (user : User) (k : Z) (recipe_scores : gmap Z Q) (pool : list Recipe) :
  let r := Z.to_nat k in
  let value := loop_value json_loads user k recipe_scores in
  (exists before c after,
      combinations (candidates recipe_scores pool r) r = before ++ c :: after /\
      chosen json_loads user k recipe_scores pool
      = (c, loop_stats json_loads user k recipe_scores c) /\
      Forall (fun x => (value x < value c)%Q) before /\
      Forall (fun x => (value x <= value c)%Q) after) \/
  (combinations (candidates recipe_scores pool r) r = [] /\
   chosen json_loads user k recipe_scores pool
   = (firstn r (by_cached_score recipe_scores pool),
      fallback_stats json_loads k recipe_scores (firstn r (by_cached_score recipe_scores pool)))).
Proof.
  cbv zeta. unfold chosen. cbv zeta.
  pose proof (loop_result_first_max json_loads user k recipe_scores
                (combinations (candidates recipe_scores pool (Z.to_nat k)) (Z.to_nat k))) as H.
  remember (combinations (candidates recipe_scores pool (Z.to_nat k)) (Z.to_nat k)) as cs eqn:Hcs.
  remember (loop_result json_loads user k recipe_scores cs) as res eqn:Hres.
  clear Hcs Hres. destruct H as [| before c after Hb Ha].
  - right. split; reflexivity.
  - left. exists before, c, after. repeat split; assumption.
Qed.

Lemma candidates_submseteq (recipe_scores : gmap Z Q) (pool : list Recipe) (r : nat) :
  candidates recipe_scores pool r ⊆+ pool.
Proof.
  unfold candidates. destruct (10000 <? _)%Z; [| reflexivity].
  transitivity (by_cached_score recipe_scores pool).
  - apply sublist_submseteq, sublist_take.
  - apply Permutation_submseteq, sorted_desc_perm.
Qed.

Lemma length_by_cached_score (recipe_scores : gmap Z Q) (pool : list Recipe) :
  length (by_cached_score recipe_scores pool) = length pool.
Proof. apply Permutation_length, sorted_desc_perm. Qed.

Lemma chosen_valid (user : User) (k : Z) (recipe_scores : gmap Z Q) (pool : list Recipe) :
  (1 <= k <= Z.of_nat (length pool))%Z ->
  length (fst (chosen json_loads user k recipe_scores pool)) = Z.to_nat k /\
  fst (chosen json_loads user k recipe_scores pool) ⊆+ pool.
Proof.
  intros Hk.
  destruct (chosen_cases user k recipe_scores pool)
    as [[before [c [after [Hcs [-> _]]]]] | [_ ->]]; cbn [fst].
  - assert (Hin : In c (combinations (candidates recipe_scores pool (Z.to_nat k)) (Z.to_nat k)))
      by (rewrite Hcs; apply in_elt).
    split; [exact (combinations_length _ _ _ Hin) |].
    transitivity (candidates recipe_scores pool (Z.to_nat k)).
    + apply sublist_submseteq. exact (combinations_sublist _ _ _ Hin).
    + apply candidates_submseteq.
  - split.
    + rewrite length_firstn, length_by_cached_score. lia.
    + transitivity (by_cached_score recipe_scores pool).
      * apply sublist_submseteq, sublist_take.
      * apply Permutation_submseteq, sorted_desc_perm.
Qed.

Lemma chosen_stats (user : User) (k : Z) (recipe_scores : gmap Z Q) (pool : list Recipe) :
  let best := fst (chosen json_loads user k recipe_scores pool) in
  let best_stats := snd (chosen json_loads user k recipe_scores pool) in
  ingredient_count best_stats
  = count_ingredients_for_recipes json_loads (map recipe_to_dict best) /\
  individual_scores best_stats = scores_of_combo recipe_scores best /\
  avg_preference_score best_stats
  = py_round (sum_scores recipe_scores best / inject_Z k) 2.
Proof.
  cbv zeta.
  destruct (chosen_cases user k recipe_scores pool)
    as [[before [c [after [_ [-> _]]]]] | [_ ->]]; cbn [fst snd];
    repeat split; reflexivity.
Qed.

Lemma cached_scores (user_prefs : list UserPreference) (pool best : list Recipe) (recipe : Recipe) :
  List.NoDup (map recipe_id pool) -> best ⊆+ pool -> In recipe best ->
  score_of (cache_scores user_prefs pool ∅) (recipe_id recipe)
  = score_recipe_for_user recipe user_prefs.
Proof.
  intros Hnd Hsub Hin. unfold score_of. rewrite cache_scores_member; [reflexivity | assumption |].
  apply list_elem_of_In. eapply elem_of_submseteq; [| exact Hsub]. now apply list_elem_of_In.
Qed.

Lemma cached_average (user_prefs : list UserPreference) (pool best : list Recipe) (k : Z) :
  List.NoDup (map recipe_id pool) -> best ⊆+ pool ->
  (sum_scores (cache_scores user_prefs pool ∅) best / inject_Z k
   == avg_pref user_prefs k best)%Q.
Proof.
  intros Hnd Hsub. unfold avg_pref, sum_scores.
  rewrite (sum_scores_acc _ user_prefs)
    by (intros recipe Hr; now apply (cached_scores user_prefs pool best)).
  unfold Qdiv. ring.
Qed.

Lemma run_negative (user : User) (user_prefs : list UserPreference) (pool : list Recipe) (k : Z) :
  (k < 0)%Z ->
  snd (get_weekly_recommendations json_loads (Some user) user_prefs pool k)
  = inl ValueError_r_must_be_non_negative.
Proof.
  intros Hk. unfold get_weekly_recommendations.
  assert (E1 : (Z.of_nat (length pool) <? k)%Z = false) by (apply Z.ltb_ge; lia).
  assert (E2 : (k <? 0)%Z = true) by (apply Z.ltb_lt; lia).
  rewrite E1.
  erewrite snd_bind_inr by reflexivity.
  erewrite snd_bind_inr
    by (apply (for_each_pure _ _ (fun recipe => [ Scored (recipe_id recipe) ])); reflexivity).
  rewrite E2. reflexivity.
Qed.

Lemma run_zero (user : User) (user_prefs : list UserPreference) (pool : list Recipe) :
  snd (get_weekly_recommendations json_loads (Some user) user_prefs pool 0)
  = inl ZeroDivisionError.
Proof.
  unfold get_weekly_recommendations.
  assert (E1 : (Z.of_nat (length pool) <? 0)%Z = false) by (apply Z.ltb_ge; lia).
  rewrite E1.
  erewrite snd_bind_inr by reflexivity.
  erewrite snd_bind_inr
    by (apply (for_each_pure _ _ (fun recipe => [ Scored (recipe_id recipe) ])); reflexivity).
  generalize (fold_left
                (fun (s : gmap Z Q) (x : Recipe) =>
                   <[ recipe_id x := score_recipe_for_user x user_prefs ]> s) pool ∅).
  intros recipe_scores. cbn [Z.ltb Z.compare Z.to_nat]. cbv beta iota.
  erewrite snd_bind_inr by reflexivity. cbv zeta.
  change (Z.to_nat 0) with 0%nat. rewrite combinations_zero. cbn [length].
  change (10000 <? Z.of_nat 1)%Z with false. cbv beta iota.
  erewrite snd_bind_inr by reflexivity.
  rewrite combinations_zero. reflexivity.
Qed.

(** A plan that is returned has [num_recipes] recipes, all from the
    pool. *)
Lemma returned_plan (user : option User) (user_prefs : list UserPreference) (pool : list Recipe) (k : Z) (best : list Recipe) (stats : Stats) :
  snd (get_weekly_recommendations json_loads user user_prefs pool k) = inr (best, stats) ->
  length best = Z.to_nat k /\ best ⊆+ pool.
Proof.
  destruct user as [user|]; [| discriminate].
  destruct (Z.ltb_spec (Z.of_nat (length pool)) k) as [H1 | H1].
  { unfold get_weekly_recommendations. apply Z.ltb_lt in H1. rewrite H1. discriminate. }
  destruct (Z.ltb_spec k 0) as [H2 | H2].
  { now rewrite run_negative. }
  destruct (Z.eqb_spec k 0) as [-> | H0].
  { now rewrite run_zero. }
  assert (Hk : (1 <= k <= Z.of_nat (length pool))%Z) by lia.
  rewrite (run_result json_loads user user_prefs pool k Hk). intros [= <- _].
  now apply chosen_valid.
Qed.

(** X10. The outcomes of a planner run.  Without a user row it raises
    at once; with fewer recipes than asked for it raises at once; a
    negative [num_recipes] makes [combinations] raise; [num_recipes = 0]
    always ends in a division by zero; every other run, whatever the branch
    it takes, returns exactly [num_recipes] recipes, each taken from the
    pool and none taken more often than the pool holds it. *)
Theorem planner_outcomes (user : option User) (user_prefs : list UserPreference) (pool : list Recipe) (k : Z) :
  let run := get_weekly_recommendations json_loads user user_prefs pool k in
  match user with
  | None => run = ([], inl ValueError_user_not_found)
  | Some _ =>
      if (Z.of_nat (length pool) <? k)%Z
      then run = ([], inl (ValueError_not_enough_recipes k (length pool)))
      else if (k <? 0)%Z then snd run = inl ValueError_r_must_be_non_negative
      else if (k =? 0)%Z then snd run = inl ZeroDivisionError
      else exists best stats,
          snd run = inr (best, stats) /\ length best = Z.to_nat k /\ best ⊆+ pool
  end.
Proof.
  cbv zeta. destruct user as [user|]; [| reflexivity].
  destruct (Z.of_nat (length pool) <? k)%Z eqn:E1.
  { unfold get_weekly_recommendations. now rewrite E1. }
  destruct (k <? 0)%Z eqn:E2.
  { apply run_negative. now apply Z.ltb_lt. }
  destruct (k =? 0)%Z eqn:E0.
  { apply Z.eqb_eq in E0. subst k. apply run_zero. }
  apply Z.ltb_ge in E1, E2. apply Z.eqb_neq in E0.
  assert (Hk : (1 <= k <= Z.of_nat (length pool))%Z) by lia.
  eexists _, _. split; [apply run_result; exact Hk |].
  now apply chosen_valid.
Qed.


End PlannerTheorems.

Section GreedyBranch.

Variable json_loads : string -> option (list Ingredient).

Lemma by_cached_score_ranked (user_prefs : list UserPreference) (pool : list Recipe) :
  List.NoDup (map recipe_id pool) ->
  by_cached_score (cache_scores user_prefs pool ∅) pool
  = sorted_desc (fun recipe => score_recipe_for_user recipe user_prefs) pool.
Proof.
  intros Hnd. unfold by_cached_score. apply sorted_desc_ext.
  intros recipe Hin. now apply (cached_scores user_prefs pool pool).
Qed.

Lemma combined_of_cached (user : User) (user_prefs : list UserPreference) (pool combo : list Recipe) (k : Z) :
  List.NoDup (map recipe_id pool) -> combo ⊆+ pool ->
  (loop_value json_loads user k (cache_scores user_prefs pool ∅) combo
   == combined json_loads (max_ingredients_per_week user) user_prefs k combo)%Q.
Proof.
  intros Hnd Hsub. apply loop_value_combined.
  intros recipe Hin. now apply (cached_scores user_prefs pool combo).
Qed.


End GreedyBranch.

(** ** The pool of the planner *)

Lemma id_not_in_spec (exclude_ids : list Z) (recipe : Recipe) :
  id_not_in exclude_ids recipe = true <-> ~ In (recipe_id recipe) exclude_ids.
Proof.
  unfold id_not_in. rewrite negb_true_iff. split.
  - intros H Hin. assert (E : existsb (Z.eqb (recipe_id recipe)) exclude_ids = true).
    { apply existsb_exists. exists (recipe_id recipe). split; [assumption | apply Z.eqb_refl]. }
    congruence.
  - intros H. destruct (existsb _ _) eqn:E; [| reflexivity].
    apply existsb_exists in E. destruct E as [x [Hx Hxe]]. apply Z.eqb_eq in Hxe. now subst.
Qed.

Lemma filter_ext_in_list {A : Type} (f g : A -> bool) (l : list A) :
  (forall x, In x l -> f x = g x) -> List.filter f l = List.filter g l.
Proof.
  induction l as [|x l IH]; intros H; cbn [List.filter]; [reflexivity |].
  rewrite (H x) by now left. rewrite IH by (intros y Hy; apply H; now right). reflexivity.
Qed.

Lemma filter_all {A : Type} (f : A -> bool) (l : list A) :
  (forall x, In x l -> f x = true) -> List.filter f l = l.
Proof.
  induction l as [|x l IH]; intros H; cbn [List.filter]; [reflexivity |].
  rewrite (H x) by now left. f_equal. apply IH. intros y Hy. apply H. now right.
Qed.

Lemma sublist_List_filter {A : Type} (f : A -> bool) (l : list A) :
  sublist (List.filter f l) l.
Proof.
  induction l as [|x l IH]; cbn [List.filter]; [constructor |].
  destruct (f x); [now apply sublist_skip | now apply sublist_cons].
Qed.

(** Whatever the list of excluded ids, and whether or not the filter is
    applied, a pool is the recipes whose id is not excluded. *)
Lemma pool_is_filter (exclude_ids : list Z) (recipes : list Recipe) :
  match exclude_ids with
  | [] => recipes
  | _ :: _ => List.filter (id_not_in exclude_ids) recipes
  end
  = List.filter (id_not_in exclude_ids) recipes.
Proof.
  destruct exclude_ids; [| reflexivity]. symmetry. now apply filter_all.
Qed.

Lemma excluded_ids_spec (recommendations : list Recommendation) (uid now days rid : Z) :
  In rid (get_recently_sent_recipe_ids recommendations uid now days
          ++ get_low_rated_recipe_ids recommendations uid)
  <-> excluded recommendations uid now days rid.
Proof.
  unfold get_recently_sent_recipe_ids, get_low_rated_recipe_ids, excluded. cbv zeta.
  rewrite in_app_iff, !in_map_iff. split.
  - intros [[r [Hid Hr]] | [r [Hid Hr]]]; apply filter_In in Hr; destruct Hr as [Hin Hr];
      exists r.
    + apply andb_true_iff in Hr. destruct Hr as [Hu Hs].
      apply Z.eqb_eq in Hu. apply Z.leb_le in Hs. now repeat split; try left.
    + apply andb_true_iff in Hr. destruct Hr as [Hr Hlow].
      apply andb_true_iff in Hr. destruct Hr as [Hu Hrated]. apply Z.eqb_eq in Hu.
      repeat split; try assumption. right. split; [assumption |].
      destruct (rec_rating r) as [rating|]; [| discriminate].
      exists rating. split; [reflexivity | now apply Z.leb_le].
  - intros [r [Hin [Hu [Hid [Hs | [Hrated [rating [Hrating Hlow]]]]]]]].
    + left. exists r. split; [assumption |]. apply filter_In. split; [assumption |].
      apply andb_true_iff. split; [now apply Z.eqb_eq | now apply Z.leb_le].
    + right. exists r. split; [assumption |]. apply filter_In. split; [assumption |].
      rewrite Hrated, Hrating. cbn [rating_at_most]. rewrite andb_true_r.
      apply andb_true_iff. split; [now apply Z.eqb_eq | now apply Z.leb_le].
Qed.

Lemma available_is_filter (recommendations : list Recommendation) (recipes : list Recipe) (uid now days : Z) :
  get_available_recipes recommendations recipes uid now days
  = List.filter
      (id_not_in (get_recently_sent_recipe_ids recommendations uid now days
                  ++ get_low_rated_recipe_ids recommendations uid))
      recipes.
Proof.
  unfold get_available_recipes. cbv zeta. rewrite pool_is_filter.
  apply filter_ext_in_list. intros recipe _.
  apply eq_true_iff_eq. rewrite !id_not_in_spec.
  rewrite <- list_elem_of_In, elem_of_elements, elem_of_list_to_set, list_elem_of_In.
  reflexivity.
Qed.

Lemma available_spec (recommendations : list Recommendation) (recipes : list Recipe) (uid now days : Z) (recipe : Recipe) :
  In recipe (get_available_recipes recommendations recipes uid now days) <->
  In recipe recipes /\ ~ excluded recommendations uid now days (recipe_id recipe).
Proof.
  rewrite available_is_filter, filter_In, id_not_in_spec, excluded_ids_spec. reflexivity.
Qed.

(** X13. The pool of the planner is the recipes table, in its order,
    without the recipes for which the user has a recommendation sent in
    the last [days] days or rated 1 or 2 stars; recommendations of other
    users do not count; it is the pool the recommendation engine draws
    from when [days] is 60. *)
Theorem available_recipes_characterised (recommendations : list Recommendation) (recipes : list Recipe) (uid now days : Z) :
  let pool := get_available_recipes recommendations recipes uid now days in
  sublist pool recipes /\
  (forall recipe,
     In recipe pool <->
     In recipe recipes /\ ~ excluded recommendations uid now days (recipe_id recipe)) /\
  pool
  = get_available_recipes
      (List.filter (fun r => (rec_user_id r =? uid)%Z) recommendations) recipes uid now days /\
  get_available_recipes recommendations recipes uid now 60
  = engine_pool recommendations recipes uid now.
Proof.
  cbv zeta. split; [| split; [| split]].
  - rewrite available_is_filter. apply sublist_List_filter.
  - intros recipe. apply available_spec.
  - rewrite !available_is_filter. apply filter_ext_in_list. intros recipe _.
    apply eq_true_iff_eq. rewrite !id_not_in_spec, !excluded_ids_spec.
    unfold excluded. split; intros H [r [Hin Hr]]; apply H; exists r.
    + apply filter_In in Hin. now destruct Hin.
    + split; [| assumption]. apply filter_In. split; [assumption |].
      apply Z.eqb_eq. now destruct Hr.
  - rewrite available_is_filter. unfold engine_pool. cbv zeta. now rewrite pool_is_filter.
Qed.

Section PlannerOnTables.

Variable json_loads : string -> option (list Ingredient).

(** X14. The weekly plan on the tables.  For an unknown user the run
    raises at once.  For a known user and [1 <= num_recipes] up to the
    number of available recipes it returns [num_recipes] recipes of the
    recipes table, none of which the user was sent in the last 60 days or
    has rated 1 or 2 stars. *)
Theorem weekly_plan_avoids_excluded (db : Database) (uid k now : Z) :
  let run := get_weekly_recommendations_from json_loads db uid k now in
  let available :=
    get_available_recipes (db_recommendations db) (db_recipes db) uid now 60 in
  match find (fun row => (fst row =? uid)%Z) (db_users db) with
  | None => run = ([], inl ValueError_user_not_found)
  | Some _ =>
      (1 <= k <= Z.of_nat (length available))%Z ->
      exists best stats,
        snd run = inr (best, stats) /\
        length best = Z.to_nat k /\
        forall recipe,
          In recipe best ->
          In recipe (db_recipes db) /\
          ~ excluded (db_recommendations db) uid now 60 (recipe_id recipe)
  end.
Proof.
  cbv zeta. unfold get_weekly_recommendations_from. cbv zeta.
  destruct (find _ (db_users db)) as [[uid' user]|]; cbn [option_map snd]; [| reflexivity].
  intros Hk. eexists _, _. split; [apply run_result; exact Hk |].
  destruct (chosen_valid json_loads user k
              (cache_scores (preferences_of uid (db_preferences db))
                 (get_available_recipes (db_recommendations db) (db_recipes db) uid now 60) ∅)
              (get_available_recipes (db_recommendations db) (db_recipes db) uid now 60) Hk)
    as [Hlen Hsub].
  split; [exact Hlen |]. intros recipe Hin.
  apply available_spec. apply list_elem_of_In.
  eapply elem_of_submseteq; [| exact Hsub]. now apply list_elem_of_In.
Qed.

End PlannerOnTables.

(** ** The batch the ratings refer to *)

Lemma insert_by_perm {A : Type} (before : A -> A -> bool) (x : A) (l : list A) :
  Permutation (insert_by before x l) (x :: l).
Proof.
  induction l as [|y l IH]; cbn [insert_by]; [reflexivity |].
  destruct (before x y); [reflexivity |].
  rewrite IH. apply perm_swap.
Qed.

Lemma order_by_perm {A : Type} (before : A -> A -> bool) (l : list A) :
  Permutation (order_by before l) l.
Proof.
  induction l as [|x l IH]; [reflexivity |].
  change (order_by before (x :: l)) with (insert_by before x (order_by before l)).
  rewrite insert_by_perm. now constructor.
Qed.

Section OrderBy.

Context {A : Type}.
Variable before : A -> A -> bool.
Hypothesis before_total : forall x y, before x y = false -> before y x = true.
Hypothesis before_trans : forall x y z, before x y = true -> before y z = true -> before x z = true.

Lemma insert_by_sorted (x : A) (l : list A) :
  sorted_by before l -> sorted_by before (insert_by before x l).
Proof.
  induction l as [|y l IH]; cbn [insert_by sorted_by].
  - intros _. split; [constructor | exact I].
  - intros [Hy Hl]. destruct (before x y) eqn:E.
    + cbn [sorted_by]. split; [| now split].
      constructor; [assumption |].
      eapply Forall_impl; [exact Hy |]. intros z Hz. cbn beta in *.
      now apply before_trans with y.
    + cbn [sorted_by]. split; [| now apply IH].
      apply Forall_forall. intros z Hz. apply list_elem_of_In in Hz.
      apply (Permutation_in _ (insert_by_perm before x l)) in Hz.
      destruct Hz as [<- | Hz]; [now apply before_total |].
      rewrite Forall_forall in Hy. apply Hy. now apply list_elem_of_In.
Qed.

Lemma order_by_sorted (l : list A) : sorted_by before (order_by before l).
Proof.
  induction l as [|x l IH]; [exact I |].
  change (order_by before (x :: l)) with (insert_by before x (order_by before l)).
  now apply insert_by_sorted.
Qed.

End OrderBy.

Lemma sorted_by_impl {A : Type} (before before' : A -> A -> bool) (l : list A) :
  (forall x y, In x l -> In y l -> before x y = true -> before' x y = true) ->
  sorted_by before l -> sorted_by before' l.
Proof.
  induction l as [|x l IH]; [intros _ _; exact I |].
  intros H [Hx Hl]. split.
  - apply Forall_forall. intros y Hy. apply H; [now left | right; now apply list_elem_of_In |].
    rewrite Forall_forall in Hx. now apply Hx.
  - apply IH; [| assumption]. intros a b Ha Hb. apply H; now right.
Qed.

Lemma sorted_by_sublist {A : Type} (before : A -> A -> bool) (l k : list A) :
  sublist l k -> sorted_by before k -> sorted_by before l.
Proof.
  induction 1 as [| x l k Hs IH | x l k Hs IH]; cbn [sorted_by].
  - trivial.
  - intros [Hx Hk]. split; [| now apply IH].
    apply Forall_forall. intros y Hy. rewrite Forall_forall in Hx. apply Hx.
    eapply elem_of_sublist; eassumption.
  - intros [_ Hk]. now apply IH.
Qed.

Lemma sent_order_total (a b : Recommendation) :
  sent_at_desc_then_id a b = false -> sent_at_desc_then_id b a = true.
Proof.
  unfold sent_at_desc_then_id. rewrite orb_false_iff, andb_false_iff, orb_true_iff, andb_true_iff.
  rewrite !Z.ltb_ge, !Z.ltb_lt, !Z.eqb_neq, !Z.eqb_eq, Z.leb_gt, Z.leb_le. lia.
Qed.

Lemma sent_order_trans (a b c : Recommendation) :
  sent_at_desc_then_id a b = true -> sent_at_desc_then_id b c = true ->
  sent_at_desc_then_id a c = true.
Proof.
  unfold sent_at_desc_then_id. rewrite !orb_true_iff, !andb_true_iff.
  rewrite !Z.ltb_lt, !Z.eqb_eq, !Z.leb_le. lia.
Qed.

Lemma sent_order_sent_at (a b : Recommendation) :
  sent_at_desc_then_id a b = true -> (rec_sent_at b <= rec_sent_at a)%Z.
Proof.
  unfold sent_at_desc_then_id. rewrite orb_true_iff, andb_true_iff.
  rewrite Z.ltb_lt, Z.eqb_eq, Z.leb_le. lia.
Qed.

Lemma while_same_sublist {A : Type} (key : A -> Z) (key0 : Z) (rows : list A) :
  sublist (while_same key key0 rows) rows.
Proof.
  induction rows as [|x rows IH]; cbn [while_same]; [constructor |].
  destruct (key x =? key0)%Z; [now apply sublist_skip | apply sublist_nil_l].
Qed.

Lemma first_group_sublist {A : Type} (key : A -> Z) (rows : list A) :
  sublist (first_group key rows) rows.
Proof.
  destruct rows as [|x rows]; [constructor |]. cbn [first_group].
  apply sublist_skip, while_same_sublist.
Qed.

(** On rows in descending order of the key the first group is the rows
    with the key of the first one. *)
Lemma while_same_is_filter {A : Type} (key : A -> Z) (key0 : Z) (rows : list A) :
  sorted_by (fun a b => (key b <=? key a)%Z) rows ->
  Forall (fun y => (key y <= key0)%Z) rows ->
  while_same key key0 rows = List.filter (fun y => (key y =? key0)%Z) rows.
Proof.
  induction rows as [|x rows IH]; [reflexivity |].
  intros [Hx Hs] Hle. cbn [while_same List.filter].
  apply Forall_cons in Hle. destruct Hle as [Hxle Hle].
  destruct (key x =? key0)%Z eqn:E.
  - f_equal. now apply IH.
  - apply Z.eqb_neq in E. symmetry.
    assert (G : forall y, In y rows -> (key y =? key0)%Z = false).
    { intros y Hy. apply Z.eqb_neq. rewrite Forall_forall in Hx.
      specialize (Hx y (proj2 (list_elem_of_In _ _) Hy)). cbn beta in Hx.
      apply Z.leb_le in Hx. lia. }
    clear -G. induction rows as [|y rows IH]; [reflexivity |]. cbn [List.filter].
    rewrite (G y) by now left. apply IH. intros z Hz. apply G. now right.
Qed.

Lemma first_group_is_filter {A : Type} (key : A -> Z) (x : A) (rows : list A) :
  sorted_by (fun a b => (key b <=? key a)%Z) (x :: rows) ->
  first_group key (x :: rows) = List.filter (fun y => (key y =? key x)%Z) (x :: rows).
Proof.
  intros [Hx Hs]. cbn [first_group List.filter]. rewrite Z.eqb_refl. f_equal.
  apply while_same_is_filter; [assumption |].
  eapply Forall_impl; [exact Hx |]. intros y Hy. cbn beta in Hy. now apply Z.leb_le.
Qed.

Lemma unrated_sorted (recommendations : list Recommendation) (uid : Z) (message_id : option string) :
  sorted_by sent_at_desc_then_id (unrated_recommendations recommendations uid message_id).
Proof.
  unfold unrated_recommendations.
  apply order_by_sorted; [exact sent_order_total | exact sent_order_trans].
Qed.

Lemma sorted_by_sent_at (rows : list Recommendation) :
  sorted_by sent_at_desc_then_id rows ->
  sorted_by (fun a b => (rec_sent_at b <=? rec_sent_at a)%Z) rows.
Proof.
  apply sorted_by_impl. intros a b _ _ H. apply Z.leb_le. now apply sent_order_sent_at.
Qed.

Lemma in_unrated (recommendations : list Recommendation) (uid : Z) (message_id : option string) (r : Recommendation) :
  In r (unrated_recommendations recommendations uid message_id) <->
  In r recommendations /\ rec_user_id r = uid /\ rec_rated r = false /\
  message_matches message_id r = true.
Proof.
  unfold unrated_recommendations. split.
  - intros H. apply (Permutation_in _ (order_by_perm _ _)) in H.
    apply filter_In in H. destruct H as [Hin H].
    apply andb_true_iff in H. destruct H as [H Hm].
    apply andb_true_iff in H. destruct H as [Hu Hr].
    apply Z.eqb_eq in Hu. apply negb_true_iff in Hr. now repeat split.
  - intros [Hin [Hu [Hr Hm]]].
    apply (Permutation_in _ (Permutation_sym (order_by_perm _ _))).
    apply filter_In. split; [assumption |].
    rewrite Hr, Hm. cbn [negb]. rewrite !andb_true_r. now apply Z.eqb_eq.
Qed.

Lemma in_first_group (rows : list Recommendation) (r : Recommendation) :
  sorted_by sent_at_desc_then_id rows ->
  (In r (first_group rec_sent_at rows) <->
   In r rows /\ forall r', In r' rows -> (rec_sent_at r' <= rec_sent_at r)%Z).
Proof.
  intros Hs. destruct rows as [|x rows]; [cbn; tauto |].
  rewrite (first_group_is_filter rec_sent_at x rows) by now apply sorted_by_sent_at.
  rewrite filter_In, Z.eqb_eq.
  assert (Hmax : forall r', In r' (x :: rows) -> (rec_sent_at r' <= rec_sent_at x)%Z).
  { intros r' [<- | Hr']; [lia |]. destruct Hs as [Hx _]. rewrite Forall_forall in Hx.
    apply sent_order_sent_at, Hx. now apply list_elem_of_In. }
  split.
  - intros [Hin E]. split; [assumption |]. intros r' Hr'. rewrite E. now apply Hmax.
  - intros [Hin H]. split; [assumption |].
    specialize (H x (or_introl eq_refl)). specialize (Hmax r Hin). lia.
Qed.

Lemma batch_ids_distinct (recommendations : list Recommendation) (uid : Z) (message_id : option string) :
  List.NoDup (map rec_id recommendations) ->
  List.NoDup
    (map rec_id (first_group rec_sent_at (unrated_recommendations recommendations uid message_id))).
Proof.
  intros Hnd. apply NoDup_ListNoDup.
  eapply sublist_NoDup;
    [| apply (fmap_sublist rec_id), first_group_sublist].
  unfold unrated_recommendations.
  rewrite (order_by_perm sent_at_desc_then_id).
  eapply sublist_NoDup; [apply NoDup_ListNoDup; exact Hnd |].
  apply (fmap_sublist rec_id), sublist_List_filter.
Qed.

(** X15. The batch [process_ratings] matches the recipe numbers against
    is the unrated recommendations of the user (with the given message id,
    if one is given) that carry the latest [sent_at] among them, in
    ascending order of their ids; distinct rows stay distinct. *)
Theorem most_recent_batch_spec (recommendations : list Recommendation) (uid : Z) (message_id : option string) :
  let batch := first_group rec_sent_at (unrated_recommendations recommendations uid message_id) in
  let awaiting := fun r =>
    In r recommendations /\ rec_user_id r = uid /\ rec_rated r = false /\
    message_matches message_id r = true in
  (forall r,
     In r batch <->
     awaiting r /\ forall r', awaiting r' -> (rec_sent_at r' <= rec_sent_at r)%Z) /\
  sorted_by (fun a b => (rec_id a <=? rec_id b)%Z) batch /\
  (List.NoDup (map rec_id recommendations) -> List.NoDup (map rec_id batch)).
Proof.
  cbv zeta. split; [| split].
  - intros r. rewrite in_first_group by apply unrated_sorted. rewrite in_unrated.
    split; intros [H1 H2]; (split; [exact H1 |]); intros r' Hr'; apply H2.
    + now apply in_unrated.
    + now apply in_unrated in Hr'.
  - pose proof (unrated_sorted recommendations uid message_id) as Hs.
    destruct (unrated_recommendations recommendations uid message_id) as [|x rows] eqn:E;
      [exact I |].
    rewrite (first_group_is_filter rec_sent_at x rows) by now apply sorted_by_sent_at.
    assert (Hsub : sorted_by sent_at_desc_then_id
                     (List.filter (fun y => (rec_sent_at y =? rec_sent_at x)%Z) (x :: rows))).
    { eapply sorted_by_sublist; [apply sublist_List_filter | exact Hs]. }
    revert Hsub. apply sorted_by_impl. intros a b Ha Hb.
    apply filter_In in Ha, Hb. destruct Ha as [_ Ha], Hb as [_ Hb].
    apply Z.eqb_eq in Ha, Hb. unfold sent_at_desc_then_id.
    rewrite orb_true_iff, andb_true_iff, Z.ltb_lt, Z.eqb_eq. intros [H | [_ H]]; [lia | exact H].
  - apply batch_ids_distinct.
Qed.

Lemma insert_by_map {A B : Type} (f : A -> B) (before : B -> B -> bool) (x : A) (l : list A) :
  map f (insert_by (fun a b => before (f a) (f b)) x l) = insert_by before (f x) (map f l).
Proof.
  induction l as [|y l IH]; cbn [insert_by map]; [reflexivity |].
  destruct (before (f x) (f y)); cbn [map]; [reflexivity | now rewrite IH].
Qed.

Lemma order_by_map {A B : Type} (f : A -> B) (before : B -> B -> bool) (l : list A) :
  map f (order_by (fun a b => before (f a) (f b)) l) = order_by before (map f l).
Proof.
  induction l as [|x l IH]; [reflexivity |].
  change (order_by (fun a b => before (f a) (f b)) (x :: l))
    with (insert_by (fun a b => before (f a) (f b)) x
            (order_by (fun a b => before (f a) (f b)) l)).
  rewrite insert_by_map, IH. reflexivity.
Qed.

Lemma map_filter_comm {A B : Type} (f : A -> B) (p : B -> bool) (l : list A) :
  map f (List.filter (fun a => p (f a)) l) = List.filter p (map f l).
Proof.
  induction l as [|x l IH]; [reflexivity |]. cbn [List.filter map].
  destruct (p (f x)); cbn [map]; now rewrite IH.
Qed.

(** A primary key that a foreign key refers to selects one row. *)
Lemma unique_match (recipes : list Recipe) (rid : Z) :
  List.NoDup (map recipe_id recipes) ->
  In rid (map recipe_id recipes) ->
  exists recipe,
    List.filter (fun recipe => (recipe_id recipe =? rid)%Z) recipes = [ recipe ].
Proof.
  induction recipes as [|x recipes IH]; [intros _ [] |].
  cbn [map List.filter]. intros Hnd Hin. apply List.NoDup_cons_iff in Hnd.
  destruct Hnd as [Hx Hnd]. destruct (recipe_id x =? rid)%Z eqn:E.
  - apply Z.eqb_eq in E. exists x. f_equal.
    assert (G : forall y, In y recipes -> (recipe_id y =? rid)%Z = false).
    { intros y Hy. apply Z.eqb_neq. intros Ey. apply Hx. rewrite E, <- Ey. now apply in_map. }
    clear -G. induction recipes as [|y recipes IH]; [reflexivity |]. cbn [List.filter].
    rewrite (G y) by now left. apply IH. intros z Hz. apply G. now right.
  - apply Z.eqb_neq in E. destruct Hin as [Hin | Hin]; [contradiction |]. now apply IH.
Qed.

Lemma join_keeps_rows (recipes : list Recipe) (rows : list Recommendation) :
  (forall r, In r rows ->
     exists recipe,
       List.filter (fun recipe => (recipe_id recipe =? rec_recipe_id r)%Z) recipes = [ recipe ]) ->
  map fst
    (flat_map
       (fun r =>
          map (pair r)
            (List.filter (fun recipe => (recipe_id recipe =? rec_recipe_id r)%Z) recipes))
       rows)
  = rows.
Proof.
  induction rows as [|r rows IH]; intros H; [reflexivity |].
  cbn [flat_map]. rewrite map_app, IH by (intros r' Hr'; apply H; now right).
  destruct (H r (or_introl eq_refl)) as [recipe ->]. reflexivity.
Qed.

(** X16. The batch the rating script shows is the batch [process_ratings]
    numbers the ratings against.  When recipe ids are unique and every
    recommendation refers to a recipe of the table, [get_unrated_recipes]
    lists, in the same order, exactly the recommendations of the most
    recent batch of [process_ratings] (called without message id), each
    with the recipe it refers to. *)
Theorem shown_batch_is_rated_batch (recipes : list Recipe) (recommendations : list Recommendation) (uid : Z) :
  List.NoDup (map recipe_id recipes) ->
  (forall r, In r recommendations -> In (rec_recipe_id r) (map recipe_id recipes)) ->
  let shown := get_unrated_recipes recipes recommendations uid in
  map fst shown
  = first_group rec_sent_at (unrated_recommendations recommendations uid None) /\
  (forall row, In row shown ->
     In (snd row) recipes /\ recipe_id (snd row) = rec_recipe_id (fst row)).
Proof.
  intros Hnd Hfk. cbv zeta. unfold get_unrated_recipes. cbv zeta.
  set (awaiting := List.filter (fun r => (rec_user_id r =? uid)%Z && negb (rec_rated r))
                     recommendations).
  set (joined := flat_map _ awaiting).
  assert (Hjoin : map fst joined = awaiting).
  { apply join_keeps_rows. intros r Hr. apply unique_match; [assumption |].
    apply Hfk. apply filter_In in Hr. now destruct Hr. }
  assert (Hq : unrated_recommendations recommendations uid None
               = order_by sent_at_desc_then_id awaiting).
  { unfold unrated_recommendations, awaiting. f_equal. apply filter_ext_in_list.
    intros r _. cbn [message_matches Py.truthy_str]. now rewrite andb_true_r. }
  pose proof (order_by_map fst sent_at_desc_then_id joined) as Hmap.
  rewrite Hjoin, <- Hq in Hmap.
  set (results := order_by (fun a b => sent_at_desc_then_id (fst a) (fst b)) joined) in *.
  split.
  - pose proof (unrated_sorted recommendations uid None) as Hs. rewrite <- Hmap in *.
    destruct results as [|first results']; [reflexivity |].
    rewrite (map_filter_comm fst (fun r => (rec_sent_at r =? rec_sent_at (fst first))%Z)).
    cbn [map] in *. symmetry. apply first_group_is_filter. now apply sorted_by_sent_at.
  - intros row Hrow.
    assert (Hin : In row results).
    { destruct results as [|first results']; [destruct Hrow |].
      apply filter_In in Hrow. now destruct Hrow. }
    unfold results in Hin.
    apply (Permutation_in _ (order_by_perm (fun a b => sent_at_desc_then_id (fst a) (fst b)) joined))
      in Hin.
    unfold joined in Hin. apply in_flat_map in Hin. destruct Hin as [r [_ Hin]].
    apply in_map_iff in Hin. destruct Hin as [recipe [<- Hin]].
    apply filter_In in Hin. destruct Hin as [Hin E]. apply Z.eqb_eq in E. now split.
Qed.

(** ** The loop over the ratings *)

Section RatingLoop.

Variable recipes : list Recipe.
Variables uid now : Z.
Variable batch : list Recommendation.

Lemma rating_loop_app_congr (first rest rest' : list (Z * Z)) :
  (forall state, rating_loop recipes uid now batch rest state
                 = rating_loop recipes uid now batch rest' state) ->
  forall state,
    rating_loop recipes uid now batch (first ++ rest) state
    = rating_loop recipes uid now batch (first ++ rest') state.
Proof.
  intros H. induction first as [|[n rating] first IH]; intros state; cbn [app rating_loop].
  - apply H.
  - destruct (n <=? Z.of_nat (length batch))%Z; [| apply IH].
    destruct (py_index batch (n - 1)); [| reflexivity].
    destruct (rating_allowed rating); [apply IH | reflexivity].
Qed.

Lemma rating_loop_count (ratings : list (Z * Z)) (state : Ratings) :
  (rt_processed state <= rt_processed (rating_loop recipes uid now batch ratings state)
   <= rt_processed state + length ratings)%nat.
Proof.
  revert state. induction ratings as [|[n rating] ratings IH]; intros state;
    cbn [rating_loop length]; [lia |].
  destruct (n <=? Z.of_nat (length batch))%Z; [| specialize (IH state); lia].
  destruct (py_index batch (n - 1)); [| lia].
  destruct (rating_allowed rating); [| lia].
  match goal with |- context [rating_loop _ _ _ _ _ ?s] => specialize (IH s) end.
  cbn [rt_processed] in IH. lia.
Qed.

Lemma py_index_in {A : Type} (l : list A) (i : Z) (x : A) :
  py_index l i = Some x -> In x l.
Proof.
  unfold py_index. destruct (0 <=? i)%Z; [apply nth_error_In |].
  destruct (_ <=? i)%Z; [apply nth_error_In | discriminate].
Qed.

Lemma mark_rated_columns (target rating : Z) (rows : list Recommendation) :
  map sent_columns (mark_rated target rating now rows) = map sent_columns rows.
Proof.
  unfold mark_rated. rewrite map_map. apply map_ext. intros r.
  now destruct (rec_id r =? target)%Z.
Qed.

Lemma mark_rated_other (target rating : Z) (rows : list Recommendation) (r : Recommendation) :
  rec_id r <> target -> In r rows -> In r (mark_rated target rating now rows).
Proof.
  intros Hid Hin. unfold mark_rated. apply in_map_iff. exists r.
  apply Z.eqb_neq in Hid. now rewrite Hid.
Qed.

Lemma rating_loop_frame (ratings : list (Z * Z)) (state : Ratings) :
  let result := rating_loop recipes uid now batch ratings state in
  map sent_columns (rt_recommendations result) = map sent_columns (rt_recommendations state) /\
  forall r, ~ In (rec_id r) (map rec_id batch) ->
            In r (rt_recommendations state) -> In r (rt_recommendations result).
Proof.
  cbv zeta. revert state. induction ratings as [|[n rating] ratings IH]; intros state;
    cbn [rating_loop]; [now split |].
  destruct (n <=? Z.of_nat (length batch))%Z; [| apply IH].
  destruct (py_index batch (n - 1)) as [target|] eqn:E; [| now split].
  destruct (rating_allowed rating); [| now split].
  match goal with |- context [rating_loop _ _ _ _ _ ?s] => destruct (IH s) as [IH1 IH2] end.
  cbn [rt_recommendations] in IH1, IH2. split.
  - now rewrite IH1, mark_rated_columns.
  - intros r Hr Hin. apply IH2; [assumption |]. apply mark_rated_other; [| assumption].
    intros Hid. apply Hr. rewrite Hid. apply in_map. exact (py_index_in _ _ _ E).
Qed.

End RatingLoop.

Lemma batch_rows (recommendations : list Recommendation) (uid : Z) (message_id : option string) (r : Recommendation) :
  In r (first_group rec_sent_at (unrated_recommendations recommendations uid message_id)) ->
  In r recommendations /\ rec_user_id r = uid /\ rec_rated r = false.
Proof.
  intros H. apply list_elem_of_In in H.
  eapply elem_of_sublist in H; [| apply first_group_sublist].
  apply list_elem_of_In, in_unrated in H. tauto.
Qed.

(** X17. Edge cases of [process_ratings].  With no unrated recommendation
    it processes nothing and changes nothing.  It never counts more than
    the ratings it is given.  A recipe number above the size of the batch
    is skipped.  A recipe number of 0 or below, down to one minus the size
    of the batch, is read from the end of the batch (0 is its last
    recipe).  A lower number, or a rating outside 1..5 for a number in
    range, ends the processing: the ratings after it are dropped.  No
    rating changes the id, user, recipe, [sent_at] or message id of a row;
    when ids are unique, rows of other users and rows already rated stay
    as they are. *)
Theorem process_ratings_edge_cases (recipes : list Recipe) (recommendations : list Recommendation) (preferences : list UserPreference) (uid : Z) (message_id : option string) (now : Z) :
  let run := fun ratings =>
    process_ratings recipes recommendations preferences uid ratings message_id now in
  let batch := first_group rec_sent_at (unrated_recommendations recommendations uid message_id) in
  let size := Z.of_nat (length batch) in
  let untouched :=
    {| rt_recommendations := recommendations;
       rt_preferences := preferences;
       rt_processed := 0 |} in
  (batch = [] -> forall ratings, run ratings = untouched) /\
  (forall ratings, (rt_processed (run ratings) <= length ratings)%nat) /\
  (forall first n rating rest,
     (size < n)%Z -> run (first ++ (n, rating) :: rest) = run (first ++ rest)) /\
  (forall first n rating rest,
     (- size < n <= 0)%Z ->
     run (first ++ (n, rating) :: rest) = run (first ++ (n + size, rating)%Z :: rest)) /\
  (forall first n rating rest,
     (n <= - size)%Z -> run (first ++ (n, rating) :: rest) = run first) /\
  (forall first n rating rest,
     (- size < n <= size)%Z -> rating_allowed rating = false ->
     run (first ++ (n, rating) :: rest) = run first) /\
  (forall ratings,
     map sent_columns (rt_recommendations (run ratings)) = map sent_columns recommendations) /\
  (List.NoDup (map rec_id recommendations) ->
   forall ratings r,
     In r recommendations -> rec_user_id r <> uid \/ rec_rated r = true ->
     In r (rt_recommendations (run ratings))).
Proof.
  cbv zeta. unfold process_ratings. cbv zeta.
  set (found := unrated_recommendations recommendations uid message_id).
  set (batch := first_group rec_sent_at found).
  set (start := {| rt_recommendations := recommendations;
                   rt_preferences := preferences;
                   rt_processed := 0 |}).
  assert (Hempty : found = [] <-> batch = []).
  { unfold batch. destruct found; cbn [first_group]; split; congruence. }
  split; [| split; [| split; [| split; [| split; [| split; [| split]]]]]].
  - intros Hb ratings. apply Hempty in Hb. now rewrite Hb.
  - intros ratings. destruct found; [cbn; lia |].
    pose proof (rating_loop_count recipes uid now batch ratings start) as H.
    cbn [rt_processed start] in H. lia.
  - intros first n rating rest Hn. destruct found; [reflexivity |].
    apply rating_loop_app_congr. intros state. cbn [rating_loop].
    apply Z.leb_gt in Hn. now rewrite Hn.
  - intros first n rating rest Hn. destruct found; [reflexivity |].
    apply rating_loop_app_congr. intros state. cbn [rating_loop].
    assert (E1 : (n <=? Z.of_nat (length batch))%Z = true) by (apply Z.leb_le; lia).
    assert (E2 : (n + Z.of_nat (length batch) <=? Z.of_nat (length batch))%Z = true)
      by (apply Z.leb_le; lia).
    rewrite E1, E2. unfold py_index.
    assert (E3 : (0 <=? n - 1)%Z = false) by (apply Z.leb_gt; lia).
    assert (E4 : (- Z.of_nat (length batch) <=? n - 1)%Z = true) by (apply Z.leb_le; lia).
    assert (E5 : (0 <=? n + Z.of_nat (length batch) - 1)%Z = true) by (apply Z.leb_le; lia).
    rewrite E3, E4, E5.
    now replace (Z.of_nat (length batch) + (n - 1))%Z with (n + Z.of_nat (length batch) - 1)%Z
      by lia.
  - intros first n rating rest Hn. destruct found; [reflexivity |].
    rewrite <- (app_nil_r first) at 2.
    apply rating_loop_app_congr. intros state. cbn [rating_loop].
    assert (E1 : (n <=? Z.of_nat (length batch))%Z = true) by (apply Z.leb_le; lia).
    rewrite E1. unfold py_index.
    assert (E3 : (0 <=? n - 1)%Z = false) by (apply Z.leb_gt; lia).
    assert (E4 : (- Z.of_nat (length batch) <=? n - 1)%Z = false) by (apply Z.leb_gt; lia).
    now rewrite E3, E4.
  - intros first n rating rest Hn Hbad. destruct found; [reflexivity |].
    rewrite <- (app_nil_r first) at 2.
    apply rating_loop_app_congr. intros state. cbn [rating_loop].
    assert (E1 : (n <=? Z.of_nat (length batch))%Z = true) by (apply Z.leb_le; lia).
    rewrite E1, Hbad. now destruct (py_index batch (n - 1)).
  - intros ratings. destruct found; [reflexivity |].
    apply (rating_loop_frame recipes uid now batch ratings start).
  - intros Hnd ratings r Hin Hr. destruct found eqn:Ef; [exact Hin |].
    apply (rating_loop_frame recipes uid now batch ratings start); [| exact Hin].
    intros Hid. apply in_map_iff in Hid. destruct Hid as [b [Hid Hb]].
    unfold batch in Hb. rewrite <- Ef in Hb. unfold found in Hb.
    apply batch_rows in Hb. destruct Hb as [Hb1 [Hb2 Hb3]].
    assert (b = r) by (apply (nodup_map_inj rec_id recommendations); assumption).
    subst b. destruct Hr; congruence.
Qed.

Lemma numbered_from_cons (start rating : Z) (entered : list Z) :
  numbered_from start (rating :: entered) = (start, rating) :: numbered_from (start + 1) entered.
Proof.
  unfold numbered_from. cbn [length seq map combine]. rewrite Z.add_0_r. f_equal.
  rewrite <- seq_shift, map_map. f_equal. apply map_ext. intros i. lia.
Qed.

Lemma combine_nil_r {A B : Type} (l : list A) : combine l (@nil B) = [].
Proof. now destruct l. Qed.

Lemma map_fst_combine_same {A B : Type} (l : list A) (l' : list B) :
  length l = length l' -> map fst (combine l l') = l.
Proof.
  revert l'. induction l as [|x l IH]; intros [|y l'] H; try discriminate; [reflexivity |].
  cbn [combine map fst]. f_equal. apply IH. now injection H.
Qed.

Lemma skipn_nth_error {A : Type} (l : list A) (k : nat) (x : A) :
  nth_error l k = Some x -> skipn k l = x :: skipn (S k) l.
Proof.
  revert k. induction l as [|y l IH]; intros [|k]; cbn; try discriminate.
  - now intros [= ->].
  - intros H. now rewrite (IH k H).
Qed.

Section CompleteRating.

Variable recipes : list Recipe.
Variables uid now : Z.
Variable batch : list Recommendation.

Lemma rating_loop_complete (entered : list Z) (k : nat) (state : Ratings) :
  (k + length entered <= length batch)%nat ->
  Forall (fun rating => rating_allowed rating = true) entered ->
  rating_loop recipes uid now batch (numbered_from (1 + Z.of_nat k) entered) state
  = all_processed recipes uid now (combine (skipn k batch) entered) state.
Proof.
  revert k state. induction entered as [|rating entered IH]; intros k state Hlen Hok.
  - rewrite combine_nil_r. unfold all_processed. cbn [numbered_from rating_loop fold_left length].
    destruct state. cbn. f_equal. lia.
  - rewrite numbered_from_cons. cbn [rating_loop]. cbn [length] in Hlen.
    apply Forall_cons in Hok. destruct Hok as [Hrating Hok].
    assert (E1 : (1 + Z.of_nat k <=? Z.of_nat (length batch))%Z = true) by (apply Z.leb_le; lia).
    rewrite E1. unfold py_index.
    assert (E2 : (0 <=? 1 + Z.of_nat k - 1)%Z = true) by (apply Z.leb_le; lia).
    rewrite E2. replace (Z.to_nat (1 + Z.of_nat k - 1)) with k by lia.
    destruct (nth_error batch k) as [r|] eqn:E.
    2:{ apply nth_error_None in E. lia. }
    rewrite Hrating.
    replace (1 + Z.of_nat k + 1)%Z with (1 + Z.of_nat (S k))%Z by lia.
    rewrite IH by (try assumption; lia).
    rewrite (skipn_nth_error _ _ _ E). unfold all_processed.
    cbn [combine fold_left fst snd length rt_recommendations rt_preferences rt_processed].
    f_equal. lia.
Qed.

Lemma fold_mark_rated_other (pairs : list (Recommendation * Z)) (rows : list Recommendation) (r : Recommendation) :
  ~ In (rec_id r) (map rec_id (map fst pairs)) -> In r rows ->
  In r (fold_left (fun rows p => mark_rated (rec_id (fst p)) (snd p) now rows) pairs rows).
Proof.
  revert rows. induction pairs as [|p pairs IH]; intros rows Hid Hin; [assumption |].
  cbn [fold_left]. cbn [map In] in Hid. apply IH; [tauto |].
  apply mark_rated_other; [| assumption]. intros E. apply Hid. now left.
Qed.

Lemma fold_mark_rated (pairs : list (Recommendation * Z)) (rows : list Recommendation) (r : Recommendation) (rating : Z) :
  List.NoDup (map rec_id (map fst pairs)) ->
  In (r, rating) pairs -> In r rows ->
  In (rated_as rating now r)
    (fold_left (fun rows p => mark_rated (rec_id (fst p)) (snd p) now rows) pairs rows).
Proof.
  revert rows. induction pairs as [|p pairs IH]; intros rows Hnd Hp Hin; [destruct Hp |].
  cbn [map] in Hnd. apply List.NoDup_cons_iff in Hnd. destruct Hnd as [Hfresh Hnd].
  cbn [fold_left]. destruct Hp as [-> | Hp].
  - cbn [fst snd] in *. apply fold_mark_rated_other; [exact Hfresh |].
    unfold mark_rated. apply in_map_iff. exists r. now rewrite Z.eqb_refl.
  - apply IH; try assumption. apply mark_rated_other; [| assumption].
    intros E. apply Hfresh. rewrite <- E. apply in_map.
    apply in_map_iff. now exists (r, rating).
Qed.

End CompleteRating.

Lemma complete_rating_run (recipes : list Recipe) (recommendations : list Recommendation) (preferences : list UserPreference) (uid : Z) (message_id : option string) (now : Z) (entered : list Z) :
  let batch := first_group rec_sent_at (unrated_recommendations recommendations uid message_id) in
  length entered = length batch ->
  Forall (fun rating => (1 <= rating <= 5)%Z) entered ->
  process_ratings recipes recommendations preferences uid (numbered_from 1 entered)
    message_id now
  = all_processed recipes uid now (combine batch entered)
      {| rt_recommendations := recommendations;
         rt_preferences := preferences;
         rt_processed := 0 |}.
Proof.
  cbv zeta. intros Hlen Hok.
  set (batch := first_group rec_sent_at
                  (unrated_recommendations recommendations uid message_id)) in *.
  set (start := {| rt_recommendations := recommendations;
                   rt_preferences := preferences;
                   rt_processed := 0 |}).
  unfold process_ratings. cbv zeta. fold batch start.
  destruct (unrated_recommendations recommendations uid message_id) eqn:Ef.
  - unfold batch in *. cbn [first_group length] in *.
    destruct entered; [reflexivity | discriminate].
  - change 1%Z with (1 + Z.of_nat 0)%Z. apply rating_loop_complete; [cbn [Nat.add]; lia |].
    eapply Forall_impl; [exact Hok |]. intros rating Hr. cbn beta in Hr.
    unfold rating_allowed. apply andb_true_iff. split; apply Z.leb_le; lia.
Qed.

Lemma complete_rating_rows (recipes : list Recipe) (recommendations : list Recommendation) (uid : Z) (message_id : option string) (now : Z) (entered : list Z) (r : Recommendation) (rating : Z) :
  let batch := first_group rec_sent_at (unrated_recommendations recommendations uid message_id) in
  length entered = length batch ->
  List.NoDup (map rec_id recommendations) ->
  In (r, rating) (combine batch entered) ->
  In (rated_as rating now r)
    (fold_left (fun rows p => mark_rated (rec_id (fst p)) (snd p) now rows)
       (combine batch entered) recommendations).
Proof.
  cbv zeta. intros Hlen Hnd Hin. apply fold_mark_rated; [| exact Hin |].
  - rewrite map_fst_combine_same by now symmetry. now apply batch_ids_distinct.
  - apply in_combine_l in Hin. now apply batch_rows in Hin.
Qed.

(** X18. The rating script's call of [process_ratings].  When the user
    has entered one rating between 1 and 5 for each recipe of the batch,
    numbered from 1 in the order shown, every rating is processed: the
    counter is the size of the batch, the preference table is the result
    of the preference updates for the recipes of the batch, in order, and,
    ids being unique, each recommendation of the batch is stored as rated
    with the rating entered for it. *)
Theorem complete_rating_is_processed (recipes : list Recipe) (recommendations : list Recommendation) (preferences : list UserPreference) (uid : Z) (message_id : option string) (now : Z) (entered : list Z) :
  let batch := first_group rec_sent_at (unrated_recommendations recommendations uid message_id) in
  length entered = length batch ->
  Forall (fun rating => (1 <= rating <= 5)%Z) entered ->
  let result :=
    process_ratings recipes recommendations preferences uid (numbered_from 1 entered)
      message_id now in
  result
  = all_processed recipes uid now (combine batch entered)
      {| rt_recommendations := recommendations;
         rt_preferences := preferences;
         rt_processed := 0 |} /\
  rt_processed result = length batch /\
  (List.NoDup (map rec_id recommendations) ->
   forall r rating,
     In (r, rating) (combine batch entered) ->
     In (rated_as rating now r) (rt_recommendations result)).
Proof.
  cbv zeta. intros Hlen Hok.
  set (batch := first_group rec_sent_at
                  (unrated_recommendations recommendations uid message_id)) in *.
  set (start := {| rt_recommendations := recommendations;
                   rt_preferences := preferences;
                   rt_processed := 0 |}).
  pose proof (complete_rating_run recipes recommendations preferences uid message_id now entered
                Hlen Hok) as Hrun.
  fold batch start in Hrun.
  rewrite Hrun. split; [reflexivity |]. split.
  - unfold all_processed. cbn [rt_processed start]. rewrite length_combine. lia.
  - intros Hnd r rating Hin. unfold all_processed. cbn [rt_recommendations start].
    now apply complete_rating_rows.
Qed.

(** ** Checking parsed ratings *)

Lemma range_from_1_NoDup (n : Z) : NoDup (range_from_1 n).
Proof.
  unfold range_from_1. apply NoDup_fmap_2; [| apply NoDup_seq].
  intros i j H. lia.
Qed.

Lemma length_range_from_1 (n : Z) : length (range_from_1 n) = Z.to_nat n.
Proof. unfold range_from_1. now rewrite length_map, length_seq. Qed.

Lemma in_range_from_1 (n x : Z) : In x (range_from_1 n) <-> (1 <= x <= n)%Z.
Proof.
  unfold range_from_1. rewrite in_map_iff. split.
  - intros [i [<- Hi]]. apply in_seq in Hi. lia.
  - intros H. exists (Z.to_nat (x - 1)). split; [lia |]. apply in_seq. lia.
Qed.

Lemma forallb_rating_range (ratings : list (Z * Z)) :
  forallb (fun r => (1 <=? snd r)%Z && (snd r <=? 5)%Z) ratings = true <->
  Forall (fun r => (1 <= snd r <= 5)%Z) ratings.
Proof.
  rewrite forallb_forall, Forall_forall. split; intros H r Hr.
  - apply list_elem_of_In in Hr. specialize (H r Hr).
    apply andb_true_iff in H. destruct H as [H1 H2]. apply Z.leb_le in H1, H2. lia.
  - apply list_elem_of_In in Hr. specialize (H r Hr). cbn beta in H.
    apply andb_true_iff. split; apply Z.leb_le; lia.
Qed.

Lemma validate_ratings_sound (ratings : list (Z * Z)) (expected_count : Z) :
  validate_ratings ratings expected_count = true ->
  Z.of_nat (length ratings) = expected_count /\
  Permutation (map fst ratings) (range_from_1 expected_count) /\
  Forall (fun r => (1 <= snd r <= 5)%Z) ratings.
Proof.
  unfold validate_ratings. cbv zeta.
  destruct (Z.of_nat (length ratings) =? expected_count)%Z eqn:E; cbn [negb]; [| discriminate].
  apply Z.eqb_eq in E.
  destruct (bool_decide _) eqn:D; cbn [negb]; [| discriminate].
  apply bool_decide_eq_true in D. intros Hall.
  split; [exact E |]. split; [| now apply forallb_rating_range].
  symmetry. apply submseteq_length_Permutation.
  - apply NoDup_submseteq; [apply range_from_1_NoDup |].
    intros x Hx. apply (elem_of_list_to_set (C := gset Z)).
    rewrite <- D. now apply elem_of_list_to_set.
  - rewrite length_map, length_range_from_1. lia.
Qed.

(** X19. [validate_ratings] accepts a list exactly when it has
    [expected_count] entries, its recipe numbers are the numbers 1 to
    [expected_count], each once and in any order, and every rating is
    between 1 and 5. *)
Theorem validate_ratings_spec (ratings : list (Z * Z)) (expected_count : Z) :
  validate_ratings ratings expected_count = true <->
  Z.of_nat (length ratings) = expected_count /\
  Permutation (map fst ratings) (range_from_1 expected_count) /\
  Forall (fun r => (1 <= snd r <= 5)%Z) ratings.
Proof.
  split; [apply validate_ratings_sound |].
  intros [E [Hperm Hall]]. unfold validate_ratings. cbv zeta.
  apply Z.eqb_eq in E. rewrite E. cbn [negb].
  assert (D : (list_to_set (range_from_1 expected_count) : gset Z)
              = list_to_set (map fst ratings)).
  { apply list_to_set_perm_L. now symmetry. }
  apply (bool_decide_eq_true _) in D. rewrite D. cbn [negb].
  now apply forallb_rating_range.
Qed.

Section ValidatedRatings.

Variable recipes : list Recipe.
Variables uid now : Z.
Variable batch : list Recommendation.

Lemma rating_loop_in_range (ratings : list (Z * Z)) (state : Ratings) :
  Forall (fun p => (1 <= fst p <= Z.of_nat (length batch))%Z /\ rating_allowed (snd p) = true)
    ratings ->
  rating_loop recipes uid now batch ratings state
  = all_processed recipes uid now (matched batch ratings) state /\
  length (matched batch ratings) = length ratings.
Proof.
  revert state. induction ratings as [|[n rating] ratings IH]; intros state Hok.
  - split; [| reflexivity]. unfold all_processed. cbn. destruct state. cbn. f_equal. lia.
  - apply Forall_cons in Hok. destruct Hok as [[Hn Hrating] Hok]. cbn [fst snd] in *.
    cbn [rating_loop matched flat_map fst snd]. fold (matched batch ratings).
    assert (E1 : (n <=? Z.of_nat (length batch))%Z = true) by (apply Z.leb_le; lia).
    rewrite E1. unfold py_index.
    assert (E2 : (0 <=? n - 1)%Z = true) by (apply Z.leb_le; lia).
    rewrite E2.
    destruct (nth_error batch (Z.to_nat (n - 1))) as [r|] eqn:E.
    2:{ apply nth_error_None in E. lia. }
    rewrite Hrating. cbn [app].
    match goal with |- context [rating_loop _ _ _ _ _ ?s] => destruct (IH s Hok) as [IH1 IH2] end.
    rewrite IH1. split; [| cbn [length]; now rewrite IH2].
    unfold all_processed.
    cbn [fold_left fst snd length rt_recommendations rt_preferences rt_processed].
    f_equal. lia.
Qed.

Lemma in_matched (ratings : list (Z * Z)) (r : Recommendation) (rating : Z) :
  In (r, rating) (matched batch ratings) <->
  exists n, In (n, rating) ratings /\ nth_error batch (Z.to_nat (n - 1)) = Some r.
Proof.
  unfold matched. rewrite in_flat_map. split.
  - intros [[n rating'] [Hin H]]. cbn [fst snd] in H.
    destruct (nth_error batch (Z.to_nat (n - 1))) as [r'|] eqn:E; [| destruct H].
    destruct H as [[= -> ->] | []]. now exists n.
  - intros [n [Hin E]]. exists (n, rating). split; [assumption |].
    cbn [fst snd]. rewrite E. now left.
Qed.

Lemma matched_ids_distinct (ratings : list (Z * Z)) :
  List.NoDup (map rec_id batch) ->
  List.NoDup (map fst ratings) ->
  Forall (fun p => (1 <= fst p)%Z) ratings ->
  List.NoDup (map rec_id (map fst (matched batch ratings))).
Proof.
  intros Hb. induction ratings as [|[n rating] ratings IH]; intros Hnd Hok; [constructor |].
  cbn [map] in Hnd. apply List.NoDup_cons_iff in Hnd. destruct Hnd as [Hfresh Hnd].
  apply Forall_cons in Hok. destruct Hok as [Hn Hok]. cbn [fst] in *.
  cbn [matched flat_map fst snd]. fold (matched batch ratings).
  destruct (nth_error batch (Z.to_nat (n - 1))) as [r|] eqn:E; cbn [app map];
    [| now apply IH].
  constructor; [| now apply IH].
  intros Hin. apply in_map_iff in Hin. destruct Hin as [r' [Hid Hin]].
  apply in_map_iff in Hin. destruct Hin as [[r'' rating'] [Hr Hin]]. cbn [fst] in Hr. subst r''.
  apply in_matched in Hin. destruct Hin as [n' [Hin E']].
  assert (Hpos : Z.to_nat (n - 1) = Z.to_nat (n' - 1)).
  { apply (proj1 (NoDup_nth_error (map rec_id batch)) Hb).
    - rewrite length_map. apply nth_error_Some. congruence.
    - rewrite !nth_error_map, E, E'. cbn [option_map]. now rewrite Hid. }
  assert (Hn' : (1 <= n')%Z).
  { rewrite Forall_forall in Hok. apply (Hok (n', rating')). now apply list_elem_of_In. }
  assert (n = n') by lia. subst n'.
  apply Hfresh. apply in_map_iff. now exists (n, rating').
Qed.

End ValidatedRatings.

(** X20. Ratings that [validate_ratings] accepts for the size of the
    batch are all processed by [process_ratings]: the counter is the size
    of the batch and, ids being unique, the recommendation each recipe
    number stands for is stored as rated with its rating, so that every
    recommendation of the batch ends up rated. *)
Theorem validated_ratings_are_all_processed (recipes : list Recipe) (recommendations : list Recommendation) (preferences : list UserPreference) (uid : Z) (message_id : option string) (now : Z) (ratings : list (Z * Z)) :
  let batch := first_group rec_sent_at (unrated_recommendations recommendations uid message_id) in
  validate_ratings ratings (Z.of_nat (length batch)) = true ->
  let result :=
    process_ratings recipes recommendations preferences uid ratings message_id now in
  rt_processed result = length batch /\
  (List.NoDup (map rec_id recommendations) ->
   (forall n rating r,
      In (n, rating) ratings -> nth_error batch (Z.to_nat (n - 1)) = Some r ->
      In (rated_as rating now r) (rt_recommendations result)) /\
   (forall r, In r batch ->
      exists rating, In (rated_as rating now r) (rt_recommendations result))).
Proof.
  cbv zeta. intros Hvalid. apply validate_ratings_sound in Hvalid.
  destruct Hvalid as [Hlen [Hperm Hall]].
  set (batch := first_group rec_sent_at
                  (unrated_recommendations recommendations uid message_id)) in *.
  set (start := {| rt_recommendations := recommendations;
                   rt_preferences := preferences;
                   rt_processed := 0 |}).
  assert (Hnum : forall n rating, In (n, rating) ratings -> (1 <= n <= Z.of_nat (length batch))%Z).
  { intros n rating Hin. apply in_range_from_1.
    apply (Permutation_in _ Hperm). apply in_map_iff. now exists (n, rating). }
  assert (Hok : Forall (fun p => (1 <= fst p <= Z.of_nat (length batch))%Z
                                 /\ rating_allowed (snd p) = true) ratings).
  { apply Forall_forall. intros [n rating] Hin. apply list_elem_of_In in Hin. cbn [fst snd].
    split; [now apply (Hnum n rating) |].
    rewrite Forall_forall in Hall. specialize (Hall (n, rating) (proj2 (list_elem_of_In _ _) Hin)).
    cbn [snd] in Hall. unfold rating_allowed. apply andb_true_iff. split; apply Z.leb_le; lia. }
  assert (Hrun : process_ratings recipes recommendations preferences uid ratings message_id now
                 = all_processed recipes uid now (matched batch ratings) start).
  { unfold process_ratings. cbv zeta. fold batch start.
    destruct (unrated_recommendations recommendations uid message_id) eqn:Ef.
    - unfold batch in *. cbn [first_group length] in *.
      destruct ratings; [| discriminate]. unfold all_processed. cbn. reflexivity.
    - now apply rating_loop_in_range. }
  rewrite Hrun.
  destruct (rating_loop_in_range recipes uid now batch ratings start Hok) as [_ Hcount].
  split.
  { unfold all_processed. cbn [rt_processed start]. lia. }
  intros Hnd.
  assert (Hrated : forall n rating r,
             In (n, rating) ratings -> nth_error batch (Z.to_nat (n - 1)) = Some r ->
             In (rated_as rating now r)
               (rt_recommendations (all_processed recipes uid now (matched batch ratings) start))).
  { intros n rating r Hin E. unfold all_processed. cbn [rt_recommendations start].
    apply fold_mark_rated.
    - apply matched_ids_distinct.
      + now apply batch_ids_distinct.
      + apply NoDup_ListNoDup. rewrite Hperm. apply range_from_1_NoDup.
      + eapply Forall_impl; [exact Hok |]. intros p Hp. cbn beta in Hp. lia.
    - apply in_matched. now exists n.
    - apply nth_error_In in E. now apply batch_rows in E. }
  split; [exact Hrated |].
  intros r Hr. apply In_nth_error in Hr. destruct Hr as [i Hi].
  assert (Hi' : (i < length batch)%nat) by (apply nth_error_Some; congruence).
  assert (Hin : In (1 + Z.of_nat i)%Z (map fst ratings)).
  { apply (Permutation_in _ (Permutation_sym Hperm)). apply in_range_from_1. lia. }
  apply in_map_iff in Hin. destruct Hin as [[n rating] [Hn Hin]]. cbn [fst] in Hn. subst n.
  exists rating. apply (Hrated (1 + Z.of_nat i)%Z rating r Hin).
  now replace (Z.to_nat (1 + Z.of_nat i - 1)) with i by lia.
Qed.

(** ** From a rating to the pool of the planner *)

Section LowRatings.

Variable json_loads : string -> option (list Ingredient).

(** X21. A recipe rated 1 or 2 stars is gone for good.  After the rating
    script has processed a complete set of ratings, a recipe of the batch
    that got at most 2 stars is in no later pool of the user, whatever the
    date and the look-back, and in no weekly plan computed for the user
    from the tables as the ratings leave them. *)
Theorem low_rating_removes_recipe (users : list (Z * User)) (recipes : list Recipe) (recommendations : list Recommendation) (preferences : list UserPreference) (uid : Z) (message_id : option string) (now : Z) (entered : list Z) (r : Recommendation) (rating : Z) :
  let batch := first_group rec_sent_at (unrated_recommendations recommendations uid message_id) in
  List.NoDup (map rec_id recommendations) ->
  length entered = length batch ->
  Forall (fun rating => (1 <= rating <= 5)%Z) entered ->
  In (r, rating) (combine batch entered) ->
  (rating <= 2)%Z ->
  let result :=
    process_ratings recipes recommendations preferences uid (numbered_from 1 entered)
      message_id now in
  let db :=
    {| db_users := users;
       db_recipes := recipes;
       db_recommendations := rt_recommendations result;
       db_preferences := rt_preferences result |} in
  (forall later days recipe,
     In recipe (get_available_recipes (rt_recommendations result) recipes uid later days) ->
     recipe_id recipe <> rec_recipe_id r) /\
  (forall k later best stats,
     snd (get_weekly_recommendations_from json_loads db uid k later) = inr (best, stats) ->
     forall recipe, In recipe best -> recipe_id recipe <> rec_recipe_id r).
Proof.
  cbv zeta. intros Hnd Hlen Hok Hin Hlow.
  rewrite (complete_rating_run recipes recommendations preferences uid message_id now entered
             Hlen Hok).
  unfold all_processed. cbn [rt_recommendations rt_preferences].
  pose proof (complete_rating_rows recipes recommendations uid message_id now entered r rating
                Hlen Hnd Hin) as Hrow.
  assert (Huser : rec_user_id r = uid).
  { apply in_combine_l in Hin. now apply batch_rows in Hin. }
  revert Hrow.
  generalize (fold_left (fun rows p => mark_rated (rec_id (fst p)) (snd p) now rows)
                (combine (first_group rec_sent_at
                            (unrated_recommendations recommendations uid message_id)) entered)
                recommendations).
  intros rows Hrow.
  assert (Hexcl : forall later days, excluded rows uid later days (rec_recipe_id r)).
  { intros later days. exists (rated_as rating now r).
    split; [exact Hrow |]. split; [exact Huser |]. split; [reflexivity |].
    right. split; [reflexivity |]. now exists rating. }
  assert (Hpool : forall later days recipe,
             In recipe (get_available_recipes rows recipes uid later days) ->
             recipe_id recipe <> rec_recipe_id r).
  { intros later days recipe Hrecipe E. apply available_spec in Hrecipe.
    destruct Hrecipe as [_ Hrecipe]. apply Hrecipe. rewrite E. apply Hexcl. }
  split; [exact Hpool |].
  intros k later best stats Hrun recipe Hbest.
  unfold get_weekly_recommendations_from in Hrun. cbv zeta in Hrun.
  cbn [db_users db_recipes db_recommendations db_preferences] in Hrun.
  apply returned_plan in Hrun. destruct Hrun as [_ Hsub].
  apply (Hpool later 60%Z). apply list_elem_of_In.
  eapply elem_of_submseteq; [| exact Hsub]. now apply list_elem_of_In.
Qed.

End LowRatings.

(** ** The shopping list *)

Lemma sorted_strings_fixed (l : list string) : ascending l -> sorted_strings l = l.
Proof.
  induction l as [|x l IH]; [reflexivity |]. intros H.
  change (sorted_strings (x :: l)) with (insert_str x (sorted_strings l)).
  destruct l as [|y l]; [reflexivity |]. destruct H as [Hyx H].
  rewrite IH by assumption. cbn [insert_str]. now rewrite Hyx.
Qed.

Lemma details_get_key (m : list (string * list Usage)) (name : string) :
  In name (detail_keys m) -> usages_filled m ->
  details_get m name <> [] /\
  Forall (fun usage => usage_quantity usage <> "") (details_get m name).
Proof.
  intros Hin Hfill. unfold details_get.
  destruct (find (fun entry => String.eqb (fst entry) name) m) as [entry|] eqn:E.
  - apply find_some in E. destruct E as [He _].
    unfold usages_filled in Hfill. rewrite Forall_forall in Hfill.
    apply (Hfill entry). now apply list_elem_of_In.
  - exfalso. unfold detail_keys in Hin. apply in_map_iff in Hin.
    destruct Hin as [entry [<- He]]. apply (find_none _ _ E) in He.
    now rewrite String.eqb_refl in He.
Qed.

Section ShoppingFacts.

Variable json_loads : string -> option (list Ingredient).
Variable dumps_lines : list ShoppingLine -> string.
Variable dumps_ids : list Z -> string.
Variable dumps_titles : list string -> string.


End ShoppingFacts.

(** ** The difficulty of stored recipes *)

(** X23. The two difficulty estimates.  The scraper's estimate never
    goes down when the time or the number of steps goes up.  The
    Spoonacular client's estimate is the scraper's for the same time and
    at most five steps.  A recipe whose time is unknown is stored by the
    Spoonacular client with 0 minutes and as easy, by the scraper never as
    easy; with 0 minutes it has a difficulty but no cooking-time bucket
    for the scorer and the learner. *)
Theorem difficulty_estimates :
  (forall t t' n n', (t <= t')%Z -> (n <= n')%Z ->
     (difficulty_rank (_estimate_difficulty t n)
      <= difficulty_rank (_estimate_difficulty t' n'))%nat) /\
  (forall m n, (n <= 5)%Z ->
     snd (spoonacular_time_and_difficulty (Some m)) = _estimate_difficulty m n) /\
  spoonacular_time_and_difficulty None = (0%Z, "easy") /\
  (forall n, scraped_difficulty None n <> "easy" /\ scraped_difficulty (Some 0%Z) n <> "easy") /\
  (forall recipe,
     ready_in_minutes recipe = Some (fst (spoonacular_time_and_difficulty None)) ->
     difficulty recipe = Some (snd (spoonacular_time_and_difficulty None)) ->
     attribute_value recipe "difficulty" = Some "easy" /\
     attribute_value recipe "cooking_time" = None).
Proof.
  split; [| split; [| split; [| split]]].
  - intros t t' n n' Ht Hn. unfold _estimate_difficulty.
    destruct (Z.ltb_spec t 30), (Z.leb_spec n 5), (Z.ltb_spec t 60), (Z.leb_spec n 10),
      (Z.ltb_spec t' 30), (Z.leb_spec n' 5), (Z.ltb_spec t' 60), (Z.leb_spec n' 10);
      cbn [andb]; try lia; cbn; lia.
  - intros m n Hn. unfold spoonacular_time_and_difficulty, _estimate_difficulty.
    cbn [default from_option id snd].
    destruct (Z.leb_spec n 5); [| lia]. destruct (Z.leb_spec n 10); [| lia].
    now rewrite !andb_true_r.
  - reflexivity.
  - intros n. unfold scraped_difficulty, _estimate_difficulty.
    cbn [Py.truthy_int default from_option id negb Z.eqb].
    change (30 <? 30)%Z with false. change (30 <? 60)%Z with true. cbn [andb].
    destruct (Z.of_nat n <=? 10)%Z; split; discriminate.
  - intros recipe Ht Hd. unfold attribute_value. rewrite Ht, Hd. split; reflexivity.
Qed.

(** ** The cold-start selection *)

Lemma cuisines_of_app (l k : list Recipe) : cuisines_of (l ++ k) = cuisines_of l ∪ cuisines_of k.
Proof. unfold cuisines_of. now rewrite map_app, list_to_set_app_L. Qed.

Lemma cuisines_of_incl (l k : list Recipe) : incl l k -> cuisines_of l ⊆ cuisines_of k.
Proof.
  intros H c Hc. unfold cuisines_of in *. apply elem_of_list_to_set in Hc.
  apply elem_of_list_to_set. apply list_elem_of_In in Hc. apply list_elem_of_In.
  apply in_map_iff in Hc. destruct Hc as [r [<- Hr]]. apply in_map. now apply H.
Qed.

Lemma size_cuisines_of (l : list Recipe) :
  List.NoDup (map cuisine_or_unknown l) -> size (cuisines_of l) = length l.
Proof.
  intros H. unfold cuisines_of. rewrite size_list_to_set by now apply NoDup_ListNoDup.
  apply length_map.
Qed.

Lemma cuisines_of_cons (r : Recipe) (l : list Recipe) :
  cuisines_of (r :: l) = {[ cuisine_or_unknown r ]} ∪ cuisines_of l.
Proof. reflexivity. Qed.

Lemma cuisines_of_snoc (l : list Recipe) (r : Recipe) :
  cuisines_of (l ++ [ r ]) = {[ cuisine_or_unknown r ]} ∪ cuisines_of l.
Proof.
  rewrite cuisines_of_app, cuisines_of_cons. unfold cuisines_of at 2. cbn [map list_to_set].
  rewrite (right_id_L ∅ (∪)). apply union_comm_L.
Qed.

Lemma first_pass_spec (count : Z) (shuffled : list Recipe) :
  forall selected,
    List.NoDup (map cuisine_or_unknown selected) ->
    exists extra,
      first_pass count shuffled selected (cuisines_of selected)
      = (selected ++ extra, cuisines_of (selected ++ extra)) /\
      sublist extra shuffled /\
      List.NoDup (map cuisine_or_unknown (selected ++ extra)) /\
      (Z.of_nat (length (selected ++ extra)) <= Z.max (Z.of_nat (length selected)) count)%Z /\
      ((Z.of_nat (length (selected ++ extra)) < count)%Z ->
       cuisines_of shuffled ⊆ cuisines_of (selected ++ extra)).
Proof.
  induction shuffled as [|recipe rest IH]; intros selected Hnd; cbn [first_pass].
  - exists []. rewrite app_nil_r. repeat split; try assumption; [constructor | lia |].
    intros _. unfold cuisines_of at 1. cbn. apply empty_subseteq.
  - destruct (Z.leb_spec count (Z.of_nat (length selected))) as [Hfull | Hroom].
    + exists []. rewrite app_nil_r. repeat split; try assumption; [apply sublist_nil_l | lia | lia].
    + destruct (bool_decide_reflect (cuisine_or_unknown recipe ∈ cuisines_of selected))
        as [Hused | Hnew].
      * destruct (IH selected Hnd) as [extra [E [Hsub [Hnd' [Hlen Hall]]]]].
        exists extra. split; [exact E |]. split; [now apply sublist_cons |].
        split; [exact Hnd' |]. split; [exact Hlen |].
        intros Hshort. specialize (Hall Hshort).
        assert (Hc : cuisine_or_unknown recipe ∈ cuisines_of (selected ++ extra)).
        { rewrite cuisines_of_app. apply elem_of_union. now left. }
        rewrite cuisines_of_cons. revert Hc Hall.
        generalize (cuisines_of (selected ++ extra)) (cuisines_of rest)
          (cuisine_or_unknown recipe).
        intros S1 S2 c Hc Hall x Hx. apply elem_of_union in Hx. destruct Hx as [Hx | Hx].
        { apply elem_of_singleton in Hx. now subst. }
        now apply Hall.
      * assert (Hnd1 : List.NoDup (map cuisine_or_unknown (selected ++ [ recipe ]))).
        { rewrite map_app. cbn [map]. apply NoDup_ListNoDup, NoDup_app.
          split; [now apply NoDup_ListNoDup |]. split; [| apply NoDup_singleton].
          intros c Hc Hc'. apply list_elem_of_In in Hc'. destruct Hc' as [<- | []].
          apply Hnew. unfold cuisines_of. now apply elem_of_list_to_set. }
        destruct (IH (selected ++ [ recipe ]) Hnd1) as [extra [E [Hsub [Hnd' [Hlen Hall]]]]].
        rewrite <- cuisines_of_snoc, E. exists (recipe :: extra).
        replace (selected ++ recipe :: extra) with ((selected ++ [ recipe ]) ++ extra)
          by (now rewrite <- app_assoc).
        split; [reflexivity |]. split; [now apply sublist_skip |].
        split; [exact Hnd' |]. split.
        { rewrite !length_app in *. cbn [length] in *. lia. }
        intros Hshort. specialize (Hall Hshort).
        assert (Hc : cuisine_or_unknown recipe ∈ cuisines_of ((selected ++ [ recipe ]) ++ extra)).
        { rewrite cuisines_of_app, cuisines_of_snoc. apply elem_of_union. left.
          apply elem_of_union. left. now apply elem_of_singleton. }
        rewrite cuisines_of_cons. revert Hc Hall.
        generalize (cuisines_of ((selected ++ [ recipe ]) ++ extra)) (cuisines_of rest)
          (cuisine_or_unknown recipe).
        intros S1 S2 c Hc Hall x Hx. apply elem_of_union in Hx. destruct Hx as [Hx | Hx].
        { apply elem_of_singleton in Hx. now subst. }
        now apply Hall.
Qed.

Lemma is_selected_spec (recipe : Recipe) (selected : list Recipe) :
  is_selected recipe selected = true <-> In (recipe_id recipe) (map recipe_id selected).
Proof.
  unfold is_selected. rewrite existsb_exists, in_map_iff. split.
  - intros [other [Hin E]]. apply Z.eqb_eq in E. now exists other.
  - intros [other [E Hin]]. exists other. split; [assumption | now apply Z.eqb_eq].
Qed.

Lemma fill_spec (count : Z) (shuffled : list Recipe) :
  forall selected,
    List.NoDup (map recipe_id selected) ->
    (Z.of_nat (length selected) < count)%Z ->
    exists extra,
      fill count shuffled selected = selected ++ extra /\
      incl extra shuffled /\
      List.NoDup (map recipe_id (selected ++ extra)) /\
      (Z.of_nat (length (selected ++ extra)) <= count)%Z /\
      ((Z.of_nat (length (selected ++ extra)) < count)%Z ->
       incl (map recipe_id shuffled) (map recipe_id (selected ++ extra))).
Proof.
  induction shuffled as [|recipe rest IH]; intros selected Hnd Hroom; cbn [fill].
  - exists []. rewrite app_nil_r. repeat split; try assumption; [intros x [] | lia |].
    intros _ x [].
  - destruct (is_selected recipe selected) eqn:Hsel.
    + destruct (IH selected Hnd Hroom) as [extra [E [Hin [Hnd' [Hlen Hall]]]]].
      exists extra. split; [exact E |]. split; [now apply incl_tl |].
      split; [exact Hnd' |]. split; [exact Hlen |].
      intros Hshort x [<- | Hx]; [| now apply Hall].
      rewrite map_app. apply in_or_app. left. now apply is_selected_spec.
    + assert (Hnd1 : List.NoDup (map recipe_id (selected ++ [ recipe ]))).
      { rewrite map_app. cbn [map]. apply NoDup_ListNoDup, NoDup_app.
        split; [now apply NoDup_ListNoDup |]. split; [| apply NoDup_singleton].
        intros x Hx Hx'. apply list_elem_of_In in Hx, Hx'. destruct Hx' as [<- | []].
        apply is_selected_spec in Hx. congruence. }
      cbv zeta. destruct (Z.leb_spec count (Z.of_nat (length (selected ++ [ recipe ]))))
        as [Hfull | Hroom'].
      * exists [ recipe ]. split; [reflexivity |].
        split; [intros x [<- | []]; now left |]. split; [exact Hnd1 |].
        rewrite length_app in *. cbn [length] in *. split; lia.
      * destruct (IH (selected ++ [ recipe ]) Hnd1 Hroom') as [extra [E [Hin [Hnd' [Hlen Hall]]]]].
        exists (recipe :: extra).
        replace (selected ++ recipe :: extra) with ((selected ++ [ recipe ]) ++ extra)
          by (now rewrite <- app_assoc).
        split; [exact E |]. split.
        { intros x [<- | Hx]; [now left | right; now apply Hin]. }
        split; [exact Hnd' |]. split; [exact Hlen |].
        intros Hshort x [<- | Hx]; [| now apply Hall].
        rewrite !map_app. apply in_or_app. left. apply in_or_app. right. now left.
Qed.

Lemma fill_rounds_done (fuel : nat) (count : Z) (shuffled selected : list Recipe) :
  (count <= Z.of_nat (length selected))%Z ->
  fill_rounds fuel count shuffled selected = selected.
Proof.
  intros H. destruct fuel; [reflexivity |]. cbn [fill_rounds].
  apply Z.ltb_ge in H. now rewrite H.
Qed.

(** X24. The cold-start selection, whatever the shuffle.  With no more
    recipes than asked for it returns them all.  Otherwise, for every order
    [random.sample] may draw, it returns exactly [count] recipes of the
    pool, all different, covering as many cuisines as [count] and the pool
    allow; one round of the second pass is always enough. *)
Theorem cold_start_selection (all_recipes shuffled : list Recipe) (count : Z) (fuel : nat) :
  Permutation shuffled all_recipes ->
  List.NoDup (map recipe_id all_recipes) ->
  (1 <= fuel)%nat ->
  let selected := select_random_diverse_recipes all_recipes count shuffled fuel in
  ((Z.of_nat (length all_recipes) <= count)%Z -> selected = all_recipes) /\
  ((count < Z.of_nat (length all_recipes))%Z ->
   length selected = Z.to_nat count /\
   List.NoDup (map recipe_id selected) /\
   incl selected all_recipes /\
   size (cuisines_of selected) = Nat.min (Z.to_nat count) (size (cuisines_of all_recipes)) /\
   selected = select_random_diverse_recipes all_recipes count shuffled 1).
Proof.
  intros Hperm Hnd Hfuel. cbv zeta. unfold select_random_diverse_recipes. split.
  { intros H. apply Z.leb_le in H. now rewrite H. }
  intros Hcount. apply Z.leb_gt in Hcount. rewrite Hcount. apply Z.leb_gt in Hcount. cbv zeta.
  assert (Hlen : length shuffled = length all_recipes) by now apply Permutation_length.
  assert (Hnds : List.NoDup (map recipe_id shuffled)).
  { apply NoDup_ListNoDup. rewrite Hperm. now apply NoDup_ListNoDup. }
  assert (Hincl : incl shuffled all_recipes).
  { intros x Hx. exact (Permutation_in _ Hperm Hx). }
  assert (Hcuis : cuisines_of shuffled = cuisines_of all_recipes).
  { unfold cuisines_of. apply list_to_set_perm_L. now rewrite Hperm. }
  destruct (first_pass_spec count shuffled [] (List.NoDup_nil _))
    as [first [E1 [Hsub [Hndc [Hlen1 Hall1]]]]].
  change (cuisines_of []) with (∅ : gset string) in E1. rewrite E1. cbn [fst app length] in *.
  assert (Hnd1 : List.NoDup (map recipe_id first)).
  { apply NoDup_ListNoDup. eapply sublist_NoDup; [apply NoDup_ListNoDup; exact Hnds |].
    now apply (fmap_sublist recipe_id). }
  assert (Hin1 : incl first shuffled).
  { intros x Hx. apply list_elem_of_In. eapply elem_of_sublist; [| exact Hsub].
    now apply list_elem_of_In. }
  assert (Hsize1 : size (cuisines_of first) = length first) by now apply size_cuisines_of.
  assert (Hbound : (size (cuisines_of first) <= size (cuisines_of all_recipes))%nat).
  { apply subseteq_size. rewrite <- Hcuis. now apply cuisines_of_incl. }
  destruct (Z.lt_ge_cases (Z.of_nat (length first)) count) as [Hshort | Hfull].
  - (* the first pass has run out of cuisines *)
    specialize (Hall1 Hshort).
    assert (Hsame : cuisines_of first = cuisines_of all_recipes).
    { rewrite <- Hcuis. apply (anti_symm (⊆)); [now apply cuisines_of_incl | exact Hall1]. }
    destruct (fill_spec count shuffled first Hnd1 Hshort)
      as [extra [E2 [Hin2 [Hnd2 [Hlen2 Hall2]]]]].
    assert (Hexact : Z.of_nat (length (first ++ extra)) = count).
    { destruct (Z.lt_ge_cases (Z.of_nat (length (first ++ extra))) count) as [H | H]; [| lia].
      exfalso. specialize (Hall2 H).
      pose proof (NoDup_incl_length Hnds Hall2) as Hle. rewrite !length_map in Hle. lia. }
    assert (Hone : forall fuel', fill_rounds (S fuel') count shuffled first = first ++ extra).
    { intros fuel'. cbn [fill_rounds].
      assert (C1 : (Z.of_nat (length first) <? count)%Z = true) by now apply Z.ltb_lt.
      assert (C2 : (length first <? length shuffled)%nat = true) by (apply Nat.ltb_lt; lia).
      rewrite C1, C2, E2. cbn [andb]. apply fill_rounds_done. lia. }
    destruct fuel as [|fuel']; [lia |]. rewrite !Hone.
    split; [lia |]. split; [exact Hnd2 |]. split.
    { intros x Hx. apply Hincl. apply in_app_or in Hx. destruct Hx; auto. }
    split; [| reflexivity].
    assert (Hsame2 : cuisines_of (first ++ extra) = cuisines_of all_recipes).
    { apply (anti_symm (⊆)).
      - rewrite <- Hcuis. apply cuisines_of_incl. intros x Hx.
        apply in_app_or in Hx. destruct Hx; auto.
      - rewrite <- Hsame, cuisines_of_app. apply union_subseteq_l. }
    rewrite Hsame2. rewrite Hsame in Hsize1. lia.
  - (* the first pass has selected [count] recipes *)
    rewrite !fill_rounds_done by lia.
    split; [lia |]. split; [exact Hnd1 |]. split.
    { intros x Hx. now apply Hincl, Hin1. }
    split; [lia | reflexivity].
Qed.

(** ** The engine's view of the preferences *)

(** X25. The recommendation engine and the weekly planner read the same
    scores: for every type and value, the nested dict of
    [get_user_preferences] holds what the lookup dict of
    [score_recipe_for_user] holds for the rows of that user - on tables
    that respect the unique constraint, the stored score. *)
Theorem engine_preferences_agree_with_planner (table : list UserPreference) (uid : Z) (ptype pvalue : string) :
  organized_get (get_user_preferences table uid) ptype pvalue
  = pref_lookup (preferences_of uid table) !! (ptype, pvalue) /\
  (List.NoDup (map pref_key table) ->
   default 0%Q (organized_get (get_user_preferences table uid) ptype pvalue)
   = stored_score table uid ptype pvalue).
Proof.
  assert (H : organized_get (get_user_preferences table uid) ptype pvalue
              = pref_lookup (preferences_of uid table) !! (ptype, pvalue)).
  { unfold get_user_preferences, pref_lookup.
    assert (G : forall rows (organized : gmap string (gmap string Q))
                       (lookup : gmap (string * string) Q),
               organized_get organized ptype pvalue = lookup !! (ptype, pvalue) ->
               organized_get
                 (fold_left
                    (fun organized pref =>
                       let organized :=
                         match organized !! preference_type pref with
                         | None => <[ preference_type pref := ∅ ]> organized
                         | Some _ => organized
                         end in
                       <[ preference_type pref :=
                            <[ preference_value pref := score pref ]>
                              (default ∅ (organized !! preference_type pref)) ]> organized)
                    rows organized) ptype pvalue
               = fold_left
                   (fun lookup pref =>
                      <[ (preference_type pref, preference_value pref) := score pref ]> lookup)
                   rows lookup !! (ptype, pvalue)).
    { induction rows as [|pref rows IH]; intros organized lookup Hinv; [exact Hinv |].
      cbn [fold_left]. apply IH. cbv zeta. unfold organized_get in *.
      destruct (decide (preference_type pref = ptype)) as [Et | Et].
      - rewrite Et. rewrite lookup_insert_eq. cbn [default from_option id].
        assert (Hinner : default ∅
                           (match organized !! ptype with
                            | Some _ => organized
                            | None => <[ ptype := ∅ ]> organized
                            end !! ptype)
                         = default ∅ (organized !! ptype)).
        { destruct (organized !! ptype) eqn:E; [now rewrite E |].
          now rewrite lookup_insert_eq. }
        rewrite Hinner.
        destruct (decide (preference_value pref = pvalue)) as [Ev | Ev].
        + rewrite Ev, !lookup_insert_eq. reflexivity.
        + rewrite !lookup_insert_ne by congruence. exact Hinv.
      - rewrite !lookup_insert_ne by congruence.
        destruct (organized !! preference_type pref);
          [| rewrite lookup_insert_ne by congruence]; exact Hinv. }
    apply G. reflexivity. }
  split; [exact H |].
  intros Hnd. rewrite H. now apply lookup_is_stored.
Qed.

(** ** The work of a planner run *)

Lemma fst_bind_inr {A B : Type} (m : Planner A) (f : A -> Planner B) (events : list Event) (a : A) :
  m = (events, inr a) -> fst (bind m f) = events ++ fst (f a).
Proof. intros ->. cbn [bind]. now destruct (f a). Qed.

Lemma concat_map_singleton {A B : Type} (f : A -> B) (l : list A) :
  concat (map (fun x => [ f x ]) l) = map f l.
Proof. induction l as [|x l IH]; [reflexivity |]. cbn [map concat app]. now rewrite IH. Qed.

Section PlannerWork.

Variable json_loads : string -> option (list Ingredient).

(** X26. What a successful run does, in order: it logs the size of the
    pool, calls the scorer once for each recipe of the pool, in pool order,
    logs the warning exactly when there are more than 10000 combinations,
    evaluates each combination of the candidates once, in the order of
    enumeration, and logs the selection.  The number of evaluations is the
    number of combinations of the candidates: at most 10000 in the
    exhaustive branch, and that of the first fifty recipes in the greedy
    one. *)
Theorem planner_work (user : User) (user_prefs : list UserPreference) (pool : list Recipe) (k : Z) :
  (1 <= k <= Z.of_nat (length pool))%Z ->
  let recipe_scores := cache_scores user_prefs pool ∅ in
  let total := Z.of_nat (binomial (length pool) (Z.to_nat k)) in
  let candidate_recipes := candidates recipe_scores pool (Z.to_nat k) in
  exists best stats,
    get_weekly_recommendations json_loads (Some user) user_prefs pool k
    = (planner_trace pool k total candidate_recipes (ingredient_count (stats_best stats))
         (max_ingredients_per_week user),
       inr (best, stats)) /\
    length (combinations candidate_recipes (Z.to_nat k))
    = binomial (length candidate_recipes) (Z.to_nat k) /\
    length candidate_recipes
    = (if (10000 <? total)%Z then Nat.min 50 (length pool) else length pool).
Proof.
  intros Hk. cbv zeta.
  set (recipe_scores := cache_scores user_prefs pool ∅).
  eexists (fst (chosen json_loads user k recipe_scores pool)),
    (final_stats json_loads user (fst (chosen json_loads user k recipe_scores pool))
       (snd (chosen json_loads user k recipe_scores pool))).
  split; [| split].
  - apply injective_projections; [| apply run_result; exact Hk].
    cbn [fst final_stats stats_best]. unfold get_weekly_recommendations.
    assert (E1 : (Z.of_nat (length pool) <? k)%Z = false) by (apply Z.ltb_ge; lia).
    assert (E2 : (k <? 0)%Z = false) by (apply Z.ltb_ge; lia).
    assert (E0 : (k =? 0)%Z = false) by (apply Z.eqb_neq; lia).
    rewrite E1. unfold planner_trace.
    erewrite fst_bind_inr by reflexivity. f_equal.
    erewrite fst_bind_inr
      by (apply (for_each_pure _ _ (fun recipe => [ Scored (recipe_id recipe) ])); reflexivity).
    rewrite concat_map_singleton. f_equal.
    fold (cache_scores user_prefs pool ∅). fold recipe_scores.
    rewrite E2. erewrite fst_bind_inr by reflexivity. cbn [app].
    cbv zeta. rewrite length_combinations, length_seq.
    unfold chosen, candidates. cbv zeta. rewrite firstn_min_length.
    fold (by_cached_score recipe_scores pool).
    destruct (10000 <? Z.of_nat (binomial (length pool) (Z.to_nat k)))%Z.
    + erewrite fst_bind_inr by reflexivity. cbn [app]. f_equal.
      erewrite fst_bind_inr
        by (apply (for_each_pure _ _ (fun combo => [ Evaluated (map recipe_id combo) ]));
            intros s x; apply evaluate_keep_best; lia).
      rewrite concat_map_singleton. f_equal.
      name_loop_result. destruct res as [[[c v] s]|].
      * erewrite fst_bind_inr by reflexivity. reflexivity.
      * unfold fallback, divide. rewrite E0. reflexivity.
    + erewrite fst_bind_inr by reflexivity. cbn [app].
      erewrite fst_bind_inr
        by (apply (for_each_pure _ _ (fun combo => [ Evaluated (map recipe_id combo) ]));
            intros s x; apply evaluate_keep_best; lia).
      rewrite concat_map_singleton. f_equal.
      name_loop_result. destruct res as [[[c v] s]|].
      * erewrite fst_bind_inr by reflexivity. reflexivity.
      * unfold fallback, divide. rewrite E0. reflexivity.
  - apply length_combinations.
  - unfold candidates. destruct (10000 <? _)%Z; [| reflexivity].
    rewrite length_firstn. unfold by_cached_score.
    now rewrite (Permutation_length (sorted_desc_perm _ pool)).
Qed.

End PlannerWork.

(** ** The batch and the clock *)

Lemma filter_perm {A : Type} (p : A -> bool) (l l' : list A) :
  Permutation l l' -> Permutation (List.filter p l) (List.filter p l').
Proof.
  induction 1 as [| x l l' H IH | x y l | l l' l'' H1 IH1 H2 IH2]; cbn [List.filter].
  - constructor.
  - destruct (p x); [now constructor | assumption].
  - destruct (p x), (p y); try reflexivity. apply perm_swap.
  - now transitivity (List.filter p l').
Qed.

Lemma filter_none {A : Type} (p : A -> bool) (l : list A) :
  (forall x, In x l -> p x = false) -> List.filter p l = [].
Proof.
  induction l as [|x l IH]; intros H; [reflexivity |]. cbn [List.filter].
  rewrite (H x) by now left. apply IH. intros y Hy. apply H. now right.
Qed.

Section Logged.

Variable uid : Z.
Variable message_id : option string.
Variables new_id clock : nat -> Z.
Hypothesis clock_ticks : forall i j, (i < j)%nat -> (clock i < clock j)%Z.

Lemma in_logged (i : nat) (recipe_ids : list Z) (r : Recommendation) :
  In r (logged uid message_id new_id clock i recipe_ids) ->
  exists j rid,
    (i <= j < i + length recipe_ids)%nat /\
    r = new_recommendation uid message_id (new_id j) rid (clock j).
Proof.
  revert i. induction recipe_ids as [|rid rest IH]; intros i; cbn [logged length]; [intros [] |].
  intros [<- | H].
  - exists i, rid. split; [lia | reflexivity].
  - destruct (IH (S i) H) as [j [rid' [Hj E]]]. exists j, rid'. split; [lia | exact E].
Qed.

Lemma logged_awaiting (i : nat) (recipe_ids : list Z) :
  List.filter
    (fun r => (rec_user_id r =? uid)%Z && negb (rec_rated r) && message_matches None r)
    (logged uid message_id new_id clock i recipe_ids)
  = logged uid message_id new_id clock i recipe_ids.
Proof.
  apply filter_all. intros r Hr. apply in_logged in Hr. destruct Hr as [j [rid [_ ->]]].
  cbn. now rewrite Z.eqb_refl.
Qed.

Lemma logged_latest (i : nat) (recipe_ids : list Z) :
  recipe_ids <> [] ->
  List.filter (fun r => (rec_sent_at r =? clock (i + length recipe_ids - 1))%Z)
    (logged uid message_id new_id clock i recipe_ids)
  = [ new_recommendation uid message_id (new_id (i + length recipe_ids - 1))
        (List.last recipe_ids 0%Z) (clock (i + length recipe_ids - 1)) ].
Proof.
  revert i. induction recipe_ids as [|rid rest IH]; intros i Hne; [congruence |].
  cbn [logged List.filter length rec_sent_at new_recommendation].
  destruct rest as [|rid' rest'].
  - cbn [logged List.filter length List.last].
    replace (i + 1 - 1)%nat with i by lia. now rewrite Z.eqb_refl.
  - assert (E : (clock i =? clock (i + S (length (rid' :: rest')) - 1))%Z = false).
    { apply Z.eqb_neq. cbn [length]. pose proof (clock_ticks i (i + S (S (length rest')) - 1)). lia. }
    rewrite E. specialize (IH (S i)).
    replace (S i + length (rid' :: rest') - 1)%nat with (i + S (length (rid' :: rest')) - 1)%nat
      in IH by (cbn [length]; lia).
    rewrite IH by discriminate. reflexivity.
Qed.

Lemma logged_keys_distinct (i : nat) (recipe_ids : list Z) :
  NoDup (map sent_key (logged uid message_id new_id clock i recipe_ids)).
Proof.
  revert i. induction recipe_ids as [|rid rest IH]; intros i; cbn [logged map]; [constructor |].
  constructor; [| apply IH].
  intros Hin. apply list_elem_of_In, in_map_iff in Hin. destruct Hin as [r [Hk Hr]].
  apply in_logged in Hr. destruct Hr as [j [rid' [Hj ->]]].
  unfold sent_key in Hk. cbn in Hk. injection Hk as _ Ht.
  pose proof (clock_ticks i j). lia.
Qed.

End Logged.

Lemma rating_loop_skips (recipes : list Recipe) (uid now : Z) (batch : list Recommendation) (ratings : list (Z * Z)) (state : Ratings) :
  Forall (fun p => (Z.of_nat (length batch) < fst p)%Z) ratings ->
  rating_loop recipes uid now batch ratings state = state.
Proof.
  induction ratings as [|[n rating] ratings IH]; intros H; [reflexivity |].
  apply Forall_cons in H. destruct H as [Hn H]. cbn [fst] in Hn. cbn [rating_loop].
  apply Z.leb_gt in Hn. rewrite Hn. now apply IH.
Qed.

Lemma numbered_from_lower_bound (start : Z) (entered : list Z) :
  Forall (fun p => (start <= fst p)%Z) (numbered_from start entered).
Proof.
  revert start. induction entered as [|rating entered IH]; intros start; [constructor |].
  rewrite numbered_from_cons. constructor; [cbn; lia |].
  eapply Forall_impl; [apply IH |]. intros p Hp. cbn beta in Hp. lia.
Qed.

(** X27. The batch follows the clock.  [log_recommendations] stamps each
    row of a mail with its own reading of the clock.  When the clock moves
    on between the readings (and the earlier rows were sent before), the
    most recent batch of [process_ratings] is the last recipe of the mail
    alone: of a reply that rates the recipes 1, 2, ... only the first rating
    is processed - for that last recipe - and the others are skipped as out
    of range. *)
Theorem ticking_clock_splits_the_batch (recipes : list Recipe) (recommendations : list Recommendation) (preferences : list UserPreference) (uid : Z) (recipe_ids : list Z) (message_id : option string) (new_id clock : nat -> Z) (rating : Z) (entered : list Z) (now : Z) :
  List.NoDup (map sent_key recommendations) ->
  recipe_ids <> [] ->
  (forall i j, (i < j)%nat -> (clock i < clock j)%Z) ->
  (forall r i, In r recommendations -> (rec_sent_at r < clock i)%Z) ->
  (1 <= rating <= 5)%Z ->
  let table := log_recommendations recommendations uid recipe_ids message_id new_id clock in
  let last := (length recipe_ids - 1)%nat in
  let last_row :=
    new_recommendation uid message_id (new_id last) (List.last recipe_ids 0%Z) (clock last) in
  table = recommendations ++ logged uid message_id new_id clock 0 recipe_ids /\
  first_group rec_sent_at (unrated_recommendations table uid None) = [ last_row ] /\
  process_ratings recipes table preferences uid (numbered_from 1 (rating :: entered)) None now
  = {| rt_recommendations := mark_rated (new_id last) rating now table;
       rt_preferences :=
         update_preferences_from_rating recipes preferences uid (List.last recipe_ids 0%Z)
           rating now;
       rt_processed := 1 |}.
Proof.
  intros Hold Hne Hticks Hearlier Hrating. cbv zeta.
  set (rows := logged uid message_id new_id clock 0 recipe_ids).
  set (last := (length recipe_ids - 1)%nat).
  assert (Htable : log_recommendations recommendations uid recipe_ids message_id new_id clock
                   = recommendations ++ rows).
  { unfold log_recommendations. cbv zeta. fold rows.
    rewrite bool_decide_eq_true_2; [reflexivity |].
    rewrite map_app. apply NoDup_app. split; [now apply NoDup_ListNoDup |].
    split; [| now apply logged_keys_distinct].
    intros key Hk Hk'. apply list_elem_of_In, in_map_iff in Hk, Hk'.
    destruct Hk as [r [<- Hr]]. destruct Hk' as [r' [Hk' Hr']].
    apply in_logged in Hr'. destruct Hr' as [j [rid [_ ->]]].
    unfold sent_key in Hk'. cbn in Hk'. injection Hk' as _ _ Ht.
    specialize (Hearlier r j Hr). lia. }
  rewrite Htable. split; [reflexivity |].
  set (awaiting := fun r : Recommendation =>
         (rec_user_id r =? uid)%Z && negb (rec_rated r) && message_matches None r).
  assert (Hlatest : forall r, In r (List.filter awaiting (recommendations ++ rows)) ->
                      (rec_sent_at r <= clock last)%Z).
  { intros r Hr. apply filter_In in Hr. destruct Hr as [Hr _].
    apply in_app_or in Hr. destruct Hr as [Hr | Hr].
    - specialize (Hearlier r last Hr). lia.
    - apply in_logged in Hr. destruct Hr as [j [rid [Hj ->]]]. cbn [rec_sent_at new_recommendation].
      destruct (Nat.eq_dec j last) as [-> | Hjl]; [lia |].
      pose proof (Hticks j last). unfold last in *. lia. }
  assert (Hfilter : List.filter (fun r => (rec_sent_at r =? clock last)%Z)
                      (List.filter awaiting (recommendations ++ rows))
                    = [ new_recommendation uid message_id (new_id last)
                          (List.last recipe_ids 0%Z) (clock last) ]).
  { rewrite List.filter_app. unfold rows, awaiting at 2. rewrite logged_awaiting.
    rewrite List.filter_app.
    rewrite (filter_none _ (List.filter awaiting recommendations)).
    - cbn [app]. apply (logged_latest uid message_id new_id clock Hticks 0 recipe_ids Hne).
    - intros r Hr. apply filter_In in Hr. destruct Hr as [Hr _].
      apply Z.eqb_neq. specialize (Hearlier r last Hr). lia. }
  assert (Hbatch : first_group rec_sent_at (unrated_recommendations (recommendations ++ rows) uid None)
                   = [ new_recommendation uid message_id (new_id last)
                         (List.last recipe_ids 0%Z) (clock last) ]).
  { pose proof (unrated_sorted (recommendations ++ rows) uid None) as Hs.
    unfold unrated_recommendations in *. fold awaiting in Hs |- *.
    pose proof (order_by_perm sent_at_desc_then_id
                  (List.filter awaiting (recommendations ++ rows))) as Hperm.
    destruct (order_by sent_at_desc_then_id (List.filter awaiting (recommendations ++ rows)))
      as [|x sorted] eqn:E.
    { apply (filter_perm (fun r => (rec_sent_at r =? clock last)%Z)) in Hperm.
      rewrite Hfilter in Hperm. cbn [List.filter] in Hperm.
      apply Permutation_nil in Hperm. discriminate. }
    rewrite (first_group_is_filter rec_sent_at x sorted) by now apply sorted_by_sent_at.
    assert (Hx : rec_sent_at x = clock last).
    { assert (H1 : (rec_sent_at x <= clock last)%Z).
      { apply Hlatest. apply (Permutation_in _ Hperm). now left. }
      assert (Hin : In (new_recommendation uid message_id (new_id last)
                          (List.last recipe_ids 0%Z) (clock last)) (x :: sorted)).
      { apply (Permutation_in _ (Permutation_sym Hperm)).
        assert (Hin : In (new_recommendation uid message_id (new_id last)
                            (List.last recipe_ids 0%Z) (clock last))
                        (List.filter (fun r => (rec_sent_at r =? clock last)%Z)
                           (List.filter awaiting (recommendations ++ rows))))
          by (rewrite Hfilter; now left).
        apply filter_In in Hin. now destruct Hin. }
      destruct Hin as [Hx0 | Hin]; [now rewrite Hx0 |].
      destruct Hs as [Hhead _]. rewrite Forall_forall in Hhead.
      specialize (Hhead _ (proj2 (list_elem_of_In _ _) Hin)).
      apply sent_order_sent_at in Hhead. cbn [rec_sent_at new_recommendation] in Hhead. lia. }
    rewrite Hx.
    apply (filter_perm (fun r => (rec_sent_at r =? clock last)%Z)) in Hperm.
    rewrite Hfilter in Hperm. apply Permutation_length_1_inv.
    now symmetry. }
  split; [exact Hbatch |].
  unfold process_ratings. cbv zeta. rewrite Hbatch.
  destruct (unrated_recommendations (recommendations ++ rows) uid None) eqn:E;
    [discriminate Hbatch |].
  rewrite numbered_from_cons. cbn [rating_loop length].
  change (1 <=? Z.of_nat 1)%Z with true. cbv beta iota.
  change (py_index [ new_recommendation uid message_id (new_id last)
                       (List.last recipe_ids 0%Z) (clock last) ] (1 - 1))
    with (Some (new_recommendation uid message_id (new_id last)
                  (List.last recipe_ids 0%Z) (clock last))).
  assert (Hok : rating_allowed rating = true).
  { unfold rating_allowed. apply andb_true_iff. split; apply Z.leb_le; lia. }
  rewrite Hok. cbn [rec_id rec_recipe_id new_recommendation rt_recommendations rt_preferences
                      rt_processed].
  apply rating_loop_skips.
  eapply Forall_impl; [apply numbered_from_lower_bound |].
  intros p Hp. cbn beta in Hp. cbn [length]. lia.
Qed.

(** ** Rating on the web and in the script *)

Lemma find_by_id (recommendations : list Recommendation) (r : Recommendation) :
  List.NoDup (map rec_id recommendations) -> In r recommendations ->
  find (fun x => (rec_id x =? rec_id r)%Z) recommendations = Some r.
Proof.
  intros Hnd Hin. destruct (find _ recommendations) as [x|] eqn:E.
  - apply find_some in E. destruct E as [Hx E]. apply Z.eqb_eq in E. f_equal.
    now apply (nodup_map_inj rec_id recommendations).
  - apply (find_none _ _ E) in Hin. now rewrite Z.eqb_refl in Hin.
Qed.

Lemma update_for_missing_recipe (recipes : list Recipe) (table : list UserPreference) (uid rid rating now : Z) :
  find (fun recipe => (recipe_id recipe =? rid)%Z) recipes = None ->
  update_preferences_from_rating recipes table uid rid rating now = table.
Proof. intros H. unfold update_preferences_from_rating. now rewrite H. Qed.

(** X28. The two ways of rating agree, for the first user.  With unique
    recommendation ids, giving a rating between 1 and 5 to the [i]-th
    recommendation of the first user's batch through the web route leaves
    the recommendations and the preferences exactly as [process_ratings]
    leaves them for the rating numbered [i].  The route books the
    preference update on the first row of [users], whoever the
    recommendation belongs to, and refuses a rating outside 1..5 or an
    unknown recommendation without changing anything. *)
Theorem web_rating_agrees_with_script (db : Database) (uid : Z) (user : User) (others : list (Z * User)) (i : nat) (r : Recommendation) (rating now : Z) :
  db_users db = (uid, user) :: others ->
  List.NoDup (map rec_id (db_recommendations db)) ->
  (1 <= rating <= 5)%Z ->
  let batch :=
    first_group rec_sent_at (unrated_recommendations (db_recommendations db) uid None) in
  let script :=
    process_ratings (db_recipes db) (db_recommendations db) (db_preferences db) uid
      [ (1 + Z.of_nat i, rating)%Z ] None now in
  (nth_error batch i = Some r ->
   db_recommendations (rate db (rec_id r) rating now) = rt_recommendations script /\
   db_preferences (rate db (rec_id r) rating now) = rt_preferences script) /\
  (forall any,
     In any (db_recommendations db) ->
     db_preferences (rate db (rec_id any) rating now)
     = update_preferences_from_rating (db_recipes db) (db_preferences db) uid
         (rec_recipe_id any) rating now) /\
  (forall id bad, (bad < 1 \/ 5 < bad)%Z -> rate db id bad now = db) /\
  (forall id, ~ In id (map rec_id (db_recommendations db)) -> rate db id rating now = db).
Proof.
  intros Husers Hnd Hrating. cbv zeta.
  assert (Hok : ((rating <? 1)%Z || (5 <? rating)%Z) = false).
  { apply orb_false_iff. split; apply Z.ltb_ge; lia. }
  assert (Hweb : forall any,
             In any (db_recommendations db) ->
             db_recommendations (rate db (rec_id any) rating now)
             = mark_rated (rec_id any) rating now (db_recommendations db) /\
             db_preferences (rate db (rec_id any) rating now)
             = update_preferences_from_rating (db_recipes db) (db_preferences db) uid
                 (rec_recipe_id any) rating now).
  { intros any Hany. unfold rate. rewrite (find_by_id _ _ Hnd Hany), Hok, Husers.
    cbv zeta. cbn [hd_error db_recommendations db_preferences]. split; [reflexivity |].
    destruct (find _ (db_recipes db)) as [recipe|] eqn:E.
    - apply find_some in E. destruct E as [_ E]. apply Z.eqb_eq in E. now rewrite E.
    - symmetry. now apply update_for_missing_recipe. }
  split; [| split; [| split]].
  - intros Hi.
    assert (Hin : In r (db_recommendations db)).
    { pose proof (nth_error_In _ _ Hi) as Hb. now apply batch_rows in Hb. }
    destruct (Hweb r Hin) as [-> ->].
    unfold process_ratings. cbv zeta.
    destruct (unrated_recommendations (db_recommendations db) uid None) as [|x rest];
      [destruct i; discriminate Hi |].
    set (batch := first_group rec_sent_at (x :: rest)) in *. cbn [rating_loop].
    assert (Hlt : (i < length batch)%nat) by (apply nth_error_Some; congruence).
    assert (E1 : (1 + Z.of_nat i <=? Z.of_nat (length batch))%Z = true)
      by (apply Z.leb_le; lia).
    rewrite E1. unfold py_index.
    assert (E2 : (0 <=? 1 + Z.of_nat i - 1)%Z = true) by (apply Z.leb_le; lia).
    rewrite E2. replace (Z.to_nat (1 + Z.of_nat i - 1)) with i by lia. rewrite Hi.
    assert (E3 : rating_allowed rating = true).
    { unfold rating_allowed. apply andb_true_iff. split; apply Z.leb_le; lia. }
    rewrite E3. split; reflexivity.
  - intros any Hany. now destruct (Hweb any Hany).
  - intros id bad Hbad. unfold rate.
    destruct (find _ (db_recommendations db)); [| reflexivity].
    assert (E : ((bad <? 1)%Z || (5 <? bad)%Z) = true).
    { apply orb_true_iff. destruct Hbad; [left | right]; now apply Z.ltb_lt. }
    now rewrite E.
  - intros id Hid. unfold rate.
    destruct (find _ (db_recommendations db)) as [x|] eqn:E; [| reflexivity].
    apply find_some in E. destruct E as [Hx E]. apply Z.eqb_eq in E.
    exfalso. apply Hid. rewrite <- E. now apply in_map.
Qed.

(** ** The cleaned body of a reply *)

Lemma occurs_in_trans (a b c : string) : occurs_in a b -> occurs_in b c -> occurs_in a c.
Proof.
  intros [p1 [q1 H1]] [p2 [q2 H2]]. exists (p2 +:+ p1), (q1 +:+ q2).
  rewrite H2, H1. now rewrite !append_assoc.
Qed.

Lemma occurs_in_middle (needle pre s post : string) :
  occurs_in needle s -> occurs_in needle (pre +:+ s +:+ post).
Proof.
  intros [p [q H]]. exists (pre +:+ p), (q +:+ post). rewrite H. now rewrite !append_assoc.
Qed.

Lemma contains_false_middle (needle pre s post : string) :
  Py.contains needle (pre +:+ s +:+ post) = false -> Py.contains needle s = false.
Proof.
  intros H. destruct (Py.contains needle s) eqn:E; [| reflexivity].
  apply contains_spec in E. apply (occurs_in_middle needle pre s post), contains_spec in E.
  congruence.
Qed.

Lemma contains_false_prefix (needle s rest : string) :
  Py.contains needle (s +:+ rest) = false -> Py.contains needle s = false.
Proof.
  intros H. apply (contains_false_middle needle "" s rest). now rewrite append_nil_l.
Qed.

Lemma strip_middle (s : string) :
  exists pre post, s = pre +:+ Py.strip s +:+ post.
Proof.
  destruct (lstrip_split s) as [pre [H1 _]].
  destruct (rstrip_split (Py.lstrip s)) as [post [H2 _]].
  exists pre, post. unfold Py.strip. now rewrite <- H2.
Qed.

Lemma contains_false_strip (needle s : string) :
  Py.contains needle s = false -> Py.contains needle (Py.strip s) = false.
Proof.
  intros H. destruct (strip_middle s) as [pre [post E]]. rewrite E in H.
  exact (contains_false_middle _ _ _ _ H).
Qed.

Lemma before_first_prefix (marker s : string) :
  exists rest, s = before_first marker s +:+ rest.
Proof.
  induction s as [|c s IH]; cbn [before_first].
  - destruct (Py.startswith marker ""); now exists "".
  - destruct (Py.startswith marker (String c s)).
    + exists (String c s). now rewrite append_nil_l.
    + destruct IH as [rest H]. exists rest. unfold_append. now f_equal.
Qed.

Lemma startswith_append (p s rest : string) :
  Py.startswith p s = true -> Py.startswith p (s +:+ rest) = true.
Proof.
  intros H. apply startswith_spec in H. destruct H as [x ->].
  apply startswith_spec. exists (x +:+ rest). now rewrite append_assoc.
Qed.

Lemma before_first_clean (marker s : string) :
  marker <> "" -> Py.contains marker (before_first marker s) = false.
Proof.
  intros Hm. induction s as [|c s IH]; cbn [before_first].
  - destruct (Py.startswith marker "") eqn:E; cbn [Py.contains]; rewrite orb_false_r;
      destruct marker; try congruence; reflexivity.
  - destruct (Py.startswith marker (String c s)) eqn:E.
    + cbn [Py.contains]. rewrite orb_false_r. destruct marker; [congruence | reflexivity].
    + cbn [Py.contains]. rewrite IH, orb_false_r.
      destruct (Py.startswith marker (String c (before_first marker s))) eqn:E'; [| reflexivity].
      destruct (before_first_prefix marker s) as [rest Hrest].
      apply (startswith_append _ _ rest) in E'.
      rewrite append_cons, <- Hrest in E'. congruence.
Qed.

Lemma cut_at_clean (body marker : string) :
  marker <> "" -> Py.contains marker (cut_at body marker) = false.
Proof.
  intros Hm. unfold cut_at. destruct (Py.contains marker body) eqn:E; [| exact E].
  now apply before_first_clean.
Qed.

Lemma cut_at_keeps_clean (needle body marker : string) :
  Py.contains needle body = false -> Py.contains needle (cut_at body marker) = false.
Proof.
  intros H. unfold cut_at. destruct (Py.contains marker body); [| exact H].
  destruct (before_first_prefix marker body) as [rest E]. rewrite E in H.
  exact (contains_false_prefix _ _ _ H).
Qed.

Lemma cuts_keep_clean (needle : string) (markers : list string) (body : string) :
  Py.contains needle body = false ->
  Py.contains needle (fold_left cut_at markers body) = false.
Proof.
  revert body. induction markers as [|m markers IH]; intros body H; [exact H |].
  cbn [fold_left]. apply IH. now apply cut_at_keeps_clean.
Qed.

Lemma cuts_clean (markers : list string) (body marker : string) :
  Forall (fun m => m <> "") markers -> In marker markers ->
  Py.contains marker (fold_left cut_at markers body) = false.
Proof.
  revert body. induction markers as [|m markers IH]; intros body Hne Hin; [destruct Hin |].
  apply Forall_cons in Hne. destruct Hne as [Hm Hne]. cbn [fold_left].
  destruct Hin as [-> | Hin].
  - apply cuts_keep_clean. now apply cut_at_clean.
  - now apply IH.
Qed.

Lemma signature_markers_nonempty : Forall (fun m => m <> "") signature_markers.
Proof. repeat constructor; discriminate. Qed.

(** X29. The cleaned body of a reply holds none of the signature
    markers and is stripped.  The test for the line that ends the reply
    amounts to ['wrote:' in stripped.lower()]: the [and] clause never
    decides.  The cut at ['-----Original Message-----'] never fires, since
    the cut at ['--'] has been made before it. *)
Theorem cleaned_body_has_no_markers (body : string) :
  let cleaned := clean_email_body body in
  (forall marker,
     In marker signature_markers \/ marker = original_message_marker ->
     Py.contains marker cleaned = false) /\
  Py.strip cleaned = cleaned /\
  (forall stripped,
     is_reply_marker stripped = Py.contains "wrote:" (Py.lower stripped)) /\
  (forall text,
     cut_at (fold_left cut_at signature_markers text) original_message_marker
     = fold_left cut_at signature_markers text).
Proof.
  cbv zeta.
  assert (Hdash : forall text,
             Py.contains original_message_marker (fold_left cut_at signature_markers text)
             = false).
  { intros text.
    assert (H : Py.contains "--" (fold_left cut_at signature_markers text) = false).
    { apply cuts_clean; [exact signature_markers_nonempty | now left]. }
    destruct (Py.contains original_message_marker _) eqn:E; [| reflexivity].
    apply contains_spec in E.
    assert (Hin : occurs_in "--" original_message_marker).
    { exists "", "---Original Message-----". reflexivity. }
    pose proof (occurs_in_trans _ _ _ Hin E) as Hocc. apply contains_spec in Hocc. congruence. }
  assert (Hcut : forall text,
             cut_at (fold_left cut_at signature_markers text) original_message_marker
             = fold_left cut_at signature_markers text).
  { intros text. unfold cut_at at 1. now rewrite Hdash. }
  split; [| split; [| split]].
  - intros marker Hm. destruct body as [|c body]; cbn [clean_email_body].
    { destruct Hm as [Hm | ->]; [| reflexivity].
      repeat (destruct Hm as [<- | Hm]; [reflexivity |]). destruct Hm. }
    cbv zeta. rewrite Hcut. apply contains_false_strip.
    destruct Hm as [Hm | ->]; [| apply Hdash].
    apply cuts_clean; [exact signature_markers_nonempty | exact Hm].
  - destruct body as [|c body]; cbn [clean_email_body]; [reflexivity |].
    cbv zeta. apply strip_idempotent.
  - intros stripped. unfold is_reply_marker.
    destruct (Py.contains "wrote:" (Py.lower stripped)) eqn:A; [reflexivity |].
    cbn [orb]. destruct (Py.contains " wrote:" (Py.lower stripped)) eqn:C;
      [| now rewrite andb_false_r].
    apply contains_spec in C.
    assert (Hin : occurs_in "wrote:" " wrote:") by (exists " ", ""; reflexivity).
    pose proof (occurs_in_trans _ _ _ Hin C) as Hocc. apply contains_spec in Hocc. congruence.
  - exact Hcut.
Qed.

(** ** The further theorems on concrete data *)

Lemma example_prefs_keys_distinct : List.NoDup (map pref_key example_prefs).
Proof.
  cbn. repeat (constructor; [cbn; intros H; repeat (destruct H as [H | H]; [discriminate H |]); exact H |]).
  constructor.
Qed.

(** A first difficulty row for the example user. *)
Lemma update_keeps_keys_unique_witness :
  let table' := update_user_preference example_prefs 1 "difficulty" (Some "easy") 1 5 in
  List.NoDup (map pref_key table') /\
  incl (map pref_key example_prefs) (map pref_key table') /\
  (length example_prefs <= length table' <= length example_prefs + 1)%nat.
Proof.
  apply (update_keeps_keys_unique example_prefs 1 "difficulty" (Some "easy") 1 5).
  exact example_prefs_keys_distinct.
Defined.

(** Five stars for the fried rice raise the example user's score for
    Thai food. *)
Lemma rating_moves_the_rated_scores_witness :
  (stored_score (update_preferences_from_rating example_pool example_prefs 1 1 5 9)
     1 "cuisine_type" "thai"
   == stored_score example_prefs 1 "cuisine_type" "thai"
      + (if rated_under (nth 0 example_pool instant_recipe) 1 1 "cuisine_type" "thai"
         then calculate_score_delta 5 else 0))%Q.
Proof.
  apply (proj2 (rating_moves_the_rated_scores example_pool example_prefs 1 1 5 9)).
  reflexivity.
Defined.

(** Five stars for the fried rice and the score of the egg rice, which
    shares its cuisine. *)
Lemma rating_shifts_scores_by_shared_attributes_witness :
  let table' := update_preferences_from_rating example_pool example_prefs 1 1 5 9 in
  (score_recipe_for_user (nth 2 example_pool instant_recipe) (preferences_of 1 table')
   == score_recipe_for_user (nth 2 example_pool instant_recipe) (preferences_of 1 example_prefs)
      + (if (1 =? 1)%Z
         then inject_Z (shared_attributes (nth 0 example_pool instant_recipe)
                          (nth 2 example_pool instant_recipe))
              * calculate_score_delta 5
         else 0))%Q /\
  shared_attributes (nth 0 example_pool instant_recipe) (nth 0 example_pool instant_recipe)
  = present_attributes (nth 0 example_pool instant_recipe) /\
  List.NoDup (map pref_key table').
Proof.
  apply (rating_shifts_scores_by_shared_attributes example_pool example_prefs 1 1 1 5 9
           (nth 0 example_pool instant_recipe) (nth 2 example_pool instant_recipe)).
  - exact example_prefs_keys_distinct.
  - reflexivity.
Defined.

Lemma numbered_pool_ids_distinct : List.NoDup (map recipe_id (numbered_pool 30)).
Proof. apply NoDup_ListNoDup. apply (bool_decide_unpack _). vm_compute. exact I. Qed.



Lemma example_recommendation_ids_distinct : List.NoDup (map rec_id example_recommendations).
Proof.
  cbn. repeat (constructor; [cbn; intros H; repeat (destruct H as [H | H]; [discriminate H |]); exact H |]).
  constructor.
Qed.

Lemma example_recommendations_refer_to_recipes (r : Recommendation) :
  In r example_recommendations -> In (rec_recipe_id r) (map recipe_id example_pool).
Proof.
  intros H. repeat (destruct H as [<- | H]; [vm_compute; tauto |]). destruct H.
Qed.

(** Two recipes for user 1, sixty-nine days after the last mail. *)
Lemma weekly_plan_avoids_excluded_witness :
  exists best stats,
    snd (get_weekly_recommendations_from json_loads_string_arrays example_database 1 2
           example_now)
    = inr (best, stats) /\
    length best = Z.to_nat 2 /\
    forall recipe,
      In recipe best ->
      In recipe (db_recipes example_database) /\
      ~ excluded (db_recommendations example_database) 1 example_now 60 (recipe_id recipe).
Proof.
  apply (weekly_plan_avoids_excluded json_loads_string_arrays example_database 1 2 example_now).
  vm_compute. split; discriminate.
Defined.

(** The example tables: the batch of user 1 keeps distinct ids. *)
Lemma most_recent_batch_spec_witness :
  List.NoDup
    (map rec_id
       (first_group rec_sent_at (unrated_recommendations example_recommendations 1 None))).
Proof.
  apply (most_recent_batch_spec example_recommendations 1 None).
  exact example_recommendation_ids_distinct.
Defined.

Lemma shown_batch_is_rated_batch_witness :
  let shown := get_unrated_recipes example_pool example_recommendations 1 in
  map fst shown
  = first_group rec_sent_at (unrated_recommendations example_recommendations 1 None) /\
  (forall row, In row shown ->
     In (snd row) example_pool /\ recipe_id (snd row) = rec_recipe_id (fst row)).
Proof.
  apply (shown_batch_is_rated_batch example_pool example_recommendations 1).
  - exact example_pool_ids_distinct.
  - exact example_recommendations_refer_to_recipes.
Defined.

(** A rating numbered 3 for a batch of two is skipped. *)
Lemma process_ratings_edge_cases_witness :
  process_ratings example_pool example_recommendations example_prefs 1
    ([ (1%Z, 5%Z) ] ++ (3%Z, 4%Z) :: [ (2%Z, 2%Z) ]) None example_now
  = process_ratings example_pool example_recommendations example_prefs 1
      ([ (1%Z, 5%Z) ] ++ [ (2%Z, 2%Z) ]) None example_now.
Proof.
  destruct (process_ratings_edge_cases example_pool example_recommendations example_prefs 1 None
              example_now) as [_ [_ [Hskip _]]].
  apply Hskip. vm_compute. reflexivity.
Defined.

(** Five stars and two stars for the two recipes of the batch. *)
Lemma complete_rating_is_processed_witness :
  let batch :=
    first_group rec_sent_at (unrated_recommendations example_recommendations 1 None) in
  let result :=
    process_ratings example_pool example_recommendations example_prefs 1
      (numbered_from 1 [ 5%Z; 2%Z ]) None example_now in
  result
  = all_processed example_pool 1 example_now (combine batch [ 5%Z; 2%Z ])
      {| rt_recommendations := example_recommendations;
         rt_preferences := example_prefs;
         rt_processed := 0 |} /\
  rt_processed result = length batch /\
  (List.NoDup (map rec_id example_recommendations) ->
   forall r rating,
     In (r, rating) (combine batch [ 5%Z; 2%Z ]) ->
     In (rated_as rating example_now r) (rt_recommendations result)).
Proof.
  apply (complete_rating_is_processed example_pool example_recommendations example_prefs 1 None
           example_now [ 5%Z; 2%Z ]).
  - vm_compute. reflexivity.
  - repeat constructor; lia.
Defined.

(** The same two ratings in the other order. *)
Lemma validated_ratings_are_all_processed_witness :
  let batch :=
    first_group rec_sent_at (unrated_recommendations example_recommendations 1 None) in
  let result :=
    process_ratings example_pool example_recommendations example_prefs 1
      [ (2%Z, 2%Z); (1%Z, 5%Z) ] None example_now in
  rt_processed result = length batch /\
  (List.NoDup (map rec_id example_recommendations) ->
   (forall n rating r,
      In (n, rating) [ (2%Z, 2%Z); (1%Z, 5%Z) ] ->
      nth_error batch (Z.to_nat (n - 1)) = Some r ->
      In (rated_as rating example_now r) (rt_recommendations result)) /\
   (forall r, In r batch ->
      exists rating, In (rated_as rating example_now r) (rt_recommendations result))).
Proof.
  apply (validated_ratings_are_all_processed example_pool example_recommendations example_prefs
           1 None example_now [ (2%Z, 2%Z); (1%Z, 5%Z) ]).
  vm_compute. reflexivity.
Defined.

(** Two stars for the tomato salad: it leaves the pool. *)
Lemma low_rating_removes_recipe_witness :
  let result :=
    process_ratings example_pool example_recommendations example_prefs 1
      (numbered_from 1 [ 5%Z; 2%Z ]) None example_now in
  let db :=
    {| db_users := db_users example_database;
       db_recipes := example_pool;
       db_recommendations := rt_recommendations result;
       db_preferences := rt_preferences result |} in
  (forall later days recipe,
     In recipe (get_available_recipes (rt_recommendations result) example_pool 1 later days) ->
     recipe_id recipe <> rec_recipe_id (example_recommendation 2 1 2 100 None)) /\
  (forall k later best stats,
     snd (get_weekly_recommendations_from json_loads_string_arrays db 1 k later)
     = inr (best, stats) ->
     forall recipe, In recipe best ->
       recipe_id recipe <> rec_recipe_id (example_recommendation 2 1 2 100 None)).
Proof.
  apply (low_rating_removes_recipe json_loads_string_arrays (db_users example_database)
           example_pool example_recommendations example_prefs 1 None example_now
           [ 5%Z; 2%Z ] (example_recommendation 2 1 2 100 None) 2).
  - exact example_recommendation_ids_distinct.
  - vm_compute. reflexivity.
  - repeat constructor; lia.
  - vm_compute. right. left. reflexivity.
  - lia.
Defined.


(** A cold start of two out of the four example recipes, drawn in
    reverse order. *)
Lemma cold_start_selection_witness :
  let selected := select_random_diverse_recipes example_pool 2 (List.rev example_pool) 3 in
  ((Z.of_nat (length example_pool) <= 2)%Z -> selected = example_pool) /\
  ((2 < Z.of_nat (length example_pool))%Z ->
   length selected = Z.to_nat 2 /\
   List.NoDup (map recipe_id selected) /\
   incl selected example_pool /\
   size (cuisines_of selected) = Nat.min (Z.to_nat 2) (size (cuisines_of example_pool)) /\
   selected = select_random_diverse_recipes example_pool 2 (List.rev example_pool) 1).
Proof.
  apply (cold_start_selection example_pool (List.rev example_pool) 2 3).
  - apply Permutation_sym, Permutation_rev.
  - exact example_pool_ids_distinct.
  - lia.
Defined.

(** The example table of user 1 through the engine's dict. *)
Lemma engine_preferences_agree_with_planner_witness :
  default 0%Q (organized_get (get_user_preferences example_prefs 1) "cuisine_type" "thai")
  = stored_score example_prefs 1 "cuisine_type" "thai".
Proof.
  apply (engine_preferences_agree_with_planner example_prefs 1 "cuisine_type" "thai").
  exact example_prefs_keys_distinct.
Defined.

(** The work of planning two of the four example recipes. *)
Lemma planner_work_witness :
  let recipe_scores := cache_scores example_prefs example_pool ∅ in
  let total := Z.of_nat (binomial (length example_pool) (Z.to_nat 2)) in
  let candidate_recipes := candidates recipe_scores example_pool (Z.to_nat 2) in
  exists best stats,
    get_weekly_recommendations json_loads_string_arrays (Some example_user) example_prefs
      example_pool 2
    = (planner_trace example_pool 2 total candidate_recipes
         (ingredient_count (stats_best stats)) (max_ingredients_per_week example_user),
       inr (best, stats)) /\
    length (combinations candidate_recipes (Z.to_nat 2))
    = binomial (length candidate_recipes) (Z.to_nat 2) /\
    length candidate_recipes
    = (if (10000 <? total)%Z then Nat.min 50 (length example_pool) else length example_pool).
Proof.
  apply (planner_work json_loads_string_arrays example_user example_prefs example_pool 2).
  vm_compute. split; discriminate.
Defined.

Lemma example_recommendation_sent_keys_distinct :
  List.NoDup (map sent_key example_recommendations).
Proof.
  cbn. repeat (constructor; [cbn; intros H; repeat (destruct H as [H | H]; [discriminate H |]); exact H |]).
  constructor.
Qed.

(** A mail with recipes 3 and 4, logged at instants 200 and 201. *)
Lemma ticking_clock_splits_the_batch_witness :
  let clock := fun i => (200 + Z.of_nat i)%Z in
  let new_id := fun i => (10 + Z.of_nat i)%Z in
  let table :=
    log_recommendations example_recommendations 1 [ 3%Z; 4%Z ] None new_id clock in
  let last_row := new_recommendation 1 None (new_id 1%nat) 4 (clock 1%nat) in
  table = example_recommendations ++ logged 1 None new_id clock 0 [ 3%Z; 4%Z ] /\
  first_group rec_sent_at (unrated_recommendations table 1 None) = [ last_row ] /\
  process_ratings example_pool table example_prefs 1 (numbered_from 1 (4%Z :: [ 5%Z ])) None
    example_now
  = {| rt_recommendations := mark_rated (new_id 1%nat) 4 example_now table;
       rt_preferences :=
         update_preferences_from_rating example_pool example_prefs 1 4 4 example_now;
       rt_processed := 1 |}.
Proof.
  apply (ticking_clock_splits_the_batch example_pool example_recommendations example_prefs 1
           [ 3%Z; 4%Z ] None (fun i => (10 + Z.of_nat i)%Z) (fun i => (200 + Z.of_nat i)%Z)
           4 [ 5%Z ] example_now).
  - exact example_recommendation_sent_keys_distinct.
  - discriminate.
  - intros i j H. lia.
  - intros r i H. repeat (destruct H as [<- | H]; [cbn; lia |]). destruct H.
  - lia.
Defined.

(** Four stars for the first recipe of the batch, on the web and in the
    script. *)
Lemma web_rating_agrees_with_script_witness :
  let batch :=
    first_group rec_sent_at
      (unrated_recommendations (db_recommendations example_database) 1 None) in
  let script :=
    process_ratings (db_recipes example_database) (db_recommendations example_database)
      (db_preferences example_database) 1 [ (1 + Z.of_nat 0, 4)%Z ] None example_now in
  let r := example_recommendation 1 1 1 100 None in
  (nth_error batch 0 = Some r ->
   db_recommendations (rate example_database (rec_id r) 4 example_now)
   = rt_recommendations script /\
   db_preferences (rate example_database (rec_id r) 4 example_now) = rt_preferences script) /\
  (forall any,
     In any (db_recommendations example_database) ->
     db_preferences (rate example_database (rec_id any) 4 example_now)
     = update_preferences_from_rating (db_recipes example_database)
         (db_preferences example_database) 1 (rec_recipe_id any) 4 example_now) /\
  (forall id bad, (bad < 1 \/ 5 < bad)%Z -> rate example_database id bad example_now
                                            = example_database) /\
  (forall id, ~ In id (map rec_id (db_recommendations example_database)) ->
              rate example_database id 4 example_now = example_database).
Proof.
  apply (web_rating_agrees_with_script example_database 1 example_user [] 0
           (example_recommendation 1 1 1 100 None) 4 example_now).
  - reflexivity.
  - exact example_recommendation_ids_distinct.
  - lia.
Defined.
